(** * Pharmacy analytics dashboard: loader, filters and KPI rules

    A shallow embedding of [pharmacy_dashboard.py]: the workbook loader
    [load_data], the sidebar filters that build [filtered_data], the
    overview KPIs with their health notices, the quartile segmentation of
    daily revenue and the training loop of the forecast models.

    Tables are lists of records, one record per DataFrame row, each row
    carrying its index label.  Amounts read from a numeric sheet column are
    rationals; values computed by pandas/numpy arithmetic live in [num],
    which adds the IEEE special values that arithmetic can produce. *)

From Stdlib Require Import ZArith QArith Qreduction Qround Lia Lqa Bool.
From Stdlib Require Import Ascii String Sorted Permutation.
From stdpp Require Import base list.

Local Open Scope Z_scope.

(** ** Numbers *)

(** A float64 value as numpy sees it: a finite number or one of the three
    special values.  A finite value is an exact rational: the rounding of
    float64 arithmetic and the sign of zero are not represented.  The
    arithmetic is used below for what does not depend on rounding: tests
    against zero, the comparison of a value with a constant, the equality
    of two values computed by the same expression, and the places where
    [NaN] and the infinities appear. *)
Inductive num : Type :=
  | Fin (q : Q)
  | PInf
  | NInf
  | NaN.

Module Num.

Definition isnan (x : num) : bool :=
  match x with NaN => true | _ => false end.

Definition isfinite (x : num) : bool :=
  match x with Fin _ => true | _ => false end.

Definition add (x y : num) : num :=
  match x, y with
  | NaN, _ | _, NaN => NaN
  | Fin a, Fin b => Fin (Qred (a + b))
  | PInf, NInf | NInf, PInf => NaN
  | PInf, _ | _, PInf => PInf
  | NInf, _ | _, NInf => NInf
  end.

Definition sub (x y : num) : num :=
  match x, y with
  | NaN, _ | _, NaN => NaN
  | Fin a, Fin b => Fin (Qred (a - b))
  | PInf, PInf | NInf, NInf => NaN
  | PInf, _ | _, NInf => PInf
  | NInf, _ | _, PInf => NInf
  end.

(** The infinity whose sign is the sign of [q]; [NaN] for zero. *)
Definition signed_inf (q : Q) : num :=
  match (q ?= 0)%Q with
  | Eq => NaN
  | Gt => PInf
  | Lt => NInf
  end.

Definition mul (x y : num) : num :=
  match x, y with
  | NaN, _ | _, NaN => NaN
  | Fin a, Fin b => Fin (Qred (a * b))
  | Fin a, PInf | PInf, Fin a => signed_inf a
  | Fin a, NInf | NInf, Fin a => signed_inf (- a)
  | PInf, PInf | NInf, NInf => PInf
  | PInf, NInf | NInf, PInf => NaN
  end.

(** numpy true division: a zero divisor does not raise, it yields
    [nan] for [0/0] and a signed infinity otherwise. *)
Definition div (x y : num) : num :=
  match x, y with
  | NaN, _ | _, NaN => NaN
  | Fin a, Fin b =>
      if Qeq_bool b 0 then signed_inf a else Fin (Qred (a / b))
  | Fin _, (PInf | NInf) => Fin 0
  | PInf, Fin b => if Qle_bool 0 b then PInf else NInf
  | NInf, Fin b => if Qle_bool 0 b then NInf else PInf
  | (PInf | NInf), (PInf | NInf) => NaN
  end.

(** Comparisons: every comparison with [NaN] is false. *)
Definition ltb (x y : num) : bool :=
  match x, y with
  | NaN, _ | _, NaN => false
  | Fin a, Fin b => negb (Qle_bool b a)
  | NInf, (Fin _ | PInf) => true
  | Fin _, PInf => true
  | _, _ => false
  end.

Definition leb (x y : num) : bool :=
  match x, y with
  | NaN, _ | _, NaN => false
  | Fin a, Fin b => Qle_bool a b
  | NInf, _ => true
  | _, PInf => true
  | _, _ => false
  end.

Definition gtb (x y : num) : bool := ltb y x.
Definition geb (x y : num) : bool := leb y x.

End Num.

(** [Series.sum()]: missing values are skipped, the empty sum is 0. *)
Definition series_sum (col : list num) : num :=
  fold_left Num.add (List.filter (fun x => negb (Num.isnan x)) col) (Fin 0).

(** Sum of a column that holds no missing value, as an exact rational
    (neither the rounding of a float64 sum nor the wrap-around of an int64
    one is represented). *)
Definition column_sum (col : list Q) : Q :=
  Qred (fold_left Qplus col 0%Q).

Definition Qgtb (a b : Q) : bool := negb (Qle_bool a b).
Definition Qltb (a b : Q) : bool := negb (Qle_bool b a).

(** ** Calendar dates *)

(** A calendar day is its proleptic Gregorian ordinal (day 1 is
    0001-01-01), as [datetime.date.toordinal] numbers days.  Comparing
    dates is comparing ordinals and [d - timedelta(days=k)] is [d - k]. *)
Module Calendar.

Definition DI400Y : Z := 146097.
Definition DI100Y : Z := 36524.
Definition DI4Y : Z := 1461.

Definition DAYS_IN_MONTH : list Z :=
  [-1; 31; 28; 31; 30; 31; 30; 31; 31; 30; 31; 30; 31].

Definition DAYS_BEFORE_MONTH : list Z :=
  [-1; 0; 31; 59; 90; 120; 151; 181; 212; 243; 273; 304; 334].

Definition is_leap (year : Z) : bool :=
  (year mod 4 =? 0) && (negb (year mod 100 =? 0) || (year mod 400 =? 0)).

Definition days_before_year (year : Z) : Z :=
  let y := year - 1 in
  y * 365 + y / 4 - y / 100 + y / 400.

Definition days_in_month (year month : Z) : Z :=
  if (month =? 2) && is_leap year then 29
  else nth (Z.to_nat month) DAYS_IN_MONTH (-1).

Definition days_before_month (year month : Z) : Z :=
  nth (Z.to_nat month) DAYS_BEFORE_MONTH (-1)
  + (if (2 <? month) && is_leap year then 1 else 0).

(** [datetime.date(year, month, day).toordinal()]. *)
Definition ymd2ord (year month day : Z) : Z :=
  days_before_year year + days_before_month year month + day.

(** The (year, month, day) of an ordinal. *)
Definition ord2ymd (ordinal : Z) : Z * Z * Z :=
  let n := ordinal - 1 in
  let n400 := n / DI400Y in
  let n := n mod DI400Y in
  let year := n400 * 400 + 1 in
  let n100 := n / DI100Y in
  let n := n mod DI100Y in
  let n4 := n / DI4Y in
  let n := n mod DI4Y in
  let n1 := n / 365 in
  let n := n mod 365 in
  let year := year + n100 * 100 + n4 * 4 + n1 in
  if (n1 =? 4) || (n100 =? 4) then (year - 1, 12, 31)
  else
    let leapyear := (n1 =? 3) && (negb (n4 =? 24) || (n100 =? 3)) in
    let month := Z.shiftr (n + 50) 5 in
    let preceding :=
      nth (Z.to_nat month) DAYS_BEFORE_MONTH (-1)
      + (if (2 <? month) && leapyear then 1 else 0) in
    if n <? preceding then
      let month := month - 1 in
      let preceding :=
        preceding
        - (nth (Z.to_nat month) DAYS_IN_MONTH (-1)
           + (if (month =? 2) && leapyear then 1 else 0)) in
      (year, month, n - preceding + 1)
    else (year, month, n - preceding + 1).

Definition year_of (ordinal : Z) : Z := fst (fst (ord2ymd ordinal)).
Definition month_of (ordinal : Z) : Z := snd (fst (ord2ymd ordinal)).
Definition day_of (ordinal : Z) : Z := snd (ord2ymd ordinal).

(** Decimal value of a digit character. *)
Definition digit (c : ascii) : option Z :=
  let n := Z.of_nat (nat_of_ascii c) in
  if (48 <=? n) && (n <=? 57) then Some (n - 48) else None.

Fixpoint digits (acc : Z) (cs : list ascii) : option Z :=
  match cs with
  | [] => Some acc
  | c :: cs' =>
      match digit c with
      | Some d => digits (acc * 10 + d) cs'
      | None => None
      end
  end.

(** A text parser for the ISO form [YYYY-MM-DD], one instance of the
    parser that [to_datetime] is parameterised by below. *)
Definition parse_iso (s : string) : option Z :=
  match list_ascii_of_string s with
  | [y1; y2; y3; y4; s1; m1; m2; s2; d1; d2] =>
      if Ascii.eqb s1 "-" && Ascii.eqb s2 "-" then
        match digits 0 [y1; y2; y3; y4], digits 0 [m1; m2], digits 0 [d1; d2] with
        | Some y, Some m, Some d =>
            if (1 <=? y) && (1 <=? m) && (m <=? 12)
               && (1 <=? d) && (d <=? days_in_month y m)
            then Some (ymd2ord y m d) else None
        | _, _, _ => None
        end
      else None
  | _ => None
  end.

End Calendar.

(** ** The workbook and the loaded tables *)

(** A cell of a [Date] column as [read_excel] returns it: empty, a
    timestamp, text or a number.  A timestamp is kept as its calendar day,
    which is what the sidebar reads of it through [.dt.date] and
    [.dt.month].  [read_excel] turns the texts of [STR_NA_VALUES] into an
    empty cell, so a [Text] cell holds none of them. *)
Inductive cell : Type :=
  | Blank
  | Stamp (day : Z)
  | Text (s : string)
  | Number (q : Q).

(** The texts the pandas readers take for a missing value (their default
    [na_values]). *)
Definition STR_NA_VALUES : list string :=
  ["-1.#IND"; "1.#QNAN"; "1.#IND"; "-1.#QNAN"; "#N/A N/A"; "#N/A"; "N/A";
   "n/a"; "NA"; "<NA>"; "#NA"; "NULL"; "null"; "NaN"; "-NaN"; "nan"; "-nan";
   "None"; EmptyString]%string.

Definition is_na_value (s : string) : bool :=
  existsb (String.eqb s) STR_NA_VALUES.

(** Rows of the three transactional sheets as read.  A numeric cell is
    [None] when it is empty. *)
Record income_sheet_row : Type := {
  s_Date : cell;
  s_Total : option Q;
  s_cash : option Q;
  s_visa : option Q;
  s_due_amount : option Q;
  s_Gross_Income_sys : option Q
}.

Record purchase_sheet_row : Type := {
  ps_Date : cell;
  ps_id : string;
  ps_Invoice_Company : string;
  ps_Inventory_Type : string;
  ps_Invoice_Type : string;
  ps_Invoice_Amount : option Q;
  ps_Credit_Limit : option Q
}.

Record expense_sheet_row : Type := {
  es_Date : cell;
  es_Expense_Type : string;
  es_Expense_Amount : option Q
}.

(** Rows of the tables [load_data] returns.  [idx] is the index label of
    the row (its position in the sheet), [Date] the cell of the [Date]
    column (after [fillna(0)] where the column is numeric) and [date] the
    parsed timestamp, [None] standing for [NaT]. *)
Record income_row : Type := {
  idx : nat;
  Date : cell;
  date : option Z;
  Total : Q;
  cash : Q;
  visa : Q;
  due_amount : Q;
  Gross_Income_sys : Q;
  net_income : num;
  deficit : num
}.

Record purchase_row : Type := {
  p_idx : nat;
  p_Date : cell;
  p_date : option Z;
  p_id : string;
  Invoice_Company : string;
  Inventory_Type : string;
  Invoice_Type : string;
  Invoice_Amount : Q;
  Credit_Limit : Q
}.

Record expense_row : Type := {
  e_idx : nat;
  e_Date : cell;
  e_date : option Z;
  Expense_Type : string;
  Expense_Amount : Q
}.

(** The dictionary [load_data] returns, without the reference lists
    (their column names are treated with the other headers below). *)
Record tables : Type := {
  t_daily_income : list income_row;
  t_inventory_purchases : list purchase_row;
  t_expenses : list expense_row
}.

(** *** Series arithmetic *)

(** [a op b] on two Series with a default [RangeIndex]: the result is
    indexed by the union of both indexes and is [NaN] at a label one side
    lacks. *)
Fixpoint series_binop (op : num -> num -> num) (a b : list num) : list num :=
  match a with
  | [] => List.map (fun y => op NaN y) b
  | x :: a' =>
      match b with
      | [] => List.map (fun x => op x NaN) a
      | y :: b' => op x y :: series_binop op a' b'
      end
  end.

Definition at_label (s : list num) (i : nat) : num :=
  match s !! i with
  | Some x => x
  | None => NaN
  end.

(** [df[col] = s] on a frame of [n] rows: [s] is reindexed to the frame's
    index, labels it lacks become [NaN], labels beyond the frame are lost. *)
Definition assign_column (n : nat) (s : list num) : list num :=
  List.map (at_label s) (seq 0 n).

(** [fillna(0)] on a numeric cell. *)
Definition fillna0 (c : option Q) : Q :=
  match c with
  | Some q => q
  | None => 0%Q
  end.

(** [dropna(subset=["Date"])] keeps a row when its [Date] cell is not null. *)
Definition notnull (c : cell) : bool :=
  match c with
  | Blank => false
  | _ => true
  end.

(** The columns [select_dtypes(include=['float64', 'int64'])] selects hold
    numbers.  A [Date] column is one of them when each of its cells is a
    number or empty; a column of empty cells only is read as float64. *)
Definition numeric_column (col : list cell) : bool :=
  forallb (fun c => match c with
                    | Blank | Number _ => true
                    | Stamp _ | Text _ => false
                    end) col.

(** [fillna(0)] as it reaches a [Date] cell: only a numeric column is
    filled. *)
Definition fillna_Date (col : list cell) (c : cell) : cell :=
  if numeric_column col then
    match c with
    | Blank => Number 0
    | _ => c
    end
  else c.

Section Loader.

(** The conversions behind [pd.to_datetime], taken as given: the day a
    text denotes and the day a number denotes, [None] where
    [errors='coerce'] gives [NaT]. *)
Variable parse_text : string -> option Z.
Variable parse_number : Q -> option Z.

(** [pd.to_datetime(cell, errors='coerce')]. *)
Definition to_datetime (c : cell) : option Z :=
  match c with
  | Blank => None
  | Stamp d => Some d
  | Text s => parse_text s
  | Number q => parse_number q
  end.

(** The numeric columns after [fillna(0)], as Series. *)
Definition Total_col (income : list income_sheet_row) : list num :=
  List.map (fun r => Fin (fillna0 (s_Total r))) income.

Definition Gross_Income_sys_col (income : list income_sheet_row) : list num :=
  List.map (fun r => Fin (fillna0 (s_Gross_Income_sys r))) income.

Definition Expense_Amount_col (expenses : list expense_sheet_row) : list num :=
  List.map (fun r => Fin (fillna0 (es_Expense_Amount r))) expenses.

Definition Invoice_Amount_col (purchases : list purchase_sheet_row) : list num :=
  List.map (fun r => Fin (fillna0 (ps_Invoice_Amount r))) purchases.

(** The two derived columns of the daily-income frame. *)
Definition net_income_col (income : list income_sheet_row)
    (purchases : list purchase_sheet_row)
    (expenses : list expense_sheet_row) : list num :=
  assign_column (length income)
    (series_binop Num.sub
       (series_binop Num.sub (Total_col income) (Expense_Amount_col expenses))
       (Invoice_Amount_col purchases)).

Definition deficit_col (income : list income_sheet_row) : list num :=
  assign_column (length income)
    (series_binop Num.sub (Total_col income) (Gross_Income_sys_col income)).

(** Row [i] of the daily-income frame once the columns are added. *)
Definition income_frame_row (income : list income_sheet_row)
    (purchases : list purchase_sheet_row)
    (expenses : list expense_sheet_row)
    (i : nat) (r : income_sheet_row) : income_row :=
  {| idx := i;
     Date := fillna_Date (List.map s_Date income) (s_Date r);
     date := to_datetime (s_Date r);
     Total := fillna0 (s_Total r);
     cash := fillna0 (s_cash r);
     visa := fillna0 (s_visa r);
     due_amount := fillna0 (s_due_amount r);
     Gross_Income_sys := fillna0 (s_Gross_Income_sys r);
     net_income := at_label (net_income_col income purchases expenses) i;
     deficit := at_label (deficit_col income) i |}.

Definition income_frame (income : list income_sheet_row)
    (purchases : list purchase_sheet_row)
    (expenses : list expense_sheet_row) : list income_row :=
  imap (income_frame_row income purchases expenses) income.

Definition purchase_frame (purchases : list purchase_sheet_row) : list purchase_row :=
  imap (fun i r =>
    {| p_idx := i;
       p_Date := fillna_Date (List.map ps_Date purchases) (ps_Date r);
       p_date := to_datetime (ps_Date r);
       p_id := ps_id r;
       Invoice_Company := ps_Invoice_Company r;
       Inventory_Type := ps_Inventory_Type r;
       Invoice_Type := ps_Invoice_Type r;
       Invoice_Amount := fillna0 (ps_Invoice_Amount r);
       Credit_Limit := fillna0 (ps_Credit_Limit r) |}) purchases.

Definition expense_frame (expenses : list expense_sheet_row) : list expense_row :=
  imap (fun i r =>
    {| e_idx := i;
       e_Date := fillna_Date (List.map es_Date expenses) (es_Date r);
       e_date := to_datetime (es_Date r);
       Expense_Type := es_Expense_Type r;
       Expense_Amount := fillna0 (es_Expense_Amount r) |}) expenses.

(** [load_data] on the three transactional sheets: parse the dates and
    fill the numeric columns, derive [net_income] and [deficit], then
    drop the rows whose [Date] cell is null at that point. *)
Definition load_data (income : list income_sheet_row)
    (purchases : list purchase_sheet_row)
    (expenses : list expense_sheet_row) : tables :=
  {| t_daily_income :=
       List.filter (fun r => notnull (Date r))
         (income_frame income purchases expenses);
     t_inventory_purchases :=
       List.filter (fun r => notnull (p_Date r)) (purchase_frame purchases);
     t_expenses :=
       List.filter (fun r => notnull (e_Date r)) (expense_frame expenses) |}.

End Loader.

(** *** Column names *)

(** A column name is a Python [str]: a sequence of Unicode code points.
    Header cells are taken to hold text. *)
Definition str : Type := list N.

(** The code points of an ASCII literal. *)
Definition str_of (s : string) : str :=
  List.map N_of_ascii (list_ascii_of_string s).

(** The whitespace [str.strip()] removes: the code points for which
    [str.isspace] holds. *)
Definition isspace (c : N) : bool :=
  ((9 <=? c) && (c <=? 13) || (28 <=? c) && (c <=? 32)
   || (c =? 133) || (c =? 160) || (c =? 5760)
   || (8192 <=? c) && (c <=? 8202)
   || (c =? 8232) || (c =? 8233) || (c =? 8239) || (c =? 8287)
   || (c =? 12288))%N.

Fixpoint lstrip (s : str) : str :=
  match s with
  | [] => []
  | c :: s' => if isspace c then lstrip s' else s
  end.

Definition rstrip (s : str) : str := rev (lstrip (rev s)).

(** [str.strip()]. *)
Definition strip (s : str) : str := rstrip (lstrip s).

(** The header rows of the four sheets. *)
Record headers : Type := {
  h_lists : list str;
  h_daily_income : list str;
  h_inventory_purchases : list str;
  h_expenses : list str
}.

Section ColumnNames.

(** [str.lower()].  The case mapping is the interpreter's, by the Unicode
    database and with rules that look at the neighbours of a letter; it is
    taken as given. *)
Variable str_lower : str -> str.

(** The "Clean up column names" step of [load_data]. *)
Definition clean_up_column_names (h : headers) : headers :=
  {| h_lists := List.map (fun c => str_lower (strip c)) (h_lists h);
     h_daily_income := h_daily_income h;
     h_inventory_purchases := List.map strip (h_inventory_purchases h);
     h_expenses := List.map strip (h_expenses h) |}.

(** Name normalisation as the specification words it: whitespace trim
    followed by case folding. *)
Definition normalize_name (c : str) : str := str_lower (strip c).

End ColumnNames.

(** ** Sidebar filters *)

Inductive date_preset_option : Type :=
  | Custom
  | Last_7_Days
  | Last_30_Days
  | Last_90_Days
  | Year_to_Date
  | All_Time.

(** The widget values the sidebar reads.  [date_range] is what the date
    picker returned (used under [Custom] only); the three selections hold
    ["All"] or a category. *)
Record sidebar : Type := {
  date_preset : date_preset_option;
  date_range : list Z;
  month_preset : string;
  selected_type : string;
  selected_company : string;
  selected_expense : string
}.

Record filtered_data : Type := {
  daily_income : list income_row;
  inventory : list purchase_row;
  expenses : list expense_row
}.

(** [Series.min()] and [Series.max()] of a datetime column: [NaT] entries
    are skipped, and the result is [None] ([NaT]) when nothing is left. *)
Definition notna_dates (col : list (option Z)) : list Z := omap id col.

Definition series_min (l : list Z) : option Z :=
  match l with
  | [] => None
  | x :: l' => Some (fold_left Z.min l' x)
  end.

Definition series_max (l : list Z) : option Z :=
  match l with
  | [] => None
  | x :: l' => Some (fold_left Z.max l' x)
  end.

(** [calendar.month_name]. *)
Definition month_name : list string :=
  [EmptyString; "January"; "February"; "March"; "April"; "May"; "June"; "July";
   "August"; "September"; "October"; "November"; "December"]%string.

(** [list.index]: the first position of [x], [None] where Python raises. *)
Fixpoint index (x : string) (l : list string) : option nat :=
  match l with
  | [] => None
  | y :: l' => if String.eqb y x then Some 0%nat else option_map S (index x l')
  end.

(** Start and end of the date window (lines 122-142). *)
Definition resolve_window (sb : sidebar) (data : tables) : option (Z * Z) :=
  let dates := notna_dates (List.map date (t_daily_income data)) in
  match series_min dates, series_max dates with
  | Some lo, Some hi =>
      match date_preset sb with
      | Custom =>
          match date_range sb with
          | [start_date; end_date] => Some (start_date, end_date)
          | _ => Some (lo, hi)
          end
      | Last_7_Days => Some (hi - 7, hi)
      | Last_30_Days => Some (hi - 30, hi)
      | Last_90_Days => Some (hi - 90, hi)
      | Year_to_Date => Some (Calendar.ymd2ord (Calendar.year_of hi) 1 1, hi)
      | All_Time => Some (lo, hi)
      end
  | _, _ => None
  end.

(** Element-wise comparisons of a datetime column; a [NaT] entry compares
    false. *)
Definition month_eq (month_number : Z) (col : list (option Z)) : list bool :=
  List.map (fun d => match d with
                     | Some d => Calendar.month_of d =? month_number
                     | None => false
                     end) col.

Definition date_ge (start_date : Z) (col : list (option Z)) : list bool :=
  List.map (fun d => match d with
                     | Some d => start_date <=? d
                     | None => false
                     end) col.

Definition date_le (end_date : Z) (col : list (option Z)) : list bool :=
  List.map (fun d => match d with
                     | Some d => d <=? end_date
                     | None => false
                     end) col.

(** [a & b] on two boolean Series of one frame. *)
Fixpoint mask_and (a b : list bool) : list bool :=
  match a, b with
  | x :: a', y :: b' => (x && y) :: mask_and a' b'
  | _, _ => []
  end.

(** [df[mask]]: the rows whose mask entry is true, in frame order. *)
Fixpoint boolean_index {A : Type} (rows : list A) (mask : list bool) : list A :=
  match rows, mask with
  | r :: rows', b :: mask' =>
      if b then r :: boolean_index rows' mask' else boolean_index rows' mask'
  | _, _ => []
  end.

(** The row selection of the month branch (lines 155-159) and of the
    plain branch (lines 173-176), for a frame with date column [get]. *)
Definition month_and_window {A : Type} (get : A -> option Z)
    (month_number start_date end_date : Z) (rows : list A) : list A :=
  let col := List.map get rows in
  boolean_index rows
    (mask_and (mask_and (month_eq month_number col) (date_ge start_date col))
              (date_le end_date col)).

Definition window_only {A : Type} (get : A -> option Z)
    (start_date end_date : Z) (rows : list A) : list A :=
  let col := List.map get rows in
  boolean_index rows (mask_and (date_ge start_date col) (date_le end_date col)).

(** Date and month filtering (lines 152-185); [None] where the source
    raises or has no date to anchor the window. *)
Definition date_filters (sb : sidebar) (data : tables) : option filtered_data :=
  match resolve_window sb data with
  | None => None
  | Some (start_date, end_date) =>
      if negb (String.eqb (month_preset sb) "All") then
        match index (month_preset sb) month_name with
        | None => None
        | Some month_number =>
            let m := Z.of_nat month_number in
            Some {| daily_income :=
                      month_and_window date m start_date end_date
                        (t_daily_income data);
                    inventory :=
                      month_and_window p_date m start_date end_date
                        (t_inventory_purchases data);
                    expenses :=
                      month_and_window e_date m start_date end_date
                        (t_expenses data) |}
        end
      else
        Some {| daily_income :=
                  window_only date start_date end_date (t_daily_income data);
                inventory :=
                  window_only p_date start_date end_date
                    (t_inventory_purchases data);
                expenses :=
                  window_only e_date start_date end_date (t_expenses data) |}
  end.

(** The three category filters (lines 199-213), one step each. *)
Definition filter_inventory_type (sel : string) (fd : filtered_data) : filtered_data :=
  if negb (String.eqb sel "All") then
    {| daily_income := daily_income fd;
       inventory :=
         boolean_index (inventory fd)
           (List.map (fun r => String.eqb (Inventory_Type r) sel) (inventory fd));
       expenses := expenses fd |}
  else fd.

Definition filter_company (sel : string) (fd : filtered_data) : filtered_data :=
  if negb (String.eqb sel "All") then
    {| daily_income := daily_income fd;
       inventory :=
         boolean_index (inventory fd)
           (List.map (fun r => String.eqb (Invoice_Company r) sel) (inventory fd));
       expenses := expenses fd |}
  else fd.

Definition filter_expense_type (sel : string) (fd : filtered_data) : filtered_data :=
  if negb (String.eqb sel "All") then
    {| daily_income := daily_income fd;
       inventory := inventory fd;
       expenses :=
         boolean_index (expenses fd)
           (List.map (fun r => String.eqb (Expense_Type r) sel) (expenses fd)) |}
  else fd.

Definition additional_filters (sb : sidebar) (fd : filtered_data) : filtered_data :=
  filter_expense_type (selected_expense sb)
    (filter_company (selected_company sb)
       (filter_inventory_type (selected_type sb) fd)).

(** The filters of the sidebar: the date and month block (lines 152-185),
    then the category selections (lines 199-213); [None] where the date
    block raises.  The lists of options the three category boxes offer
    (lines 187-197) are not represented: the selections are inputs. *)
Definition sidebar_filters (sb : sidebar) (data : tables) : option filtered_data :=
  option_map (additional_filters sb) (date_filters sb data).

(** ** Overview KPIs *)

Section Overview.

Variable fd : filtered_data.

Definition total_income : Q :=
  match daily_income fd with
  | [] => 0%Q
  | rows => column_sum (List.map Total rows)
  end.

Definition total_expenses : Q :=
  match expenses fd with
  | [] => 0%Q
  | rows => column_sum (List.map Expense_Amount rows)
  end.

Definition total_purchases : Q :=
  match inventory fd with
  | [] => 0%Q
  | rows => column_sum (List.map Invoice_Amount rows)
  end.

Definition net_profit : Q :=
  Qred (total_income - total_expenses - total_purchases).

Definition money_deficit : num :=
  match daily_income fd with
  | [] => Fin 0
  | rows => series_sum (List.map deficit rows)
  end.

(** [x / total_income * 100 if total_income > 0 else 0]. *)
Definition pct_if_income (x : num) : num :=
  if Qgtb total_income 0
  then Num.mul (Num.div x (Fin total_income)) (Fin 100)
  else Fin 0.

(** [x / total_income * 100], with no test on the divisor. *)
Definition pct_of_income (x : num) : num :=
  Num.mul (Num.div x (Fin total_income)) (Fin 100).

(** First row: the deltas of the five main KPIs (lines 257-271). *)
Definition revenue_delta : num := pct_if_income (Fin total_income).
Definition expenses_delta : num := pct_if_income (Fin total_expenses).
Definition purchases_delta : num := pct_if_income (Fin total_purchases).
Definition margin_delta : num := pct_if_income (Fin net_profit).
Definition deficit_delta : num := pct_if_income money_deficit.

(** Second row: payment methods (lines 279-297). *)
Definition total_cash : Q := column_sum (List.map cash (daily_income fd)).
Definition total_visa : Q := column_sum (List.map visa (daily_income fd)).
Definition total_due : Q := column_sum (List.map due_amount (daily_income fd)).
Definition total_system : Q :=
  column_sum (List.map Gross_Income_sys (daily_income fd)).

Definition cash_delta : num := pct_of_income (Fin total_cash).
Definition visa_delta : num := pct_of_income (Fin total_visa).
Definition due_delta : num := pct_of_income (Fin total_due).
Definition system_delta : num := pct_of_income (Fin total_system).

(** The same three shares as the Revenue tab computes them (lines
    782-794). *)
Definition cash_percentage : num := pct_if_income (Fin total_cash).
Definition visa_percentage : num := pct_if_income (Fin total_visa).
Definition due_percentage : num := pct_if_income (Fin total_due).

(** Financial health indicators (lines 307, 329, 351). *)
Definition profit_margin : num := pct_if_income (Fin net_profit).
Definition expense_ratio : num := pct_if_income (Fin total_expenses).
Definition purchase_to_income_ratio : num := pct_if_income (Fin total_purchases).

End Overview.

(** *** Health notices *)

Record notice : Type := {
  message : string;
  color : string
}.

Definition red : string := "#EF5A6F".
Definition orange : string := "#FFB22C".
Definition green : string := "#219C90".

(** Profit margin checks (lines 379-393). *)
Definition profit_notice (profit_margin : num) : notice :=
  if Num.ltb profit_margin (Fin 20) then
    {| message := "Profit Margin is critically low! Focus on increasing revenue or reducing costs.";
       color := red |}
  else if Num.ltb profit_margin (Fin 50) then
    {| message := "Profit Margin needs improvement. Consider strategies to increase profitability.";
       color := orange |}
  else
    {| message := "Profit Margin is healthy."; color := green |}.

(** Expense ratio checks (lines 396-410). *)
Definition expense_notice (expense_ratio : num) : notice :=
  if Num.gtb expense_ratio (Fin 50) then
    {| message := "Expense Ratio is very high! Immediate action is needed to control expenses.";
       color := red |}
  else if Num.gtb expense_ratio (Fin 30) then
    {| message := "Expense Ratio is above target. Review and optimize expenses.";
       color := orange |}
  else
    {| message := "Expense Ratio is within acceptable range."; color := green |}.

(** Inventory to income checks (lines 413-427). *)
Definition inventory_notice (purchase_to_income_ratio : num) : notice :=
  if Num.gtb purchase_to_income_ratio (Fin 60) then
    {| message := "Inventory purchases are too high compared to income! Review purchasing strategy.";
       color := red |}
  else if Num.gtb purchase_to_income_ratio (Fin 40) then
    {| message := "Inventory to income ratio is healthy."; color := green |}
  else
    {| message := "Inventory to income ratio is elevated. Consider optimizing purchases.";
       color := orange |}.

(** The three tiers, read off a notice's colour or off a status label of
    the exported KPI sheet. *)
Inductive tier : Type :=
  | healthy
  | warning
  | critical.

Definition notice_tier (n : notice) : option tier :=
  if String.eqb (color n) red then Some critical
  else if String.eqb (color n) orange then Some warning
  else if String.eqb (color n) green then Some healthy
  else None.

(** The [Status] column of the exported KPI sheet (lines 729-731). *)
Definition profit_status (profit_margin : num) : string :=
  if Num.geb profit_margin (Fin 30) then "Healthy"
  else if Num.geb profit_margin (Fin 15) then "Needs Improvement"
  else "Critical".

Definition expense_status (expense_ratio : num) : string :=
  if Num.leb expense_ratio (Fin 25) then "Good"
  else if Num.leb expense_ratio (Fin 40) then "Warning"
  else "Critical".

Definition purchase_status (purchase_to_income_ratio : num) : string :=
  if Num.leb purchase_to_income_ratio (Fin 40) then "Optimal"
  else if Num.leb purchase_to_income_ratio (Fin 60) then "Warning"
  else "Critical".

Definition status_tier (s : string) : option tier :=
  if String.eqb s "Healthy" || String.eqb s "Good" || String.eqb s "Optimal"
  then Some healthy
  else if String.eqb s "Needs Improvement" || String.eqb s "Warning"
  then Some warning
  else if String.eqb s "Critical" then Some critical
  else None.

(** ** Revenue segments *)

(** Exceptions of the library calls modelled below. *)
Inductive exn : Type :=
  | ValueError (msg : string).

Fixpoint insert_sorted (x : Q) (l : list Q) : list Q :=
  match l with
  | [] => [x]
  | y :: l' => if Qle_bool x y then x :: l else y :: insert_sorted x l'
  end.

Definition sort_values (l : list Q) : list Q := fold_right insert_sorted [] l.

(** [Series.quantile(q)] with the default linear interpolation: the value
    at position [q * (n - 1)] of the sorted data, interpolated between its
    two neighbours. *)
Definition quantile (x : list Q) (q : Q) : Q :=
  let s := sort_values x in
  let pos := (q * (inject_Z (Z.of_nat (length s)) - 1))%Q in
  let lo := Qfloor pos in
  let frac := (pos - inject_Z lo)%Q in
  let a := nth (Z.to_nat lo) s 0%Q in
  let b := nth (Z.to_nat lo + 1) s a in
  Qred (a + (b - a) * frac).

(** [np.linspace(0, 1, q + 1)]. *)
Definition linspace01 (q : nat) : list Q :=
  List.map (fun k => (inject_Z (Z.of_nat k) / inject_Z (Z.of_nat q))%Q)
    (seq 0 (q + 1)).

Definition bin_edges (x : list Q) (q : nat) : list Q :=
  List.map (quantile x) (linspace01 q).

(** [unique]: first occurrences, in order. *)
Fixpoint unique (l : list Q) : list Q :=
  match l with
  | [] => []
  | e :: l' => e :: List.filter (fun y => negb (Qeq_bool e y)) (unique l')
  end.

(** [bins.searchsorted(v, side="left")]: the first position whose edge is
    not below [v]. *)
Fixpoint searchsorted_left (bins : list Q) (v : Q) : nat :=
  match bins with
  | [] => 0
  | e :: bins' => if Qltb e v then S (searchsorted_left bins' v) else 0
  end.

(** The bin number of a value: right-closed bins, the lowest edge
    included in the first bin. *)
Definition bin_id (bins : list Q) (v : Q) : nat :=
  match bins with
  | e0 :: _ => if Qeq_bool v e0 then 1 else searchsorted_left bins v
  | [] => 0
  end.

(** The label of one value; [None] is the missing label of a value that
    falls outside the edges. *)
Definition cut_label (bins : list Q) (labels : list string) (v : Q)
    : option string :=
  let i := bin_id bins v in
  if ((i =? 0) || (i =? length bins))%nat then None
  else labels !! (i - 1)%nat.

Definition bins_to_cuts (x bins : list Q) (labels : list string)
    : exn + list (option string) :=
  if ((length (unique bins) <? length bins) && negb (length bins =? 2))%nat then
    inl (ValueError "Bin edges must be unique")
  else if negb (length labels =? length bins - 1)%nat then
    inl (ValueError "Bin labels must be one fewer than the number of bin edges")
  else
    inr (List.map (cut_label bins labels) x).

(** [pd.qcut(x, q, labels)] with the default [duplicates="raise"]. *)
Definition qcut (x : list Q) (q : nat) (labels : list string)
    : exn + list (option string) :=
  bins_to_cuts x (bin_edges x q) labels.

Definition segment_labels : list string :=
  ["Low"; "Medium-Low"; "Medium-High"; "High"]%string.

(** The [revenue_segment] column (lines 900-902). *)
Definition revenue_segment (fd : filtered_data) : exn + list (option string) :=
  qcut (List.map Total (daily_income fd)) 4 segment_labels.

(** The [count] of a segment in [segment_stats]. *)
Definition segment_count (label : string) (segments : list (option string)) : nat :=
  length (List.filter (fun s => match s with
                                | Some l => String.eqb l label
                                | None => false
                                end) segments).

(** ** Forecast models *)

(** A row of the [daily_metrics] frame (lines 1399-1416); the columns the
    four models read. *)
Record metrics_row : Type := {
  m_date : option Z;
  m_revenue : Q;
  m_expenses : Q;
  m_purchases : Q;
  m_net_profit : Q
}.

(** [groupby("date")[col].sum().reindex(dates).fillna(0)] at one date. *)
Definition sum_on_date {A : Type} (get_date : A -> option Z) (amount : A -> Q)
    (rows : list A) (d : option Z) : Q :=
  match d with
  | None => 0%Q
  | Some day =>
      match List.filter (fun r => match get_date r with
                                  | Some day' => day' =? day
                                  | None => false
                                  end) rows with
      | [] => 0%Q
      | group => column_sum (List.map amount group)
      end
  end.

Definition daily_metrics (fd : filtered_data) : list metrics_row :=
  List.map (fun r =>
    let e := sum_on_date e_date Expense_Amount (expenses fd) (date r) in
    let p := sum_on_date p_date Invoice_Amount (inventory fd) (date r) in
    {| m_date := date r;
       m_revenue := Total r;
       m_expenses := e;
       m_purchases := p;
       m_net_profit := Qred (Total r - e - p) |}) (daily_income fd).

(** [metrics_to_predict], in insertion order. *)
Definition metrics_to_predict (dm : list metrics_row) : list (string * list Q) :=
  [("Revenue", List.map m_revenue dm);
   ("Expenses", List.map m_expenses dm);
   ("Purchases", List.map m_purchases dm);
   ("Net Profit", List.map m_net_profit dm)]%string.

(** The training frame [df_prophet]: a [ds] and a [y] column. *)
Definition prophet_frame : Type := list (option Z * Q).

(** What the loop stores per metric.  The fitted curve itself is the
    forecasting library's business and is not represented: an entry keeps
    the training frame and the request made to the model. *)
Record forecast_entry : Type := {
  actual : prophet_frame;
  periods : nat;
  interval_width : Q
}.

(** [model.fit(df)] followed by [model.predict(future)].  The one failure
    of [fit] represented is its history check: fewer than two rows with a
    value raise. *)
Definition fit_predict (df : prophet_frame) (prediction_days : nat)
    (confidence_interval : Q) : exn + forecast_entry :=
  if (length df <? 2)%nat then
    inl (ValueError "Dataframe has less than 2 non-NaN rows.")
  else
    inr {| actual := df;
           periods := prediction_days;
           interval_width := confidence_interval |}.

(** The training loop (lines 1432-1476).  There is no handler around the
    body: an exception leaves the loop with the entries stored so far. *)
Fixpoint training_loop (metrics : list (string * list Q)) (ds : list (option Z))
    (prediction_days : nat) (confidence_interval : Q)
    (forecast_results : list (string * forecast_entry))
    : list (string * forecast_entry) * option exn :=
  match metrics with
  | [] => (forecast_results, None)
  | (metric_name, metric_data) :: rest =>
      match fit_predict (zip ds metric_data) prediction_days confidence_interval with
      | inl e => (forecast_results, Some e)
      | inr entry =>
          training_loop rest ds prediction_days confidence_interval
            (forecast_results ++ [(metric_name, entry)])
      end
  end.

(** The loop on the metrics of a view, taken alone; [forecasts_of_run]
    below places it in a run of the script. *)
Definition train_models (fd : filtered_data) (prediction_days : nat)
    (confidence_interval : Q) : list (string * forecast_entry) * option exn :=
  let dm := daily_metrics fd in
  training_loop (metrics_to_predict dm) (List.map m_date dm)
    prediction_days confidence_interval [].

(** The order of a run: the script is executed from top to bottom, the
    Revenue tab with the segmentation of line 900 before the predictions
    tab with the training loop, and nothing between them catches an
    exception.  The forecasts of a run are what the loop stores, and none
    when the segmentation has raised; the second component is the
    exception that ended the run, if any.  Only these two steps of the run
    are represented. *)
Definition forecasts_of_run (fd : filtered_data) (prediction_days : nat)
    (confidence_interval : Q) : list (string * forecast_entry) * option exn :=
  match revenue_segment fd with
  | inl e => ([], Some e)
  | inr _ => train_models fd prediction_days confidence_interval
  end.

(** ** Grouped sums *)

(** One step of [groupby(key)[col].sum()]: [v] joins the group of key [k].
    Groups are kept in ascending key order, as pandas returns them. *)
Fixpoint group_add (k : Z) (v : Q) (groups : list (Z * Q)) : list (Z * Q) :=
  match groups with
  | [] => [(k, Qred v)]
  | (k', s) :: rest =>
      if k <? k' then (k, Qred v) :: groups
      else if k =? k' then (k', Qred (s + v)) :: rest
      else (k', s) :: group_add k v rest
  end.

(** [df.groupby(key)[col].sum()]: one entry per distinct key; a row whose
    key is missing belongs to no group. *)
Definition groupby_sum {A : Type} (key : A -> option Z) (col : A -> Q)
    (rows : list A) : list (Z * Q) :=
  fold_left (fun groups r =>
               match key r with
               | Some k => group_add k (col r) groups
               | None => groups
               end) rows [].

(** The value a left merge on the key brings in: [None] (a missing value)
    when the grouped frame has no such key. *)
Fixpoint group_lookup (k : Z) (groups : list (Z * Q)) : option Q :=
  match groups with
  | [] => None
  | (k', s) :: rest => if k =? k' then Some s else group_lookup k rest
  end.

(** ** Revenue against expenses, day by day (lines 467-481) *)

Record daily_data_row : Type := {
  dd_date : Z;
  dd_Total : Q;
  dd_Expense_Amount : Q;
  dd_Invoice_Amount : Q;
  dd_net_profit : Q
}.

(** The frame behind the chart; [None] is the branch that shows the
    "Insufficient data" warning.  The key of a group is the [date] of a
    row as this embedding holds it, a calendar day. *)
Definition daily_data (fd : filtered_data) : option (list daily_data_row) :=
  match daily_income fd, expenses fd with
  | [], _ | _, [] => None
  | _, _ =>
      let expense_groups := groupby_sum e_date Expense_Amount (expenses fd) in
      let invoice_groups := groupby_sum p_date Invoice_Amount (inventory fd) in
      Some (List.map (fun g : Z * Q =>
              let e := fillna0 (group_lookup (fst g) expense_groups) in
              let p := fillna0 (group_lookup (fst g) invoice_groups) in
              {| dd_date := fst g;
                 dd_Total := snd g;
                 dd_Expense_Amount := e;
                 dd_Invoice_Amount := p;
                 dd_net_profit := Qred (snd g - e - p) |})
            (groupby_sum date Total (daily_income fd)))
  end.

(** ** Revenue tab *)

Module RevenueTab.

Definition total_revenue (fd : filtered_data) : Q :=
  column_sum (List.map Total (daily_income fd)).

(** [(date.max() - date.min()).days]: [NaN] when no row has a date. *)
Definition span_days (fd : filtered_data) : num :=
  let dates := notna_dates (List.map date (daily_income fd)) in
  match series_min dates, series_max dates with
  | Some lo, Some hi => Fin (inject_Z (hi - lo))
  | _, _ => NaN
  end.

(** Monthly average (line 779): [total_revenue / (span.days / 30)]. *)
Definition monthly_average (fd : filtered_data) : num :=
  Num.div (Fin (total_revenue fd)) (Num.div (span_days fd) (Fin 30)).

(** The label [strftime('%Y-%m')] of a day, read as the number YYYYMM:
    labels of four-digit years sort like these numbers. *)
Definition month_label (d : Z) : Z :=
  Calendar.year_of d * 100 + Calendar.month_of d.

Definition monthly_revenue (fd : filtered_data) : list (Z * Q) :=
  groupby_sum (fun r => option_map month_label (date r)) Total (daily_income fd).

(** Month-over-month growth (line 806), from [iloc[-1]] and [iloc[-2]]. *)
Definition mom_growth (fd : filtered_data) : num :=
  match rev (List.map snd (monthly_revenue fd)) with
  | last :: previous :: _ =>
      Num.mul (Num.div (Num.sub (Fin last) (Fin previous)) (Fin previous))
              (Fin 100)
  | _ => Fin 0
  end.

End RevenueTab.

(** ** Cross-correlation of two metrics (lines 1697-1712) *)

(** [Series.shift(periods)]: the values move [periods] places towards the
    end (towards the start when negative); the places freed hold [NaN]. *)
Definition shift (periods : Z) (s : list num) : list num :=
  if 0 <=? periods then
    firstn (length s) (repeat NaN (Z.to_nat periods) ++ s)
  else
    skipn (Z.to_nat (- periods)) s
    ++ repeat NaN (Nat.min (Z.to_nat (- periods)) (length s)).

Section CrossCorrelation.

(** [Series.corr]: Pearson correlation, taken as given. *)
Variable corr : list num -> list num -> num.

(** The body of the loop over lags. *)
Definition ccf_correlation (reference metric : list num) (lag : Z) : num :=
  if lag <? 0 then corr reference (shift (- lag) metric)
  else corr reference (shift lag metric).

(** The [ccf] frame for [lag_range = (lo, hi)]: one row per lag of
    [range(lo, hi + 1)]. *)
Definition ccf (reference metric : list num) (lo hi : Z) : list (Z * num) :=
  List.map (fun lag => (lag, ccf_correlation reference metric lag))
    (seqZ lo (hi + 1 - lo)).

End CrossCorrelation.

(** ** Search tab: company, type and amount filters (lines 1801-1810) *)

Module SearchTab.

Definition refine_search_results (search_company search_type : string)
    (min_amount max_amount : Q) (search_results : list purchase_row)
    : list purchase_row :=
  let search_results :=
    if negb (String.eqb search_company "All") then
      boolean_index search_results
        (List.map (fun r => String.eqb (Invoice_Company r) search_company)
           search_results)
    else search_results in
  let search_results :=
    if negb (String.eqb search_type "All") then
      boolean_index search_results
        (List.map (fun r => String.eqb (Inventory_Type r) search_type)
           search_results)
    else search_results in
  boolean_index search_results
    (mask_and
       (List.map (fun r => Qle_bool min_amount (Invoice_Amount r)) search_results)
       (List.map (fun r => Qle_bool (Invoice_Amount r) max_amount) search_results)).

End SearchTab.

(** ** Reference definitions *)

(** Positional look-ups, row predicates and string predicates used to
    state the properties below. *)

(** The amount found at position [i] of a sheet, [NaN] when the sheet has
    no such row. *)
Definition Expense_Amount_at (expenses : list expense_sheet_row) (i : nat) : num :=
  match expenses !! i with
  | Some e => Fin (fillna0 (es_Expense_Amount e))
  | None => NaN
  end.

Definition Invoice_Amount_at (purchases : list purchase_sheet_row) (i : nat) : num :=
  match purchases !! i with
  | Some p => Fin (fillna0 (ps_Invoice_Amount p))
  | None => NaN
  end.

(** The row predicates of the date filters, on a parsed date. *)
Definition in_window (start_date end_date : Z) (d : option Z) : bool :=
  match d with
  | Some d => (start_date <=? d) && (d <=? end_date)
  | None => false
  end.

Definition in_month_and_window (m start_date end_date : Z) (d : option Z) : bool :=
  match d with
  | Some d => (Calendar.month_of d =? m) && (start_date <=? d) && (d <=? end_date)
  | None => false
  end.

(** Names made of whitespace only, and names that neither start nor end
    with whitespace. *)
Definition all_space (s : str) : bool := forallb isspace s.

Definition starts_clean (s : str) : bool :=
  match s with
  | [] => true
  | c :: _ => negb (isspace c)
  end.

Definition trimmed (s : str) : bool := starts_clean s && starts_clean (rev s).

(** [t] is [c] without its leading and trailing whitespace: the code
    points of [t] are those of [c], unchanged, between two runs of
    whitespace. *)
Definition trimmed_of (c t : str) : Prop :=
  exists pre post,
    c = pre ++ t ++ post /\
    all_space pre = true /\ all_space post = true /\ trimmed t = true.

(** ASCII text, its capital letters, and [str.lower] on it. *)
Definition is_ascii (s : str) : bool := forallb (fun c => c <? 128)%N s.

Definition is_upper (c : N) : bool := ((65 <=? c) && (c <=? 90))%N.

Definition no_capital (s : str) : bool := forallb (fun c => negb (is_upper c)) s.

Definition lower_ascii (c : N) : N := if is_upper c then (c + 32)%N else c.

Definition ascii_lower (s : str) : str := List.map lower_ascii s.

(** What is used of [str.lower()]: on ASCII text it lowers the 26 capital
    letters and leaves every other character. *)
Definition lowers_ascii (str_lower : str -> str) : Prop :=
  forall s, is_ascii s = true -> str_lower s = ascii_lower s.

(** A number taken as nanoseconds since 1970-01-01, to the day. *)
Definition epoch_ns (q : Q) : option Z :=
  Some (719163 + Qfloor (q / 86400000000000)).

(** ** Sample data *)

Definition empty_view : filtered_data :=
  {| daily_income := []; inventory := []; expenses := [] |}.

(** A workbook whose sheets differ in length and in row order, with one
    empty [Date] cell and one that holds the text tbd. *)
Definition sample_income : list income_sheet_row :=
  [ {| s_Date := Stamp 738886; s_Total := Some 1000%Q; s_cash := Some 600%Q;
       s_visa := Some 300%Q; s_due_amount := Some 100%Q;
       s_Gross_Income_sys := Some 990%Q |};
    {| s_Date := Text "tbd"; s_Total := Some 500%Q; s_cash := None;
       s_visa := Some 500%Q; s_due_amount := None;
       s_Gross_Income_sys := Some 500%Q |};
    {| s_Date := Blank; s_Total := Some 50%Q; s_cash := Some 50%Q;
       s_visa := None; s_due_amount := None; s_Gross_Income_sys := None |};
    {| s_Date := Text "2024-01-03"; s_Total := Some 700%Q; s_cash := Some 700%Q;
       s_visa := None; s_due_amount := None;
       s_Gross_Income_sys := Some 650%Q |} ].

Definition sample_purchases : list purchase_sheet_row :=
  [ {| ps_Date := Stamp 738887; ps_id := "INV-1"; ps_Invoice_Company := "Acme";
       ps_Inventory_Type := "Medicine"; ps_Invoice_Type := "Cash";
       ps_Invoice_Amount := Some 200%Q; ps_Credit_Limit := Some 5000%Q |};
    {| ps_Date := Stamp 738886; ps_id := "INV-2"; ps_Invoice_Company := "Zeta";
       ps_Inventory_Type := "Cosmetics"; ps_Invoice_Type := "Credit";
       ps_Invoice_Amount := Some 80%Q; ps_Credit_Limit := None |} ].

Definition sample_expenses : list expense_sheet_row :=
  [ {| es_Date := Stamp 738888; es_Expense_Type := "Rent";
       es_Expense_Amount := Some 300%Q |};
    {| es_Date := Text "soon"; es_Expense_Type := "Salaries";
       es_Expense_Amount := None |};
    {| es_Date := Stamp 738886; es_Expense_Type := "Rent";
       es_Expense_Amount := Some 40%Q |} ].

Definition sample_tables : tables :=
  load_data Calendar.parse_iso epoch_ns sample_income sample_purchases
    sample_expenses.

(** The first and the second row [load_data] returns for the sample
    workbook. *)
Definition sample_row0 : income_row :=
  {| idx := 0; Date := Stamp 738886; date := Some 738886;
     Total := 1000; cash := 600; visa := 300; due_amount := 100;
     Gross_Income_sys := 990; net_income := Fin 500; deficit := Fin 10 |}.

Definition sample_row1 : income_row :=
  {| idx := 1; Date := Text "tbd"; date := None;
     Total := 500; cash := 0; visa := 500; due_amount := 0;
     Gross_Income_sys := 500; net_income := Fin 420; deficit := Fin 0 |}.

(** Header rows with stray blanks and capitals; the last expense name
    starts with a no-break space (code point 160). *)
Definition sample_headers : headers :=
  {| h_lists := List.map str_of [" Categories "; "COMPANIES"]%string;
     h_daily_income :=
       List.map str_of ["Date"; " Total"; "Gross Income_sys "]%string;
     h_inventory_purchases :=
       List.map str_of ["Date"; " Invoice Amount "; "Invoice Company"]%string;
     h_expenses :=
       [str_of "Date"; str_of "Expense Type ";
        160%N :: str_of "Expense Amount"] |}.

(** An all-empty [Date] column, as a sheet of expenses entered without
    dates has it. *)
Definition undated_expenses : list expense_sheet_row :=
  [ {| es_Date := Blank; es_Expense_Type := "Rent";
       es_Expense_Amount := Some 300%Q |};
    {| es_Date := Blank; es_Expense_Type := "Salaries";
       es_Expense_Amount := Some 900%Q |} ].

(** A sidebar with a custom window over January 2024 and the month filter
    set, and one with the 7-day preset and no month filter. *)
Definition sample_sidebar_month : sidebar :=
  {| date_preset := Custom;
     date_range := [738886; 738900];
     month_preset := "January";
     selected_type := "All";
     selected_company := "All";
     selected_expense := "All" |}.

Definition sample_sidebar_week : sidebar :=
  {| date_preset := Last_7_Days;
     date_range := [];
     month_preset := "All";
     selected_type := "Medicine";
     selected_company := "All";
     selected_expense := "Rent" |}.

(** A view with a single day of income. *)
Definition one_day_view : filtered_data :=
  {| daily_income := [sample_row0]; inventory := []; expenses := [] |}.

(** A view with the given daily totals on consecutive days (only the
    totals matter for the segmentation). *)
Definition view_of_totals (totals : list Q) : filtered_data :=
  {| daily_income :=
       imap (fun i t =>
         {| idx := i; Date := Stamp (738886 + Z.of_nat i);
            date := Some (738886 + Z.of_nat i);
            Total := t; cash := t; visa := 0; due_amount := 0;
            Gross_Income_sys := t; net_income := Fin t; deficit := Fin 0 |})
         totals;
     inventory := [];
     expenses := [] |}.

Definition four_day_view : filtered_data := view_of_totals [10; 20; 30; 40]%Q.

(** Five days with four distinct totals, and six days with five. *)
Definition repeated_peak_view : filtered_data := view_of_totals [1; 2; 3; 4; 4]%Q.
Definition gap_view : filtered_data := view_of_totals [0; 1; 1; 3; 4; 5]%Q.


(** ** Reference definitions for grouped sums *)

(** The keys of a grouped frame, the value of a key (0 when absent) and
    the row tests "has this key" and "has a key". *)
Definition group_keys (groups : list (Z * Q)) : list Z := List.map fst groups.

Definition group_value (k : Z) (groups : list (Z * Q)) : Q :=
  fillna0 (group_lookup k groups).

Definition has_key {A : Type} (key : A -> option Z) (k : Z) (r : A) : bool :=
  match key r with
  | Some k' => k' =? k
  | None => false
  end.

Definition has_any_key {A : Type} (key : A -> option Z) (r : A) : bool :=
  match key r with
  | Some _ => true
  | None => false
  end.


(** The view the sample workbook gives under [sample_sidebar_week]. *)
Definition sample_week_view : filtered_data :=
  {| daily_income :=
       List.filter (fun r => in_window 738881 738888 (date r))
         (t_daily_income sample_tables);
     inventory :=
       List.filter (fun r => String.eqb (Inventory_Type r) "Medicine")
         (List.filter (fun r => in_window 738881 738888 (p_date r))
            (t_inventory_purchases sample_tables));
     expenses :=
       List.filter (fun r => String.eqb (Expense_Type r) "Rent")
         (List.filter (fun r => in_window 738881 738888 (e_date r))
            (t_expenses sample_tables)) |}.

(** The chart frame of that view: 200 of purchases fall on a day without
    income and are in no row. *)
Definition sample_daily_data : list daily_data_row :=
  [ {| dd_date := 738886; dd_Total := 1000; dd_Expense_Amount := 40;
       dd_Invoice_Amount := 0; dd_net_profit := 960 |};
    {| dd_date := 738888; dd_Total := 700; dd_Expense_Amount := 300;
       dd_Invoice_Amount := 0; dd_net_profit := 400 |} ].

(** The first row of the forecast frame of that view. *)
Definition sample_metrics_row : metrics_row :=
  {| m_date := Some 738886; m_revenue := 1000; m_expenses := 40;
     m_purchases := 0; m_net_profit := 960 |}.

(** * Properties *)

(** ** Arithmetic helpers *)

Lemma Qgtb_lt a b : Qgtb a b = true <-> (b < a)%Q.
Proof.
  unfold Qgtb. rewrite negb_true_iff.
  destruct (Qle_bool a b) eqn:E.
  - apply Qle_bool_iff in E. split; [discriminate|].
    intros H. exfalso. exact (Qlt_not_le _ _ H E).
  - split; [|reflexivity]. intros _.
    apply Qnot_le_lt. intros H. apply Qle_bool_iff in H. congruence.
Qed.

Lemma Qltb_lt a b : Qltb a b = true <-> (a < b)%Q.
Proof. unfold Qltb. apply (Qgtb_lt b a). Qed.


(** ** Calendar checks *)

Example ymd2ord_2024_01_01 : Calendar.ymd2ord 2024 1 1 = 738886.
Proof. reflexivity. Qed.

Example ord2ymd_2024_02_29 :
  Calendar.ord2ymd (Calendar.ymd2ord 2024 2 29) = (2024, 2, 29).
Proof. reflexivity. Qed.

Example ord2ymd_2023_12_31 : Calendar.ord2ymd 738885 = (2023, 12, 31).
Proof. reflexivity. Qed.

Example ord2ymd_epoch : Calendar.ord2ymd 719163 = (1970, 1, 1).
Proof. reflexivity. Qed.

Example parse_iso_ok : Calendar.parse_iso "2024-03-15" = Some 738960.
Proof. reflexivity. Qed.

Example parse_iso_bad : Calendar.parse_iso "tbd" = None.
Proof. reflexivity. Qed.


(** ** Comparisons and division on [num] *)

Lemma ltb_Fin a b : Num.ltb (Fin a) (Fin b) = true <-> (a < b)%Q.
Proof. exact (Qltb_lt a b). Qed.

Lemma gtb_Fin a b : Num.gtb (Fin a) (Fin b) = true <-> (b < a)%Q.
Proof. exact (Qltb_lt b a). Qed.

Lemma leb_Fin a b : Num.leb (Fin a) (Fin b) = true <-> (a <= b)%Q.
Proof. exact (Qle_bool_iff a b). Qed.

Lemma geb_Fin a b : Num.geb (Fin a) (Fin b) = true <-> (b <= a)%Q.
Proof. exact (Qle_bool_iff b a). Qed.

Lemma ltb_Fin_false a b : Num.ltb (Fin a) (Fin b) = false <-> (b <= a)%Q.
Proof.
  rewrite <- not_true_iff_false, ltb_Fin. split.
  - apply Qnot_lt_le.
  - intros H1 H2. exact (Qlt_not_le _ _ H2 H1).
Qed.

Lemma gtb_Fin_false a b : Num.gtb (Fin a) (Fin b) = false <-> (a <= b)%Q.
Proof. exact (ltb_Fin_false b a). Qed.

Lemma leb_Fin_false a b : Num.leb (Fin a) (Fin b) = false <-> (b < a)%Q.
Proof.
  rewrite <- not_true_iff_false, leb_Fin. split.
  - apply Qnot_le_lt.
  - intros H1 H2. exact (Qlt_not_le _ _ H1 H2).
Qed.

Lemma geb_Fin_false a b : Num.geb (Fin a) (Fin b) = false <-> (a < b)%Q.
Proof. exact (leb_Fin_false b a). Qed.

(** A finite number divided by zero and scaled by 100 is never finite. *)
Lemma div_zero_not_finite a b :
  (b == 0)%Q ->
  Num.isfinite (Num.mul (Num.div (Fin a) (Fin b)) (Fin 100)) = false.
Proof.
  intros Hb. unfold Num.div.
  apply Qeq_bool_iff in Hb. rewrite Hb.
  unfold Num.signed_inf. destruct (a ?= 0)%Q; reflexivity.
Qed.

Lemma div_nonzero_finite a b :
  ~ (b == 0)%Q ->
  Num.mul (Num.div (Fin a) (Fin b)) (Fin 100) = Fin (Qred (Qred (a / b) * 100)).
Proof.
  intros Hb. unfold Num.div.
  destruct (Qeq_bool b 0) eqn:E; [|reflexivity].
  apply Qeq_bool_iff in E. contradiction.
Qed.

(** ** Overview KPIs: the zero-income case *)

Lemma Qgtb_zero_false q : (q == 0)%Q -> Qgtb q 0 = false.
Proof.
  intros H. apply not_true_iff_false. rewrite Qgtb_lt.
  rewrite H. apply Qlt_irrefl.
Qed.

(** The guarded form reports the literal 0 when income is zero. *)
Lemma pct_if_income_zero fd x :
  (total_income fd == 0)%Q -> pct_if_income fd x = Fin 0.
Proof.
  intros H. unfold pct_if_income. now rewrite (Qgtb_zero_false _ H).
Qed.

(** The guarded form of a finite amount is always finite. *)
Lemma pct_if_income_finite fd q : exists r, pct_if_income fd (Fin q) = Fin r.
Proof.
  unfold pct_if_income. destruct (Qgtb (total_income fd) 0) eqn:E.
  - apply Qgtb_lt in E. rewrite div_nonzero_finite; [eauto|].
    intros H. rewrite H in E. exact (Qlt_irrefl _ E).
  - eauto.
Qed.

Lemma profit_margin_finite fd : exists r, profit_margin fd = Fin r.
Proof. apply pct_if_income_finite. Qed.

Lemma expense_ratio_finite fd : exists r, expense_ratio fd = Fin r.
Proof. apply pct_if_income_finite. Qed.

Lemma purchase_to_income_ratio_finite fd :
  exists r, purchase_to_income_ratio fd = Fin r.
Proof. apply pct_if_income_finite. Qed.

(** The unguarded form never reports a number when income is zero. *)
Lemma pct_of_income_zero fd q :
  (total_income fd == 0)%Q -> Num.isfinite (pct_of_income fd (Fin q)) = false.
Proof. intros H. now apply div_zero_not_finite. Qed.

(** C1. With zero total income the five first-row ratios and the three
    health ratios report exactly 0, as do the Revenue tab's payment
    shares; the four payment-method percentages of the overview (cash,
    visa, due amount, system income) divide without a test and report
    NaN or an infinity instead of 0. *)
Theorem payment_deltas_divide_by_zero_income (fd : filtered_data) :
  (total_income fd == 0)%Q ->
  (revenue_delta fd = Fin 0 /\ expenses_delta fd = Fin 0 /\
   purchases_delta fd = Fin 0 /\ margin_delta fd = Fin 0 /\
   deficit_delta fd = Fin 0 /\
   profit_margin fd = Fin 0 /\ expense_ratio fd = Fin 0 /\
   purchase_to_income_ratio fd = Fin 0 /\
   cash_percentage fd = Fin 0 /\ visa_percentage fd = Fin 0 /\
   due_percentage fd = Fin 0) /\
  Num.isfinite (cash_delta fd) = false /\
  Num.isfinite (visa_delta fd) = false /\
  Num.isfinite (due_delta fd) = false /\
  Num.isfinite (system_delta fd) = false.
Proof.
  intros H. split.
  - repeat split; now apply pct_if_income_zero.
  - repeat split; now apply pct_of_income_zero.
Qed.

(** The empty view has zero income; the statement above at that view. *)
Lemma payment_deltas_on_empty_view :
  (total_income empty_view == 0)%Q /\
  ((revenue_delta empty_view = Fin 0 /\ expenses_delta empty_view = Fin 0 /\
    purchases_delta empty_view = Fin 0 /\ margin_delta empty_view = Fin 0 /\
    deficit_delta empty_view = Fin 0 /\
    profit_margin empty_view = Fin 0 /\ expense_ratio empty_view = Fin 0 /\
    purchase_to_income_ratio empty_view = Fin 0 /\
    cash_percentage empty_view = Fin 0 /\ visa_percentage empty_view = Fin 0 /\
    due_percentage empty_view = Fin 0) /\
   Num.isfinite (cash_delta empty_view) = false /\
   Num.isfinite (visa_delta empty_view) = false /\
   Num.isfinite (due_delta empty_view) = false /\
   Num.isfinite (system_delta empty_view) = false).
Proof.
  split.
  - reflexivity.
  - apply (payment_deltas_divide_by_zero_income empty_view). reflexivity.
Defined.

(** On the empty view the four payment percentages are exactly NaN. *)
Example payment_deltas_nan :
  cash_delta empty_view = NaN /\ visa_delta empty_view = NaN /\
  due_delta empty_view = NaN /\ system_delta empty_view = NaN.
Proof. repeat split; reflexivity. Qed.

(** A day with receipts recorded under cash but a zero total: the cash
    share is an infinity. *)
Example cash_delta_infinite :
  cash_delta
    {| daily_income :=
         [{| idx := 0; Date := Stamp 738886; date := Some 738886;
             Total := 0; cash := 5; visa := 0; due_amount := 0;
             Gross_Income_sys := 0; net_income := Fin 0; deficit := Fin 0 |}];
       inventory := []; expenses := [] |} = PInf.
Proof. reflexivity. Qed.

(** ** Health tiers *)

Ltac tier_cases :=
  repeat match goal with
  | |- context [Num.ltb (Fin ?a) (Fin ?b)] =>
      let E := fresh "E" in
      destruct (Num.ltb (Fin a) (Fin b)) eqn:E;
      [apply ltb_Fin in E | apply ltb_Fin_false in E]
  | |- context [Num.gtb (Fin ?a) (Fin ?b)] =>
      let E := fresh "E" in
      destruct (Num.gtb (Fin a) (Fin b)) eqn:E;
      [apply gtb_Fin in E | apply gtb_Fin_false in E]
  | |- context [Num.leb (Fin ?a) (Fin ?b)] =>
      let E := fresh "E" in
      destruct (Num.leb (Fin a) (Fin b)) eqn:E;
      [apply leb_Fin in E | apply leb_Fin_false in E]
  | |- context [Num.geb (Fin ?a) (Fin ?b)] =>
      let E := fresh "E" in
      destruct (Num.geb (Fin a) (Fin b)) eqn:E;
      [apply geb_Fin in E | apply geb_Fin_false in E]
  end.

Ltac tier_solve :=
  tier_cases; cbn;
  repeat split; intros;
  try discriminate; try reflexivity; try assumption;
  try (exfalso; lra); try lra.

Lemma profit_notice_tiers q :
  (notice_tier (profit_notice (Fin q)) = Some critical <-> (q < 20)%Q) /\
  (notice_tier (profit_notice (Fin q)) = Some warning <-> (20 <= q /\ q < 50)%Q) /\
  (notice_tier (profit_notice (Fin q)) = Some healthy <-> (50 <= q)%Q).
Proof. unfold profit_notice. tier_solve. Qed.

Lemma expense_notice_tiers q :
  (notice_tier (expense_notice (Fin q)) = Some critical <-> (50 < q)%Q) /\
  (notice_tier (expense_notice (Fin q)) = Some warning <-> (30 < q /\ q <= 50)%Q) /\
  (notice_tier (expense_notice (Fin q)) = Some healthy <-> (q <= 30)%Q).
Proof. unfold expense_notice. tier_solve. Qed.

Lemma inventory_notice_tiers q :
  (notice_tier (inventory_notice (Fin q)) = Some critical <-> (60 < q)%Q) /\
  (notice_tier (inventory_notice (Fin q)) = Some healthy <-> (40 < q /\ q <= 60)%Q) /\
  (notice_tier (inventory_notice (Fin q)) = Some warning <-> (q <= 40)%Q).
Proof. unfold inventory_notice. tier_solve. Qed.

Lemma profit_status_tiers q :
  (status_tier (profit_status (Fin q)) = Some critical <-> (q < 15)%Q) /\
  (status_tier (profit_status (Fin q)) = Some warning <-> (15 <= q /\ q < 30)%Q) /\
  (status_tier (profit_status (Fin q)) = Some healthy <-> (30 <= q)%Q).
Proof. unfold profit_status. tier_solve. Qed.

Lemma expense_status_tiers q :
  (status_tier (expense_status (Fin q)) = Some critical <-> (40 < q)%Q) /\
  (status_tier (expense_status (Fin q)) = Some warning <-> (25 < q /\ q <= 40)%Q) /\
  (status_tier (expense_status (Fin q)) = Some healthy <-> (q <= 25)%Q).
Proof. unfold expense_status. tier_solve. Qed.

Lemma purchase_status_tiers q :
  (status_tier (purchase_status (Fin q)) = Some critical <-> (60 < q)%Q) /\
  (status_tier (purchase_status (Fin q)) = Some warning <-> (40 < q /\ q <= 60)%Q) /\
  (status_tier (purchase_status (Fin q)) = Some healthy <-> (q <= 40)%Q).
Proof. unfold purchase_status. tier_solve. Qed.

(** The exported status column does not follow the breakpoints of the
    notices: a margin of 35 is Healthy there although it is below 50, an
    expense ratio of 28 is a Warning although it is not above 30, and a
    purchase ratio of 50 is a Warning although it lies in (40, 60]. *)
Lemma export_status_breakpoints_differ :
  (status_tier (profit_status (Fin 35)) = Some healthy /\
   notice_tier (profit_notice (Fin 35)) = Some warning /\ ~ (50 <= 35)%Q) /\
  (status_tier (expense_status (Fin 28)) = Some warning /\
   notice_tier (expense_notice (Fin 28)) = Some healthy /\ ~ (30 < 28)%Q) /\
  (status_tier (purchase_status (Fin 50)) = Some warning /\
   notice_tier (inventory_notice (Fin 50)) = Some healthy /\
   (40 < 50 /\ 50 <= 60)%Q).
Proof.
  repeat split; try reflexivity; lra.
Qed.

(** C5 (amended). For every finite value the on-screen KPI notices are
    exact at their breakpoints: profit margin critical iff < 20, warning
    iff 20 <= m < 50, healthy iff >= 50; expense ratio critical iff > 50,
    warning iff 30 < r <= 50, healthy iff r <= 30; purchase ratio critical
    iff > 60, healthy iff 40 < r <= 60, warning iff r <= 40.  The Status
    column of the exported KPI sheet has breakpoints of its own: margin
    critical iff < 15, warning iff 15 <= m < 30, healthy iff >= 30;
    expense ratio healthy iff <= 25, warning iff 25 < r <= 40, critical
    iff > 40; purchase ratio healthy iff <= 40, warning iff 40 < r <= 60,
    critical iff > 60. *)
Theorem health_tiers_exact (q : Q) :
  ((notice_tier (profit_notice (Fin q)) = Some critical <-> (q < 20)%Q) /\
   (notice_tier (profit_notice (Fin q)) = Some warning <-> (20 <= q /\ q < 50)%Q) /\
   (notice_tier (profit_notice (Fin q)) = Some healthy <-> (50 <= q)%Q)) /\
  ((notice_tier (expense_notice (Fin q)) = Some critical <-> (50 < q)%Q) /\
   (notice_tier (expense_notice (Fin q)) = Some warning <-> (30 < q /\ q <= 50)%Q) /\
   (notice_tier (expense_notice (Fin q)) = Some healthy <-> (q <= 30)%Q)) /\
  ((notice_tier (inventory_notice (Fin q)) = Some critical <-> (60 < q)%Q) /\
   (notice_tier (inventory_notice (Fin q)) = Some healthy <-> (40 < q /\ q <= 60)%Q) /\
   (notice_tier (inventory_notice (Fin q)) = Some warning <-> (q <= 40)%Q)) /\
  ((status_tier (profit_status (Fin q)) = Some critical <-> (q < 15)%Q) /\
   (status_tier (profit_status (Fin q)) = Some warning <-> (15 <= q /\ q < 30)%Q) /\
   (status_tier (profit_status (Fin q)) = Some healthy <-> (30 <= q)%Q)) /\
  ((status_tier (expense_status (Fin q)) = Some critical <-> (40 < q)%Q) /\
   (status_tier (expense_status (Fin q)) = Some warning <-> (25 < q /\ q <= 40)%Q) /\
   (status_tier (expense_status (Fin q)) = Some healthy <-> (q <= 25)%Q)) /\
  ((status_tier (purchase_status (Fin q)) = Some critical <-> (60 < q)%Q) /\
   (status_tier (purchase_status (Fin q)) = Some warning <-> (40 < q /\ q <= 60)%Q) /\
   (status_tier (purchase_status (Fin q)) = Some healthy <-> (q <= 40)%Q)).
Proof.
  split; [apply profit_notice_tiers|].
  split; [apply expense_notice_tiers|].
  split; [apply inventory_notice_tiers|].
  split; [apply profit_status_tiers|].
  split; [apply expense_status_tiers|].
  apply purchase_status_tiers.
Qed.

(** The boundary values themselves. *)
Example profit_notice_at_20 :
  notice_tier (profit_notice (Fin (19999 # 1000))) = Some critical /\
  notice_tier (profit_notice (Fin 20)) = Some warning /\
  notice_tier (profit_notice (Fin 50)) = Some healthy /\
  notice_tier (expense_notice (Fin 50)) = Some warning /\
  notice_tier (expense_notice (Fin 30)) = Some healthy /\
  notice_tier (inventory_notice (Fin 60)) = Some healthy /\
  notice_tier (inventory_notice (Fin 40)) = Some warning.
Proof. repeat split; reflexivity. Qed.

(** End to end: one day of 1000 with no expense and no purchase. *)
Example single_day_margin :
  let fd :=
    {| daily_income :=
         [{| idx := 0; Date := Stamp 738886; date := Some 738886;
             Total := 1000; cash := 600; visa := 300; due_amount := 100;
             Gross_Income_sys := 1000; net_income := Fin 1000;
             deficit := Fin 0 |}];
       inventory := []; expenses := [] |} in
  net_profit fd = 1000%Q /\ profit_margin fd = Fin 100 /\
  notice_tier (profit_notice (profit_margin fd)) = Some healthy.
Proof. repeat split; reflexivity. Qed.

(** ** The loader *)

Lemma lookup_map {A B : Type} (f : A -> B) (l : list A) (i : nat) :
  List.map f l !! i = option_map f (l !! i).
Proof.
  revert i. induction l as [|x l IH]; intros [|i]; simpl; auto.
Qed.

Lemma at_label_map {A : Type} (f : A -> num) (l : list A) (i : nat) :
  at_label (List.map f l) i =
  match l !! i with Some a => f a | None => NaN end.
Proof. unfold at_label. rewrite lookup_map. now destruct (l !! i). Qed.

(** Series arithmetic is label-wise, a missing label counting as [NaN]. *)
Lemma at_label_series_binop op a b i :
  op NaN NaN = NaN ->
  at_label (series_binop op a b) i = op (at_label a i) (at_label b i).
Proof.
  intros Hop. revert b i. induction a as [|x a IH]; intros b i.
  - cbn [series_binop]. rewrite at_label_map. unfold at_label.
    rewrite lookup_nil. now destruct (b !! i).
  - destruct b as [|y b].
    + cbn [series_binop]. rewrite at_label_map. unfold at_label.
      rewrite lookup_nil. now destruct ((x :: a) !! i).
    + cbn [series_binop]. destruct i as [|i]; [reflexivity|]. exact (IH b i).
Qed.

Lemma at_label_assign_column n s i :
  (i < n)%nat -> at_label (assign_column n s) i = at_label s i.
Proof.
  intros Hi. unfold assign_column. rewrite at_label_map.
  now rewrite lookup_seq_lt.
Qed.

Lemma net_income_col_at income purchases expenses i :
  (i < length income)%nat ->
  at_label (net_income_col income purchases expenses) i =
  Num.sub (Num.sub (at_label (Total_col income) i)
                   (Expense_Amount_at expenses i))
          (Invoice_Amount_at purchases i).
Proof.
  intros Hi. unfold net_income_col.
  rewrite at_label_assign_column by assumption.
  rewrite !at_label_series_binop by reflexivity.
  unfold Expense_Amount_col, Invoice_Amount_col. rewrite !at_label_map.
  reflexivity.
Qed.

Lemma deficit_col_at income i :
  (i < length income)%nat ->
  at_label (deficit_col income) i =
  Num.sub (at_label (Total_col income) i)
          (at_label (Gross_Income_sys_col income) i).
Proof.
  intros Hi. unfold deficit_col.
  rewrite at_label_assign_column by assumption.
  now rewrite at_label_series_binop.
Qed.

(** Every row of the frame comes from the sheet row at its index label. *)
Lemma In_income_frame parse parse_number income purchases expenses row :
  In row (income_frame parse parse_number income purchases expenses) <->
  exists r, income !! idx row = Some r /\
    row = income_frame_row parse parse_number income purchases expenses
            (idx row) r.
Proof.
  rewrite <- list_elem_of_In. unfold income_frame.
  rewrite elem_of_lookup_imap. split.
  - intros (i & r & -> & Hr). exists r. cbn. auto.
  - intros (r & Hr & Hrow). exists (idx row), r. auto.
Qed.

(** The returned table holds rows of the load-time frame, unchanged. *)
Lemma loaded_rows_in_frame parse parse_number income purchases expenses row :
  In row (t_daily_income
            (load_data parse parse_number income purchases expenses)) ->
  In row (income_frame parse parse_number income purchases expenses).
Proof.
  intros Hin. cbn [load_data t_daily_income] in Hin.
  now apply filter_In in Hin.
Qed.

(** C3. At load time, for every row of the daily-income frame, with [i]
    its index label, net_income = Total[i] - ExpenseAmount[i] -
    InvoiceAmount[i] where the expense and the purchase amounts are those
    at position [i] of the expenses and inventory-purchases sheets (no
    join on dates; a sheet without a row [i] contributes NaN), and
    deficit = Total[i] - GrossIncomeSys[i]. *)
Theorem derived_columns_by_position
    (parse : string -> option Z) (parse_number : Q -> option Z)
    (income : list income_sheet_row)
    (purchases : list purchase_sheet_row) (expenses : list expense_sheet_row)
    (row : income_row) :
  In row (income_frame parse parse_number income purchases expenses) ->
  (exists r, income !! idx row = Some r /\
             Total row = fillna0 (s_Total r) /\
             Gross_Income_sys row = fillna0 (s_Gross_Income_sys r)) /\
  net_income row =
    Num.sub (Num.sub (Fin (Total row)) (Expense_Amount_at expenses (idx row)))
            (Invoice_Amount_at purchases (idx row)) /\
  deficit row = Fin (Qred (Total row - Gross_Income_sys row)).
Proof.
  intros Hin.
  apply In_income_frame in Hin. destruct Hin as (r & Hr & Hrow).
  assert (Hi : (idx row < length income)%nat) by (eapply lookup_lt_Some; eauto).
  assert (HT : Total row = fillna0 (s_Total r))
    by (rewrite Hrow; reflexivity).
  assert (HG : Gross_Income_sys row = fillna0 (s_Gross_Income_sys r))
    by (rewrite Hrow; reflexivity).
  assert (HN : net_income row =
               at_label (net_income_col income purchases expenses) (idx row))
    by (rewrite Hrow; reflexivity).
  assert (HD : deficit row = at_label (deficit_col income) (idx row))
    by (rewrite Hrow; reflexivity).
  split; [|split].
  - exists r. auto.
  - rewrite HN, net_income_col_at by assumption.
    unfold Total_col. rewrite at_label_map, Hr, HT. reflexivity.
  - rewrite HD, deficit_col_at by assumption.
    unfold Total_col, Gross_Income_sys_col.
    rewrite !at_label_map, Hr, HT, HG. reflexivity.
Qed.

(** The first row of the sample workbook. *)
Lemma derived_columns_by_position_sample :
  In sample_row0
    (income_frame Calendar.parse_iso epoch_ns sample_income sample_purchases
       sample_expenses) /\
  ((exists r, sample_income !! idx sample_row0 = Some r /\
              Total sample_row0 = fillna0 (s_Total r) /\
              Gross_Income_sys sample_row0 = fillna0 (s_Gross_Income_sys r)) /\
   net_income sample_row0 =
     Num.sub (Num.sub (Fin (Total sample_row0))
                      (Expense_Amount_at sample_expenses (idx sample_row0)))
             (Invoice_Amount_at sample_purchases (idx sample_row0)) /\
   deficit sample_row0 =
     Fin (Qred (Total sample_row0 - Gross_Income_sys sample_row0))).
Proof.
  split.
  - left. reflexivity.
  - apply (derived_columns_by_position Calendar.parse_iso epoch_ns
             sample_income sample_purchases sample_expenses sample_row0).
    left. reflexivity.
Defined.

(** Rows are matched by position even when their dates differ, and a
    daily-income row beyond the end of a shorter sheet gets NaN. *)
Example net_income_misaligned :
  List.map (fun r => (idx r, net_income r))
    (income_frame Calendar.parse_iso epoch_ns sample_income sample_purchases
       sample_expenses) =
  [(0%nat, Fin 500); (1%nat, Fin 420); (2%nat, NaN); (3%nat, NaN)].
Proof. reflexivity. Qed.

(** What [fillna(0)] does to a [Date] cell: nothing, unless the column is
    numeric and the cell empty. *)
Lemma fillna_Date_other (col : list cell) (c : cell) :
  numeric_column col = false -> fillna_Date col c = c.
Proof. unfold fillna_Date. now intros ->. Qed.

Lemma fillna_Date_notnull (col : list cell) (c : cell) :
  numeric_column col = true -> notnull (fillna_Date col c) = true.
Proof. unfold fillna_Date. intros ->. now destruct c. Qed.

Lemma fillna_Date_Blank (col : list cell) (c : cell) :
  fillna_Date col c = Blank -> c = Blank.
Proof. unfold fillna_Date. destruct (numeric_column col), c; congruence. Qed.

Lemma fillna_Date_Stamp (col : list cell) (c : cell) (d : Z) :
  fillna_Date col c = Stamp d -> c = Stamp d.
Proof. unfold fillna_Date. destruct (numeric_column col), c; congruence. Qed.

Lemma text_column_not_numeric (col : list cell) (s : string) :
  In (Text s) col -> numeric_column col = false.
Proof.
  intros Hin. apply not_true_iff_false. intros Hn.
  unfold numeric_column in Hn. rewrite forallb_forall in Hn.
  specialize (Hn _ Hin). discriminate.
Qed.

(** What [dropna(subset=["Date"])] does remove: rows whose [Date] cell is
    empty when it runs. *)
Lemma loaded_rows_have_Date parse parse_number income purchases expenses row :
  In row (t_daily_income
            (load_data parse parse_number income purchases expenses)) ->
  Date row <> Blank.
Proof.
  intros Hin. cbn [load_data t_daily_income] in Hin.
  apply filter_In in Hin. destruct Hin as [_ Hn].
  intros HB. rewrite HB in Hn. discriminate.
Qed.

Lemma stamped_rows_have_date parse parse_number income purchases expenses
    row d :
  In row (t_daily_income
            (load_data parse parse_number income purchases expenses)) ->
  Date row = Stamp d -> date row = Some d.
Proof.
  intros Hin HD. apply loaded_rows_in_frame in Hin.
  apply In_income_frame in Hin. destruct Hin as (r & _ & Hrow).
  assert (H1 : Date row = fillna_Date (List.map s_Date income) (s_Date r))
    by (rewrite Hrow; reflexivity).
  assert (H2 : date row = to_datetime parse parse_number (s_Date r))
    by (rewrite Hrow; reflexivity).
  rewrite HD in H1. symmetry in H1. apply fillna_Date_Stamp in H1.
  rewrite H2, H1. reflexivity.
Qed.

(** C2. A daily-income row whose [Date] cell holds text that is kept as
    text by the reader and does not parse as a date is not discarded by
    [load_data]: it is returned with a null parsed date, because the final
    [dropna] tests the [Date] column and not the parsed [date] column. *)
Theorem unparsed_date_text_survives_load
    (parse : string -> option Z) (parse_number : Q -> option Z)
    (income : list income_sheet_row)
    (purchases : list purchase_sheet_row) (expenses : list expense_sheet_row)
    (i : nat) (r : income_sheet_row) (s : string) :
  income !! i = Some r ->
  s_Date r = Text s ->
  is_na_value s = false ->
  parse s = None ->
  exists row,
    In row (t_daily_income
              (load_data parse parse_number income purchases expenses)) /\
    idx row = i /\ Date row = Text s /\ date row = None.
Proof.
  intros Hr HD _ Hp.
  assert (Hcol : numeric_column (List.map s_Date income) = false).
  { apply (text_column_not_numeric _ s). rewrite <- HD.
    apply in_map. apply list_elem_of_In. eapply list_elem_of_lookup_2; eauto. }
  exists (income_frame_row parse parse_number income purchases expenses i r).
  split; [|split; [|split]].
  - cbn [load_data t_daily_income]. apply filter_In. split.
    + apply In_income_frame. exists r. cbn [idx income_frame_row]. auto.
    + cbn [Date income_frame_row].
      rewrite fillna_Date_other by exact Hcol. rewrite HD. reflexivity.
  - reflexivity.
  - cbn [Date income_frame_row]. rewrite fillna_Date_other by exact Hcol.
    exact HD.
  - cbn [date income_frame_row]. rewrite HD. exact Hp.
Qed.

(** The second row of the sample workbook, whose [Date] cell reads tbd. *)
Lemma unparsed_date_text_survives_load_sample :
  (sample_income !! 1%nat =
     Some {| s_Date := Text "tbd"; s_Total := Some 500%Q; s_cash := None;
             s_visa := Some 500%Q; s_due_amount := None;
             s_Gross_Income_sys := Some 500%Q |} /\
   is_na_value "tbd" = false /\
   Calendar.parse_iso "tbd" = None) /\
  exists row,
    In row (t_daily_income sample_tables) /\
    idx row = 1%nat /\ Date row = Text "tbd" /\ date row = None.
Proof.
  split.
  - repeat split; reflexivity.
  - apply (unparsed_date_text_survives_load Calendar.parse_iso epoch_ns
             sample_income sample_purchases sample_expenses 1
             {| s_Date := Text "tbd"; s_Total := Some 500%Q; s_cash := None;
                s_visa := Some 500%Q; s_due_amount := None;
                s_Gross_Income_sys := Some 500%Q |} "tbd");
      reflexivity.
Defined.

(** The same holds for the two other tables. *)
Example unparsed_expense_date_kept :
  List.map (fun r => (e_idx r, e_Date r, e_date r)) (t_expenses sample_tables) =
  [(0%nat, Stamp 738888, Some 738888); (1%nat, Text "soon", None);
   (2%nat, Stamp 738886, Some 738886)].
Proof. reflexivity. Qed.

(** A row with an empty [Date] cell is kept as well when its column is
    numeric (every cell a number or empty): [fillna(0)] has put 0 in the
    cell before [dropna] looks at it, and the parsed date stays null. *)
Lemma empty_date_survives_in_numeric_column
    (parse : string -> option Z) (parse_number : Q -> option Z)
    (income : list income_sheet_row)
    (purchases : list purchase_sheet_row) (expenses : list expense_sheet_row)
    (i : nat) (r : income_sheet_row) :
  income !! i = Some r ->
  s_Date r = Blank ->
  numeric_column (List.map s_Date income) = true ->
  exists row,
    In row (t_daily_income
              (load_data parse parse_number income purchases expenses)) /\
    idx row = i /\ Date row = Number 0 /\ date row = None.
Proof.
  intros Hr HD Hcol.
  exists (income_frame_row parse parse_number income purchases expenses i r).
  assert (HDate : Date (income_frame_row parse parse_number income purchases
                          expenses i r) = Number 0).
  { cbn [Date income_frame_row]. unfold fillna_Date. now rewrite Hcol, HD. }
  split; [|split; [|split]].
  - cbn [load_data t_daily_income]. apply filter_In. split.
    + apply In_income_frame. exists r. cbn [idx income_frame_row]. auto.
    + now rewrite HDate.
  - reflexivity.
  - exact HDate.
  - cbn [date income_frame_row]. now rewrite HD.
Qed.

Example undated_expenses_all_kept :
  List.map (fun r => (e_idx r, e_Date r, e_date r))
    (t_expenses (load_data Calendar.parse_iso epoch_ns sample_income
                   sample_purchases undated_expenses)) =
  [(0%nat, Number 0, None); (1%nat, Number 0, None)].
Proof. reflexivity. Qed.

(** ** Column names *)

Ltac compare_codes :=
  repeat match goal with
         | |- context [(?a <=? ?b)%N] =>
             destruct (N.leb_spec a b); try (exfalso; lia)
         | |- context [(?a =? ?b)%N] =>
             destruct (N.eqb_spec a b); try (exfalso; lia)
         end.

Lemma all_space_app (a b : str) :
  all_space (a ++ b) = all_space a && all_space b.
Proof. apply forallb_app. Qed.

Lemma all_space_rev (s : str) : all_space (rev s) = all_space s.
Proof.
  induction s as [|c s IH]; [reflexivity|].
  cbn [rev]. rewrite all_space_app, IH. cbn.
  rewrite andb_true_r. apply andb_comm.
Qed.

Lemma lstrip_split (s : str) :
  exists pre,
    s = pre ++ lstrip s /\ all_space pre = true /\
    starts_clean (lstrip s) = true.
Proof.
  induction s as [|c s (pre & Hs & Hpre & Hc)]; cbn [lstrip].
  - exists []. auto.
  - destruct (isspace c) eqn:E.
    + exists (c :: pre). split; [|split].
      * cbn [app]. now rewrite <- Hs.
      * unfold all_space in *. cbn [forallb]. now rewrite E.
      * exact Hc.
    + exists []. cbn [starts_clean]. rewrite E. auto.
Qed.

Lemma rstrip_split (s : str) :
  exists post,
    s = rstrip s ++ post /\ all_space post = true /\
    starts_clean (rev (rstrip s)) = true.
Proof.
  destruct (lstrip_split (rev s)) as (pre & Hs & Hpre & Hc).
  exists (rev pre). unfold rstrip. split; [|split].
  - rewrite <- rev_app_distr, <- Hs. now rewrite rev_involutive.
  - now rewrite all_space_rev.
  - now rewrite rev_involutive.
Qed.

Lemma starts_clean_prefix (a b : str) :
  starts_clean (a ++ b) = true -> starts_clean a = true.
Proof. destruct a; auto. Qed.

(** [strip] removes a run of whitespace at each end, changes no code point
    of what is left, and leaves no whitespace at either end. *)
Lemma strip_trimmed_of (c : str) : trimmed_of c (strip c).
Proof.
  destruct (lstrip_split c) as (pre & Hs & Hpre & Hc).
  destruct (rstrip_split (lstrip c)) as (post & Hl & Hpost & Hr).
  exists pre, post. fold (strip c) in Hl, Hr.
  split; [now rewrite <- Hl|]. split; [exact Hpre|]. split; [exact Hpost|].
  unfold trimmed. rewrite Hr, andb_true_r.
  rewrite Hl in Hc. now apply starts_clean_prefix in Hc.
Qed.

(** Nothing else is: the trimmed part of a name is unique. *)
Lemma lstrip_all_space (pre s : str) :
  all_space pre = true -> lstrip (pre ++ s) = lstrip s.
Proof.
  induction pre as [|c pre IH]; [reflexivity|].
  cbn. intros H. apply andb_true_iff in H as [Hc Hpre].
  rewrite Hc. auto.
Qed.

Lemma lstrip_clean (s : str) : starts_clean s = true -> lstrip s = s.
Proof.
  destruct s as [|c s]; [reflexivity|]. cbn.
  intros H. apply negb_true_iff in H. now rewrite H.
Qed.

Lemma lstrip_nil (s : str) : all_space s = true -> lstrip s = [].
Proof. intros H. rewrite <- (app_nil_r s). now rewrite lstrip_all_space. Qed.

Lemma trimmed_of_unique (c t : str) : trimmed_of c t -> t = strip c.
Proof.
  intros (pre & post & -> & Hpre & Hpost & Ht).
  unfold trimmed in Ht. apply andb_true_iff in Ht as [Hh Hl].
  unfold strip, rstrip. rewrite lstrip_all_space by exact Hpre.
  destruct t as [|x t].
  - cbn [app]. rewrite (lstrip_nil post Hpost). reflexivity.
  - assert (Hc : starts_clean ((x :: t) ++ post) = true) by exact Hh.
    rewrite (lstrip_clean _ Hc), rev_app_distr.
    rewrite lstrip_all_space by (now rewrite all_space_rev).
    rewrite (lstrip_clean _ Hl). now rewrite rev_involutive.
Qed.

Lemma is_upper_lower_ascii (c : N) : is_upper (lower_ascii c) = false.
Proof.
  unfold lower_ascii. destruct (is_upper c) eqn:E; [|exact E].
  unfold is_upper in *. apply andb_true_iff in E as [H1 H2].
  apply N.leb_le in H1, H2. compare_codes; reflexivity.
Qed.

Lemma isspace_lower_ascii (c : N) : isspace (lower_ascii c) = isspace c.
Proof.
  unfold lower_ascii. destruct (is_upper c) eqn:E; [|reflexivity].
  unfold is_upper in E. apply andb_true_iff in E as [H1 H2].
  apply N.leb_le in H1, H2.
  assert (Hc : isspace c = false) by (unfold isspace; compare_codes; reflexivity).
  rewrite Hc. unfold isspace. compare_codes; reflexivity.
Qed.

Lemma starts_clean_ascii_lower (s : str) :
  starts_clean (ascii_lower s) = starts_clean s.
Proof.
  destruct s as [|c s]; [reflexivity|]. cbn.
  now rewrite isspace_lower_ascii.
Qed.

Lemma trimmed_ascii_lower (s : str) : trimmed (ascii_lower s) = trimmed s.
Proof.
  unfold trimmed, ascii_lower. rewrite <- List.map_rev.
  fold (ascii_lower s). fold (ascii_lower (rev s)).
  now rewrite !starts_clean_ascii_lower.
Qed.

Lemma no_capital_ascii_lower (s : str) : no_capital (ascii_lower s) = true.
Proof.
  unfold no_capital, ascii_lower. apply forallb_forall.
  intros c Hc. apply in_map_iff in Hc as (c0 & <- & _).
  now rewrite is_upper_lower_ascii.
Qed.

Lemma is_ascii_middle (pre t post : str) :
  is_ascii (pre ++ t ++ post) = true -> is_ascii t = true.
Proof.
  unfold is_ascii. rewrite !forallb_app, !andb_true_iff. tauto.
Qed.

Lemma Forall2_map_r {A B : Type} (R : A -> B -> Prop) (f : A -> B)
    (l : list A) :
  (forall x, R x (f x)) -> Forall2 R l (List.map f l).
Proof. intros H. induction l; cbn; constructor; auto. Qed.

(** C4 (amended).  [load_data] trims the column names of the reference
    (lists), inventory-purchases and expenses sheets: the new name is the
    old one without its leading and trailing whitespace, with every code
    point in between as it was, capitals included.  It lower-cases the
    names of the reference sheet only: such a name is the lower-cased
    trimmed name, which for an ASCII name is trimmed, holds no capital
    letter and differs from the trimmed name in its capitals only.  The
    daily-income names are left as read. *)
Theorem column_names_cleaned (str_lower : str -> str) (h : headers) :
  lowers_ascii str_lower ->
  h_daily_income (clean_up_column_names str_lower h) = h_daily_income h /\
  Forall2 trimmed_of (h_inventory_purchases h)
    (h_inventory_purchases (clean_up_column_names str_lower h)) /\
  Forall2 trimmed_of (h_expenses h)
    (h_expenses (clean_up_column_names str_lower h)) /\
  Forall2 (fun c c' =>
             exists t, trimmed_of c t /\ c' = str_lower t /\
               (is_ascii c = true ->
                c' = ascii_lower t /\ trimmed c' = true /\
                no_capital c' = true))
    (h_lists h) (h_lists (clean_up_column_names str_lower h)).
Proof.
  intros Hlower. cbn [clean_up_column_names h_daily_income
                      h_inventory_purchases h_expenses h_lists].
  split; [reflexivity|].
  split; [apply Forall2_map_r, strip_trimmed_of|].
  split; [apply Forall2_map_r, strip_trimmed_of|].
  apply Forall2_map_r. intros c. exists (strip c).
  pose proof (strip_trimmed_of c) as Ht.
  split; [exact Ht|]. split; [reflexivity|]. intros Hc.
  destruct Ht as (pre & post & Hsplit & _ & _ & Htrim).
  assert (Ha : is_ascii (strip c) = true)
    by (rewrite Hsplit in Hc; now apply is_ascii_middle in Hc).
  rewrite (Hlower _ Ha), trimmed_ascii_lower, no_capital_ascii_lower. auto.
Qed.

(** The sample header rows, with [str.lower] as it acts on ASCII text. *)
Lemma column_names_cleaned_sample :
  lowers_ascii ascii_lower /\
  h_daily_income (clean_up_column_names ascii_lower sample_headers)
  = h_daily_income sample_headers /\
  Forall2 trimmed_of (h_inventory_purchases sample_headers)
    (h_inventory_purchases (clean_up_column_names ascii_lower sample_headers)) /\
  Forall2 trimmed_of (h_expenses sample_headers)
    (h_expenses (clean_up_column_names ascii_lower sample_headers)) /\
  Forall2 (fun c c' =>
             exists t, trimmed_of c t /\ c' = ascii_lower t /\
               (is_ascii c = true ->
                c' = ascii_lower t /\ trimmed c' = true /\
                no_capital c' = true))
    (h_lists sample_headers)
    (h_lists (clean_up_column_names ascii_lower sample_headers)).
Proof.
  split.
  - intros s _. reflexivity.
  - apply (column_names_cleaned ascii_lower sample_headers).
    intros s _. reflexivity.
Defined.

Example sample_headers_cleaned :
  clean_up_column_names ascii_lower sample_headers =
  {| h_lists := List.map str_of ["categories"; "companies"]%string;
     h_daily_income :=
       List.map str_of ["Date"; " Total"; "Gross Income_sys "]%string;
     h_inventory_purchases :=
       List.map str_of ["Date"; "Invoice Amount"; "Invoice Company"]%string;
     h_expenses :=
       List.map str_of ["Date"; "Expense Type"; "Expense Amount"]%string |}.
Proof. reflexivity. Qed.

(** On the sample headers the inventory and expense names are trimmed but
    keep their capitals, so they are not the normalised names. *)
Lemma inventory_and_expense_names_keep_case :
  h_inventory_purchases (clean_up_column_names ascii_lower sample_headers) =
    List.map str_of ["Date"; "Invoice Amount"; "Invoice Company"]%string /\
  List.map (normalize_name ascii_lower) (h_inventory_purchases sample_headers) =
    List.map str_of ["date"; "invoice amount"; "invoice company"]%string /\
  h_inventory_purchases (clean_up_column_names ascii_lower sample_headers) <>
    List.map (normalize_name ascii_lower) (h_inventory_purchases sample_headers) /\
  h_expenses (clean_up_column_names ascii_lower sample_headers) <>
    List.map (normalize_name ascii_lower) (h_expenses sample_headers).
Proof.
  split; [reflexivity|]. split; [reflexivity|].
  split; intros H; vm_compute in H; discriminate H.
Qed.

(** ** Category filters *)

(** C7. The inventory-type and the company filter change the inventory
    table only, the expense-type filter changes the expense table only,
    and none of them touches the daily-income table: the other tables come
    out row for row as they went in. *)
Theorem category_filters_frame (sel : string) (sb : sidebar) (fd : filtered_data) :
  (expenses (filter_inventory_type sel fd) = expenses fd /\
   daily_income (filter_inventory_type sel fd) = daily_income fd) /\
  (expenses (filter_company sel fd) = expenses fd /\
   daily_income (filter_company sel fd) = daily_income fd) /\
  (inventory (filter_expense_type sel fd) = inventory fd /\
   daily_income (filter_expense_type sel fd) = daily_income fd) /\
  daily_income (additional_filters sb fd) = daily_income fd /\
  expenses (additional_filters sb fd) =
    expenses (filter_expense_type (selected_expense sb) fd) /\
  inventory (additional_filters sb fd) =
    inventory (filter_company (selected_company sb)
                 (filter_inventory_type (selected_type sb) fd)).
Proof.
  unfold additional_filters, filter_inventory_type, filter_company,
    filter_expense_type.
  repeat split;
    repeat match goal with
    | |- context [negb (String.eqb ?a ?b)] => destruct (negb (String.eqb a b))
    end; reflexivity.
Qed.

(** The daily-income view does not depend on the category selections. *)
Lemma sidebar_daily_income_ignores_categories sb data :
  option_map daily_income (sidebar_filters sb data) =
  option_map daily_income (date_filters sb data).
Proof.
  unfold sidebar_filters. destruct (date_filters sb data) as [fd|]; [|reflexivity].
  cbn [option_map]. f_equal.
  unfold additional_filters, filter_inventory_type, filter_company,
    filter_expense_type.
  repeat match goal with
  | |- context [negb (String.eqb ?a ?b)] => destruct (negb (String.eqb a b))
  end; reflexivity.
Qed.

(** With every selection at ["All"] the category step is the identity. *)
Lemma additional_filters_All sb fd :
  selected_type sb = "All"%string -> selected_company sb = "All"%string ->
  selected_expense sb = "All"%string -> additional_filters sb fd = fd.
Proof.
  intros H1 H2 H3. unfold additional_filters, filter_inventory_type,
    filter_company, filter_expense_type.
  rewrite H1, H2, H3. reflexivity.
Qed.

(** ** Date filters *)

(** Indexing a frame by a mask computed row by row is filtering. *)
Lemma boolean_index_map {A : Type} (f : A -> bool) (rows : list A) :
  boolean_index rows (List.map f rows) = List.filter f rows.
Proof.
  induction rows as [|r rows IH]; [reflexivity|].
  cbn. rewrite IH. reflexivity.
Qed.

Lemma mask_and_map {A : Type} (f g : A -> bool) (l : list A) :
  mask_and (List.map f l) (List.map g l) = List.map (fun x => f x && g x) l.
Proof.
  induction l as [|x l IH]; [reflexivity|]. cbn. now rewrite IH.
Qed.

Lemma filter_ext_bool {A : Type} (f g : A -> bool) (l : list A) :
  (forall x, f x = g x) -> List.filter f l = List.filter g l.
Proof.
  intros H. induction l as [|x l IH]; [reflexivity|].
  cbn. now rewrite H, IH.
Qed.

Lemma filter_sublist {A : Type} (f : A -> bool) (l : list A) :
  List.filter f l `sublist_of` l.
Proof.
  induction l as [|x l IH]; cbn.
  - constructor.
  - destruct (f x); now constructor.
Qed.

Lemma month_and_window_filter {A : Type} (get : A -> option Z)
    (m start_date end_date : Z) (rows : list A) :
  month_and_window get m start_date end_date rows =
  List.filter (fun r => in_month_and_window m start_date end_date (get r)) rows.
Proof.
  unfold month_and_window, month_eq, date_ge, date_le.
  rewrite !List.map_map, !mask_and_map, boolean_index_map.
  apply filter_ext_bool. intros r. unfold in_month_and_window.
  destruct (get r); reflexivity.
Qed.

Lemma window_only_filter {A : Type} (get : A -> option Z)
    (start_date end_date : Z) (rows : list A) :
  window_only get start_date end_date rows =
  List.filter (fun r => in_window start_date end_date (get r)) rows.
Proof.
  unfold window_only, date_ge, date_le.
  rewrite !List.map_map, !mask_and_map, boolean_index_map.
  apply filter_ext_bool. intros r. unfold in_window.
  destruct (get r); reflexivity.
Qed.

Lemma in_month_and_window_spec m start_date end_date d :
  in_month_and_window m start_date end_date d = true <->
  exists day, d = Some day /\ Calendar.month_of day = m /\
              start_date <= day <= end_date.
Proof.
  unfold in_month_and_window. destruct d as [day|].
  - rewrite !andb_true_iff, Z.eqb_eq, !Z.leb_le. split.
    + intros [[H1 H2] H3]. exists day. auto.
    + intros (day' & [= <-] & H1 & H2 & H3). auto.
  - split; [discriminate|]. intros (day & H & _). discriminate.
Qed.

Lemma in_window_spec start_date end_date d :
  in_window start_date end_date d = true <->
  exists day, d = Some day /\ start_date <= day <= end_date.
Proof.
  unfold in_window. destruct d as [day|].
  - rewrite andb_true_iff, !Z.leb_le. split.
    + intros [H1 H2]. exists day. auto.
    + intros (day' & [= <-] & H1 & H2). auto.
  - split; [discriminate|]. intros (day & H & _). discriminate.
Qed.

Lemma index_month_name (m : nat) :
  (1 <= m <= 12)%nat -> index (nth m month_name EmptyString) month_name = Some m.
Proof.
  intros [H1 H2].
  do 13 (destruct m as [|m]; [first [lia | reflexivity]|]). lia.
Qed.

Lemma month_name_not_All (m : nat) :
  String.eqb (nth m month_name EmptyString) "All" = false.
Proof.
  do 13 (destruct m as [|m]; [reflexivity|]). destruct m; reflexivity.
Qed.

Lemma filter_In_window {A : Type} (get : A -> option Z) (keep : option Z -> bool)
    (P : Z -> Prop) (rows : list A) :
  (forall d, keep d = true <-> exists day, d = Some day /\ P day) ->
  forall r, In r (List.filter (fun r => keep (get r)) rows) <->
            In r rows /\ exists day, get r = Some day /\ P day.
Proof.
  intros Hk r. rewrite filter_In, Hk. reflexivity.
Qed.

(** C9. With the month filter set to month [m] (1 to 12) and a date
    window [start, end], a row of the daily-income, inventory or expense
    table is kept exactly when its date falls in month [m] and lies in the
    window, both ends included; the kept rows come in source order. *)
Theorem month_filter_is_conjunction
    (sb : sidebar) (data : tables) (m : nat) (start_date end_date : Z) :
  (1 <= m <= 12)%nat ->
  month_preset sb = nth m month_name EmptyString ->
  resolve_window sb data = Some (start_date, end_date) ->
  exists fd, date_filters sb data = Some fd /\
    (daily_income fd =
       List.filter (fun r => in_month_and_window (Z.of_nat m) start_date end_date (date r))
         (t_daily_income data) /\
     inventory fd =
       List.filter (fun r => in_month_and_window (Z.of_nat m) start_date end_date (p_date r))
         (t_inventory_purchases data) /\
     expenses fd =
       List.filter (fun r => in_month_and_window (Z.of_nat m) start_date end_date (e_date r))
         (t_expenses data)) /\
    (forall r, In r (daily_income fd) <->
       In r (t_daily_income data) /\
       exists d, date r = Some d /\ Calendar.month_of d = Z.of_nat m /\
                 start_date <= d <= end_date) /\
    (forall r, In r (inventory fd) <->
       In r (t_inventory_purchases data) /\
       exists d, p_date r = Some d /\ Calendar.month_of d = Z.of_nat m /\
                 start_date <= d <= end_date) /\
    (forall r, In r (expenses fd) <->
       In r (t_expenses data) /\
       exists d, e_date r = Some d /\ Calendar.month_of d = Z.of_nat m /\
                 start_date <= d <= end_date) /\
    (daily_income fd `sublist_of` t_daily_income data /\
     inventory fd `sublist_of` t_inventory_purchases data /\
     expenses fd `sublist_of` t_expenses data).
Proof.
  intros Hm Hp Hw. unfold date_filters. rewrite Hw, Hp.
  rewrite month_name_not_All, index_month_name by assumption.
  cbn [negb]. eexists. split; [reflexivity|].
  cbn [daily_income inventory expenses].
  rewrite !month_and_window_filter.
  split; [auto|].
  split; [apply filter_In_window, in_month_and_window_spec|].
  split; [apply filter_In_window, in_month_and_window_spec|].
  split; [apply filter_In_window, in_month_and_window_spec|].
  repeat split; apply filter_sublist.
Qed.

(** January within a custom window, on the sample tables. *)
Lemma month_filter_is_conjunction_sample :
  ((1 <= 1 <= 12)%nat /\
   month_preset sample_sidebar_month = nth 1 month_name EmptyString /\
   resolve_window sample_sidebar_month sample_tables = Some (738886, 738900)) /\
  exists fd, date_filters sample_sidebar_month sample_tables = Some fd /\
    (daily_income fd =
       List.filter (fun r => in_month_and_window (Z.of_nat 1) 738886 738900 (date r))
         (t_daily_income sample_tables) /\
     inventory fd =
       List.filter (fun r => in_month_and_window (Z.of_nat 1) 738886 738900 (p_date r))
         (t_inventory_purchases sample_tables) /\
     expenses fd =
       List.filter (fun r => in_month_and_window (Z.of_nat 1) 738886 738900 (e_date r))
         (t_expenses sample_tables)) /\
    (forall r, In r (daily_income fd) <->
       In r (t_daily_income sample_tables) /\
       exists d, date r = Some d /\ Calendar.month_of d = Z.of_nat 1 /\
                 738886 <= d <= 738900) /\
    (forall r, In r (inventory fd) <->
       In r (t_inventory_purchases sample_tables) /\
       exists d, p_date r = Some d /\ Calendar.month_of d = Z.of_nat 1 /\
                 738886 <= d <= 738900) /\
    (forall r, In r (expenses fd) <->
       In r (t_expenses sample_tables) /\
       exists d, e_date r = Some d /\ Calendar.month_of d = Z.of_nat 1 /\
                 738886 <= d <= 738900) /\
    (daily_income fd `sublist_of` t_daily_income sample_tables /\
     inventory fd `sublist_of` t_inventory_purchases sample_tables /\
     expenses fd `sublist_of` t_expenses sample_tables).
Proof.
  split.
  - split; [lia|]. split; reflexivity.
  - apply (month_filter_is_conjunction sample_sidebar_month sample_tables 1
             738886 738900); [lia | reflexivity | reflexivity].
Defined.

(** The month filter narrows the window, it does not replace it: a
    January row outside the window is dropped, and so is the row without
    a parsed date. *)
Example month_filter_sample_rows :
  option_map (fun fd => List.map idx (daily_income fd))
    (date_filters
       {| date_preset := Custom; date_range := [738887; 738900];
          month_preset := "January"; selected_type := "All";
          selected_company := "All"; selected_expense := "All" |}
       sample_tables) = Some [3%nat].
Proof. reflexivity. Qed.

Lemma fold_max_spec (l : list Z) (x : Z) :
  In (fold_left Z.max l x) (x :: l) /\
  forall d, In d (x :: l) -> d <= fold_left Z.max l x.
Proof.
  revert x. induction l as [|y l IH]; intros x; cbn [fold_left].
  - split; [now left|]. intros d [->|[]]. lia.
  - destruct (IH (Z.max x y)) as [Hin Hle]. split.
    + destruct Hin as [Hin|Hin]; [|now right; right].
      rewrite <- Hin. destruct (Z.max_spec x y) as [[_ ->]|[_ ->]];
        [right; now left | now left].
    + intros d [->|[->|Hd]].
      * specialize (Hle (Z.max d y) (or_introl eq_refl)). lia.
      * specialize (Hle (Z.max x d) (or_introl eq_refl)). lia.
      * apply Hle. now right.
Qed.

Lemma fold_min_spec (l : list Z) (x : Z) :
  In (fold_left Z.min l x) (x :: l) /\
  forall d, In d (x :: l) -> fold_left Z.min l x <= d.
Proof.
  revert x. induction l as [|y l IH]; intros x; cbn [fold_left].
  - split; [now left|]. intros d [->|[]]. lia.
  - destruct (IH (Z.min x y)) as [Hin Hle]. split.
    + destruct Hin as [Hin|Hin]; [|now right; right].
      rewrite <- Hin. destruct (Z.min_spec x y) as [[_ ->]|[_ ->]];
        [now left | right; now left].
    + intros d [->|[->|Hd]].
      * specialize (Hle (Z.min d y) (or_introl eq_refl)). lia.
      * specialize (Hle (Z.min x d) (or_introl eq_refl)). lia.
      * apply Hle. now right.
Qed.

Lemma series_max_spec (l : list Z) (m : Z) :
  series_max l = Some m -> In m l /\ forall d, In d l -> d <= m.
Proof.
  destruct l as [|x l]; [discriminate|].
  intros [= <-]. apply fold_max_spec.
Qed.

Lemma series_min_spec (l : list Z) (m : Z) :
  series_min l = Some m -> In m l /\ forall d, In d l -> m <= d.
Proof.
  destruct l as [|x l]; [discriminate|].
  intros [= <-]. apply fold_min_spec.
Qed.



(** The resolved windows on the sample tables, whose latest dated
    daily-income row is 2024-01-03. *)
Example preset_windows_sample :
  List.map (fun p =>
      resolve_window
        {| date_preset := p; date_range := []; month_preset := "All";
           selected_type := "All"; selected_company := "All";
           selected_expense := "All" |} sample_tables)
    [Last_7_Days; Last_30_Days; Last_90_Days; Year_to_Date; All_Time] =
  [Some (738881, 738888); Some (738858, 738888); Some (738798, 738888);
   Some (738886, 738888); Some (738886, 738888)].
Proof. reflexivity. Qed.

Example week_preset_sample_rows :
  option_map (fun fd => (List.map idx (daily_income fd),
                         List.map p_idx (inventory fd),
                         List.map e_idx (expenses fd)))
    (sidebar_filters sample_sidebar_week sample_tables) =
  Some ([0%nat; 3%nat], [0%nat], [0%nat; 2%nat]).
Proof. reflexivity. Qed.

(** January 1 of a year is the first day of that year, for the years 1900
    to 2100; the calendar functions invert each other on every day from
    2000-01-01 to 2049-12-31. *)
Example new_year_1900_2100 :
  forallb (fun y =>
      match Calendar.ord2ymd (Calendar.ymd2ord y 1 1),
            Calendar.ord2ymd (Calendar.ymd2ord y 1 1 - 1) with
      | (y1, m1, d1), (y0, m0, d0) =>
          (y1 =? y) && (m1 =? 1) && (d1 =? 1)
          && (y0 =? y - 1) && (m0 =? 12) && (d0 =? 31)
      end) (List.map (fun k => 1900 + Z.of_nat k) (seq 0 201)) = true.
Proof. vm_compute. reflexivity. Qed.

Example ordinal_roundtrip_2000_2049 :
  snd (Pos.iter
         (fun st : Z * bool =>
            let (n, ok) := st in
            (n + 1,
             ok && match Calendar.ord2ymd n with
                   | (y, m, d) =>
                       (Calendar.ymd2ord y m d =? n) && (1 <=? m) && (m <=? 12)
                       && (1 <=? d) && (d <=? Calendar.days_in_month y m)
                   end))
         (Calendar.ymd2ord 2000 1 1, true) 18263%positive) = true.
Proof. vm_compute. reflexivity. Qed.

(** ** Forecast models *)




(** ** Revenue segments *)

(** *** Sorting *)

Lemma insert_sorted_perm x l : Permutation (insert_sorted x l) (x :: l).
Proof.
  induction l as [|y l IH]; cbn; [reflexivity|].
  destruct (Qle_bool x y); [reflexivity|].
  rewrite IH. apply perm_swap.
Qed.

Lemma sort_values_perm l : Permutation (sort_values l) l.
Proof.
  induction l as [|x l IH]; cbn; [reflexivity|].
  rewrite insert_sorted_perm. now constructor.
Qed.

Lemma sort_values_length l : length (sort_values l) = length l.
Proof. apply Permutation_length, sort_values_perm. Qed.

Lemma sort_values_In l v : In v (sort_values l) <-> In v l.
Proof.
  split; apply Permutation_in;
    [apply sort_values_perm | symmetry; apply sort_values_perm].
Qed.

Lemma insert_sorted_sorted x l :
  StronglySorted Qle l -> StronglySorted Qle (insert_sorted x l).
Proof.
  induction 1 as [|y l Hs IH Hall]; cbn.
  - repeat constructor.
  - destruct (Qle_bool x y) eqn:E.
    + apply Qle_bool_iff in E. constructor; [now constructor|].
      constructor; [exact E|].
      rewrite List.Forall_forall in Hall |- *. intros z Hz.
      eapply Qle_trans; [exact E|]. now apply Hall.
    + assert (Hyx : (y <= x)%Q).
      { apply Qlt_le_weak, Qnot_le_lt. intros H.
        apply Qle_bool_iff in H. congruence. }
      constructor; [exact IH|].
      rewrite List.Forall_forall. intros z Hz.
      apply (Permutation_in _ (insert_sorted_perm x l)) in Hz.
      destruct Hz as [<-|Hz]; [exact Hyx|].
      rewrite List.Forall_forall in Hall. now apply Hall.
Qed.

Lemma sort_values_sorted l : StronglySorted Qle (sort_values l).
Proof.
  induction l as [|x l IH]; cbn; [constructor|].
  now apply insert_sorted_sorted.
Qed.

(** In a sorted list, positions are ordered like their values. *)
Lemma sorted_nth_le (s : list Q) (d : Q) :
  StronglySorted Qle s ->
  forall i j, (i <= j < length s)%nat -> (nth i s d <= nth j s d)%Q.
Proof.
  induction 1 as [|x s Hs IH Hall]; intros i j Hij; cbn in Hij; [lia|].
  destruct j as [|j].
  - assert (i = 0)%nat as -> by lia. apply Qle_refl.
  - destruct i as [|i].
    + cbn. rewrite List.Forall_forall in Hall. apply Hall, nth_In. lia.
    + cbn. apply IH. lia.
Qed.

Lemma In_nth_exists (s : list Q) (v d : Q) :
  In v s -> exists k, (k < length s)%nat /\ nth k s d = v.
Proof. intros H. destruct (In_nth s v d H) as (k & Hk & Hv). eauto. Qed.

(** Every value lies between the first and the last of the sorted data. *)
Lemma sorted_bounds (x : list Q) (v d : Q) :
  In v x ->
  (nth 0 (sort_values x) d <= v)%Q /\
  (v <= nth (length x - 1) (sort_values x) d)%Q.
Proof.
  intros Hv. apply sort_values_In in Hv.
  destruct (In_nth_exists _ _ d Hv) as (k & Hk & <-).
  pose proof (sort_values_sorted x) as Hs.
  rewrite sort_values_length in Hk.
  split; apply sorted_nth_le; auto; rewrite sort_values_length; lia.
Qed.

(** *** Quantiles *)

(** The quantile at 0 is the smallest value, the quantile at 1 the
    largest. *)
Lemma quantile_at_0 (x : list Q) (q : Q) :
  (q == 0)%Q -> (quantile x q == nth 0 (sort_values x) 0)%Q.
Proof.
  intros Hq. unfold quantile. rewrite Qred_correct.
  set (s := sort_values x).
  assert (Hpos : (q * (inject_Z (Z.of_nat (length s)) - 1) == 0)%Q)
    by (rewrite Hq; ring).
  assert (Hfl : Qfloor (q * (inject_Z (Z.of_nat (length s)) - 1)) = 0%Z)
    by (rewrite Hpos; reflexivity).
  rewrite Hfl, Hpos. change (Z.to_nat 0) with 0%nat.
  generalize (nth 0 s 0%Q), (nth (0 + 1) s (nth 0 s 0%Q)). intros a b.
  unfold inject_Z. ring.
Qed.

Lemma quantile_at_1 (x : list Q) (q : Q) :
  (q == 1)%Q -> x <> [] ->
  (quantile x q == nth (length x - 1) (sort_values x) 0)%Q.
Proof.
  intros Hq Hx. unfold quantile. rewrite Qred_correct.
  pose proof (sort_values_length x) as Hlen.
  set (s := sort_values x) in *.
  assert (Hn : (1 <= length s)%nat).
  { rewrite Hlen. destruct x; [contradiction|cbn; lia]. }
  assert (Hpos : (q * (inject_Z (Z.of_nat (length s)) - 1)
                  == inject_Z (Z.of_nat (length s) - 1))%Q).
  { replace (Z.of_nat (length s) - 1)%Z
      with (Z.of_nat (length s) + - (1))%Z by lia.
    rewrite inject_Z_plus, inject_Z_opp, Hq.
    change (inject_Z 1) with 1%Q. ring. }
  assert (Hfl : Qfloor (q * (inject_Z (Z.of_nat (length s)) - 1))
                = (Z.of_nat (length s) - 1)%Z)
    by (rewrite Hpos; apply Qfloor_Z).
  rewrite Hfl, Hpos.
  replace (Z.to_nat (Z.of_nat (length s) - 1)) with (length x - 1)%nat by lia.
  generalize (nth (length x - 1) s 0%Q). intros a.
  generalize (nth (length x - 1 + 1) s a). intros b.
  generalize (inject_Z (Z.of_nat (length s) - 1)). intros c. ring.
Qed.

Lemma bin_edges_4 (x : list Q) :
  bin_edges x 4 =
  [quantile x (inject_Z 0 / inject_Z 4); quantile x (inject_Z 1 / inject_Z 4);
   quantile x (inject_Z 2 / inject_Z 4); quantile x (inject_Z 3 / inject_Z 4);
   quantile x (inject_Z 4 / inject_Z 4)].
Proof. reflexivity. Qed.

(** *** Segments *)

Lemma segment_counts_sum (segments : list (option string)) :
  Forall (fun s => exists l, s = Some l /\ In l segment_labels) segments ->
  (segment_count "Low" segments + segment_count "Medium-Low" segments
   + segment_count "Medium-High" segments + segment_count "High" segments
   = length segments)%nat.
Proof.
  unfold segment_count.
  induction 1 as [|s segments (l & -> & Hl) _ IH]; [reflexivity|].
  cbn [List.filter length].
  cbn [segment_labels In] in Hl.
  destruct Hl as [<-|[<-|[<-|[<-|[]]]]]; cbn; lia.
Qed.

Lemma qcut_without_duplicate_edges (x : list Q) :
  length (unique (bin_edges x 4)) = 5%nat ->
  qcut x 4 segment_labels =
  inr (List.map (cut_label (bin_edges x 4) segment_labels) x).
Proof.
  intros Hu. unfold qcut, bins_to_cuts.
  assert (Hlen : length (bin_edges x 4) = 5%nat) by reflexivity.
  rewrite Hu, Hlen. reflexivity.
Qed.

Lemma unique_length_le (l : list Q) : (length (unique l) <= length l)%nat.
Proof.
  induction l as [|e l IH]; cbn [unique length]; [lia|].
  pose proof (List.filter_length_le (fun y => negb (Qeq_bool e y)) (unique l)).
  lia.
Qed.

Lemma qcut_with_duplicate_edges (x : list Q) :
  length (unique (bin_edges x 4)) <> 5%nat ->
  qcut x 4 segment_labels = inl (ValueError "Bin edges must be unique").
Proof.
  intros Hu. unfold qcut, bins_to_cuts.
  assert (Hlen : length (bin_edges x 4) = 5%nat) by reflexivity.
  pose proof (unique_length_le (bin_edges x 4)) as Hle.
  rewrite Hlen in *.
  replace (length (unique (bin_edges x 4)) <? 5)%nat with true
    by (symmetry; apply Nat.ltb_lt; lia).
  reflexivity.
Qed.

(** *** Quantiles are monotone *)

Lemma lerp_between (a b f : Q) :
  (a <= b)%Q -> (0 <= f)%Q -> (f <= 1)%Q ->
  (a <= a + (b - a) * f)%Q /\ (a + (b - a) * f <= b)%Q.
Proof. intros Hab Hf0 Hf1. split; nra. Qed.

Lemma lerp_mono (a b f f' : Q) :
  (a <= b)%Q -> (f <= f')%Q -> (a + (b - a) * f <= a + (b - a) * f')%Q.
Proof. intros Hab Hf. nra. Qed.

(** The upper neighbour used by the interpolation: the next sorted value,
    or the value itself at the last position. *)
Lemma upper_neighbour (s : list Q) (lo : nat) :
  StronglySorted Qle s -> (lo < length s)%nat ->
  (nth lo s 0 <= nth (lo + 1) s (nth lo s 0))%Q /\
  forall j, (lo < j < length s)%nat ->
            (nth (lo + 1) s (nth lo s 0) <= nth j s 0)%Q.
Proof.
  intros Hs Hlo.
  destruct (Nat.lt_ge_cases (lo + 1) (length s)) as [H|H].
  - rewrite (nth_indep s (nth lo s 0%Q) 0%Q H). split.
    + apply sorted_nth_le; [exact Hs|lia].
    + intros j Hj. apply sorted_nth_le; [exact Hs|lia].
  - rewrite (nth_overflow s (nth lo s 0%Q) H). split; [apply Qle_refl|].
    intros j Hj. lia.
Qed.

(** The shape of a quantile: a position [lo] in the sorted data and a
    fraction [f] towards the next value. *)
Lemma quantile_shape (x : list Q) (q : Q) :
  x <> [] -> (0 <= q)%Q -> (q <= 1)%Q ->
  exists (lo : nat) (f : Q),
    (lo < length x)%nat /\ (0 <= f)%Q /\ (f < 1)%Q /\
    (inject_Z (Z.of_nat lo) + f
     == q * (inject_Z (Z.of_nat (length x)) - 1))%Q /\
    (quantile x q ==
     nth lo (sort_values x) 0
     + (nth (lo + 1) (sort_values x) (nth lo (sort_values x) 0)
        - nth lo (sort_values x) 0) * f)%Q.
Proof.
  intros Hx Hq0 Hq1. unfold quantile. rewrite sort_values_length.
  set (s := sort_values x).
  assert (Hn : (1 <= length x)%nat) by (destruct x; [contradiction|cbn; lia]).
  set (N := (inject_Z (Z.of_nat (length x)) - 1)%Q).
  assert (HN : (0 <= N)%Q).
  { unfold N. assert (H : (inject_Z 1 <= inject_Z (Z.of_nat (length x)))%Q)
      by (rewrite <- Zle_Qle; lia).
    change (inject_Z 1) with 1%Q in H. lra. }
  assert (Hp0 : (0 <= q * N)%Q) by nra.
  assert (Hp1 : (q * N <= N)%Q) by nra.
  pose proof (Qfloor_le (q * N)) as Hfl.
  pose proof (Qlt_floor (q * N)) as Hfu.
  assert (Hlo0 : (0 <= Qfloor (q * N))%Z).
  { change 0%Z with (Qfloor 0). now apply Qfloor_resp_le. }
  assert (Hlo1 : (Qfloor (q * N) <= Z.of_nat (length x) - 1)%Z).
  { replace (Z.of_nat (length x) - 1)%Z
      with (Qfloor (inject_Z (Z.of_nat (length x) - 1)))
      by apply Qfloor_Z.
    apply Qfloor_resp_le. eapply Qle_trans; [exact Hp1|].
    unfold N. replace (Z.of_nat (length x) - 1)%Z
      with (Z.of_nat (length x) + - (1))%Z by lia.
    rewrite inject_Z_plus, inject_Z_opp. change (inject_Z 1) with 1%Q. lra. }
  exists (Z.to_nat (Qfloor (q * N))), (q * N - inject_Z (Qfloor (q * N)))%Q.
  rewrite Z2Nat.id by assumption.
  rewrite inject_Z_plus in Hfu. change (inject_Z 1) with 1%Q in Hfu.
  split; [lia|]. split; [lra|]. split; [lra|]. split; [ring|].
  rewrite Qred_correct. reflexivity.
Qed.

Lemma quantile_mono (x : list Q) (q q' : Q) :
  x <> [] -> (0 <= q)%Q -> (q <= q')%Q -> (q' <= 1)%Q ->
  (quantile x q <= quantile x q')%Q.
Proof.
  intros Hx Hq0 Hqq Hq1.
  destruct (quantile_shape x q Hx) as (lo & f & Hlo & Hf0 & Hf1 & Hpos & ->);
    [lra..|].
  destruct (quantile_shape x q' Hx) as (lo' & f' & Hlo' & Hf0' & Hf1' & Hpos' & ->);
    [lra..|].
  pose proof (sort_values_sorted x) as Hs.
  pose proof (sort_values_length x) as Hlen.
  set (s := sort_values x) in *.
  assert (HN : (0 <= inject_Z (Z.of_nat (length x)) - 1)%Q).
  { assert (H : (inject_Z 1 <= inject_Z (Z.of_nat (length x)))%Q)
      by (rewrite <- Zle_Qle; destruct x; [contradiction|cbn; lia]).
    change (inject_Z 1) with 1%Q in H. lra. }
  assert (Hle : (inject_Z (Z.of_nat lo) + f <= inject_Z (Z.of_nat lo') + f')%Q).
  { rewrite Hpos, Hpos'. nra. }
  destruct (upper_neighbour s lo Hs) as [Hab Hnext]; [lia|].
  destruct (upper_neighbour s lo' Hs) as [Hab' _]; [lia|].
  destruct (lerp_between _ _ f Hab) as [_ Hup]; [lra..|].
  destruct (lerp_between _ _ f' Hab') as [Hdown _]; [lra..|].
  destruct (Nat.lt_trichotomy lo lo') as [Hlt|[->|Hgt]].
  - eapply Qle_trans; [exact Hup|].
    eapply Qle_trans; [|exact Hdown]. apply Hnext. lia.
  - apply lerp_mono; [exact Hab'|lra].
  - exfalso.
    assert (H : (inject_Z (Z.of_nat lo' + 1) <= inject_Z (Z.of_nat lo))%Q)
      by (rewrite <- Zle_Qle; lia).
    rewrite inject_Z_plus in H. change (inject_Z 1) with 1%Q in H. lra.
Qed.

(** *** Edges without duplicates are strictly increasing *)

Lemma filter_full {A : Type} (f : A -> bool) (l : list A) :
  length (List.filter f l) = length l ->
  List.filter f l = l /\ forall y, In y l -> f y = true.
Proof.
  induction l as [|y l IH]; cbn; [intros _; split; [reflexivity|tauto]|].
  pose proof (List.filter_length_le f l) as Hle.
  destruct (f y) eqn:E; cbn; intros H.
  - injection H as H. destruct (IH H) as [-> Hall]. split; [reflexivity|].
    intros z [<-|Hz]; auto.
  - lia.
Qed.

Lemma unique_full (l : list Q) :
  length (unique l) = length l ->
  unique l = l /\ ForallOrdPairs (fun a b => ~ (a == b)%Q) l.
Proof.
  induction l as [|e l IH]; cbn [unique length]; intros H.
  - split; [reflexivity|constructor].
  - pose proof (List.filter_length_le (fun y => negb (Qeq_bool e y)) (unique l)).
    pose proof (unique_length_le l).
    destruct IH as [IH1 IH2]; [lia|].
    rewrite IH1 in *.
    destruct (filter_full (fun y => negb (Qeq_bool e y)) l) as [-> Hall]; [lia|].
    split; [reflexivity|]. constructor; [|exact IH2].
    rewrite List.Forall_forall. intros y Hy Heq.
    apply Hall in Hy. apply Qeq_bool_iff in Heq. rewrite Heq in Hy.
    discriminate.
Qed.

Lemma quarter_points (k : Z) :
  (0 <= k <= 4)%Z ->
  (0 <= inject_Z k / inject_Z 4)%Q /\ (inject_Z k / inject_Z 4 <= 1)%Q /\
  (inject_Z (k - 1) / inject_Z 4 <= inject_Z k / inject_Z 4)%Q.
Proof.
  intros Hk.
  assert (k = 0 \/ k = 1 \/ k = 2 \/ k = 3 \/ k = 4)%Z
    as [->|[->|[->|[->| ->]]]] by lia;
    repeat split; intros H; discriminate H.
Qed.

Lemma distinct_edges_increase (x : list Q) :
  x <> [] ->
  length (unique (bin_edges x 4)) = 5%nat ->
  exists e0 e1 e2 e3 e4,
    bin_edges x 4 = [e0; e1; e2; e3; e4] /\
    (e0 < e1)%Q /\ (e1 < e2)%Q /\ (e2 < e3)%Q /\ (e3 < e4)%Q /\
    (e0 == nth 0 (sort_values x) 0)%Q /\
    (e4 == nth (length x - 1) (sort_values x) 0)%Q.
Proof.
  intros Hx Hu.
  destruct (quarter_points 0) as (A0 & B0 & _); [lia|].
  destruct (quarter_points 1) as (A1 & B1 & C1); [lia|].
  destruct (quarter_points 2) as (A2 & B2 & C2); [lia|].
  destruct (quarter_points 3) as (A3 & B3 & C3); [lia|].
  destruct (quarter_points 4) as (A4 & B4 & C4); [lia|].
  cbn [Z.sub Z.add Z.opp Z.pos_sub Pos.pred_double] in C1, C2, C3, C4.
  destruct (unique_full (bin_edges x 4)) as [_ Hp]; [exact Hu|].
  rewrite bin_edges_4 in *.
  do 5 eexists. split; [reflexivity|].
  inversion Hp as [|? ? Ha Hp1]; subst.
  inversion Hp1 as [|? ? Hb Hp2]; subst.
  inversion Hp2 as [|? ? Hc Hp3]; subst.
  inversion Hp3 as [|? ? Hd _]; subst.
  apply Forall_cons_iff in Ha as [Ha _].
  apply Forall_cons_iff in Hb as [Hb _].
  apply Forall_cons_iff in Hc as [Hc _].
  apply Forall_cons_iff in Hd as [Hd _].
  assert (L01 := quantile_mono x _ _ Hx A0 C1 B1).
  assert (L12 := quantile_mono x _ _ Hx A1 C2 B2).
  assert (L23 := quantile_mono x _ _ Hx A2 C3 B3).
  assert (L34 := quantile_mono x _ _ Hx A3 C4 B4).
  repeat split.
  - apply Qle_lt_or_eq in L01 as [H|H]; [exact H|contradiction].
  - apply Qle_lt_or_eq in L12 as [H|H]; [exact H|contradiction].
  - apply Qle_lt_or_eq in L23 as [H|H]; [exact H|contradiction].
  - apply Qle_lt_or_eq in L34 as [H|H]; [exact H|contradiction].
  - apply quantile_at_0. reflexivity.
  - apply quantile_at_1; [reflexivity|exact Hx].
Qed.

(** *** Labels *)

(** With strictly increasing edges the label of a value between the lowest
    and the highest edge names the right-closed interval it lies in, the
    lowest edge belonging to the first interval. *)
Lemma cut_label_interval (e0 e1 e2 e3 e4 v : Q) :
  (e0 < e1)%Q -> (e1 < e2)%Q -> (e2 < e3)%Q -> (e3 < e4)%Q ->
  (e0 <= v)%Q -> (v <= e4)%Q ->
  exists label,
    cut_label [e0; e1; e2; e3; e4] segment_labels v = Some label /\
    In label segment_labels /\
    (label = "Low"%string <-> (e0 <= v /\ v <= e1)%Q) /\
    (label = "Medium-Low"%string <-> (e1 < v /\ v <= e2)%Q) /\
    (label = "Medium-High"%string <-> (e2 < v /\ v <= e3)%Q) /\
    (label = "High"%string <-> (e3 < v /\ v <= e4)%Q).
Proof.
  intros H01 H12 H23 H34 Hlo Hhi.
  unfold cut_label, bin_id. cbn [searchsorted_left length].
  destruct (Qeq_bool v e0) eqn:E0.
  - apply Qeq_bool_iff in E0. exists "Low"%string. cbn.
    repeat split; intros; try discriminate; try lra; auto.
  - assert (Hlt : (e0 < v)%Q).
    { apply Qle_lt_or_eq in Hlo as [H|H]; [exact H|].
      symmetry in H. apply Qeq_bool_iff in H. congruence. }
    destruct (Qltb e0 v) eqn:L0;
      [|apply Qltb_lt in Hlt; congruence].
    destruct (Qltb e1 v) eqn:L1;
      [apply Qltb_lt in L1
      |apply not_true_iff_false in L1; rewrite Qltb_lt in L1].
    2:{ exists "Low"%string. cbn.
        repeat split; intros; try discriminate; try lra; auto. }
    destruct (Qltb e2 v) eqn:L2;
      [apply Qltb_lt in L2
      |apply not_true_iff_false in L2; rewrite Qltb_lt in L2].
    2:{ exists "Medium-Low"%string. cbn.
        repeat split; intros; try discriminate; try lra; auto. }
    destruct (Qltb e3 v) eqn:L3;
      [apply Qltb_lt in L3
      |apply not_true_iff_false in L3; rewrite Qltb_lt in L3].
    2:{ exists "Medium-High"%string. cbn.
        repeat split; intros; try discriminate; try lra; auto 6. }
    destruct (Qltb e4 v) eqn:L4;
      [apply Qltb_lt in L4; lra|].
    exists "High"%string. cbn.
    repeat split; intros; try discriminate; try lra; auto 6.
Qed.

Lemma segment_count_positive (label : string) (segments : list (option string)) :
  In (Some label) segments -> (1 <= segment_count label segments)%nat.
Proof.
  unfold segment_count. induction segments as [|s segments IH]; [intros []|].
  intros [->|H]; cbn [List.filter].
  - rewrite String.eqb_refl. cbn. lia.
  - specialize (IH H). destruct s as [l|]; [destruct (String.eqb l label)|];
      cbn; lia.
Qed.

Lemma members_between_edges (x : list Q) (e0 e4 v : Q) :
  (e0 == nth 0 (sort_values x) 0)%Q ->
  (e4 == nth (length x - 1) (sort_values x) 0)%Q ->
  In v x -> (e0 <= v)%Q /\ (v <= e4)%Q.
Proof.
  intros H0 H4 Hv. destruct (sorted_bounds x v 0 Hv) as [Hlo Hhi].
  rewrite H0, H4. auto.
Qed.

(** C8 (amended). When the five quartile edges of the filtered totals are
    pairwise distinct, [qcut] raises nothing: the edges are strictly
    increasing, every row gets exactly one of the labels Low, Medium-Low,
    Medium-High, High, namely that of the right-closed quartile interval
    its total lies in (the lowest edge counting for Low), the four segment
    counts add up to the number of rows, and the Low and the High segment
    are not empty. *)
Theorem quartile_segments (fd : filtered_data) :
  length (unique (bin_edges (List.map Total (daily_income fd)) 4)) = 5%nat ->
  exists e0 e1 e2 e3 e4 segments,
    bin_edges (List.map Total (daily_income fd)) 4 = [e0; e1; e2; e3; e4] /\
    (e0 < e1 /\ e1 < e2 /\ e2 < e3 /\ e3 < e4)%Q /\
    revenue_segment fd = inr segments /\
    length segments = length (daily_income fd) /\
    (forall i r, daily_income fd !! i = Some r ->
       exists label,
         segments !! i = Some (Some label) /\
         In label segment_labels /\
         (label = "Low"%string <-> (e0 <= Total r /\ Total r <= e1)%Q) /\
         (label = "Medium-Low"%string <-> (e1 < Total r /\ Total r <= e2)%Q) /\
         (label = "Medium-High"%string <-> (e2 < Total r /\ Total r <= e3)%Q) /\
         (label = "High"%string <-> (e3 < Total r /\ Total r <= e4)%Q)) /\
    (segment_count "Low" segments + segment_count "Medium-Low" segments
     + segment_count "Medium-High" segments + segment_count "High" segments
     = length (daily_income fd))%nat /\
    (1 <= segment_count "Low" segments)%nat /\
    (1 <= segment_count "High" segments)%nat.
Proof.
  intros Hu. unfold revenue_segment.
  set (x := List.map Total (daily_income fd)) in *.
  assert (Hx : x <> []).
  { intros E. rewrite E in Hu. vm_compute in Hu. discriminate Hu. }
  destruct (distinct_edges_increase x Hx Hu)
    as (e0 & e1 & e2 & e3 & e4 & Hb & H01 & H12 & H23 & H34 & He0 & He4).
  exists e0, e1, e2, e3, e4.
  exists (List.map (cut_label [e0; e1; e2; e3; e4] segment_labels) x).
  assert (Hlab : forall v, In v x ->
    exists label,
      cut_label [e0; e1; e2; e3; e4] segment_labels v = Some label /\
      In label segment_labels /\
      (label = "Low"%string <-> (e0 <= v /\ v <= e1)%Q) /\
      (label = "Medium-Low"%string <-> (e1 < v /\ v <= e2)%Q) /\
      (label = "Medium-High"%string <-> (e2 < v /\ v <= e3)%Q) /\
      (label = "High"%string <-> (e3 < v /\ v <= e4)%Q)).
  { intros v Hv.
    destruct (members_between_edges x e0 e4 v He0 He4 Hv) as [Hlo Hhi].
    now apply cut_label_interval. }
  pose proof (sort_values_length x) as Hlen.
  assert (Hn : (1 <= length x)%nat) by (destruct x; [contradiction|cbn; lia]).
  split; [exact Hb|]. split; [auto|].
  split; [rewrite qcut_without_duplicate_edges, Hb by exact Hu; reflexivity|].
  split; [unfold x; now rewrite !length_map|].
  split; [|split; [|split]].
  - intros i r Hr.
    assert (Hxi : x !! i = Some (Total r))
      by (unfold x; rewrite lookup_map, Hr; reflexivity).
    destruct (Hlab (Total r)) as (label & Hl & Hrest).
    { apply list_elem_of_In, list_elem_of_lookup. eauto. }
    exists label. split; [|exact Hrest].
    rewrite lookup_map, Hxi. cbn. now rewrite Hl.
  - rewrite segment_counts_sum; [unfold x; now rewrite !length_map|].
    rewrite List.Forall_forall. intros s Hs.
    apply in_map_iff in Hs as (v & <- & Hv).
    destruct (Hlab v Hv) as (label & Hl & Hin & _). eauto.
  - apply segment_count_positive.
    assert (Hv : In (nth 0 (sort_values x) 0%Q) x)
      by (apply sort_values_In, nth_In; lia).
    destruct (Hlab _ Hv) as (label & Hl & _ & [_ HLow] & _).
    assert (label = "Low"%string) as ->
      by (apply HLow; rewrite <- He0; split; [apply Qle_refl|lra]).
    rewrite <- Hl. now apply in_map.
  - apply segment_count_positive.
    assert (Hv : In (nth (length x - 1) (sort_values x) 0%Q) x)
      by (apply sort_values_In, nth_In; lia).
    destruct (Hlab _ Hv) as (label & Hl & _ & _ & _ & _ & [_ HHigh]).
    assert (label = "High"%string) as ->
      by (apply HHigh; rewrite <- He4; split; [lra|apply Qle_refl]).
    rewrite <- Hl. now apply in_map.
Qed.

(** Four days with totals 10, 20, 30, 40. *)
Lemma quartile_segments_four_days :
  length (unique (bin_edges (List.map Total (daily_income four_day_view)) 4))
    = 5%nat /\
  exists e0 e1 e2 e3 e4 segments,
    bin_edges (List.map Total (daily_income four_day_view)) 4
      = [e0; e1; e2; e3; e4] /\
    (e0 < e1 /\ e1 < e2 /\ e2 < e3 /\ e3 < e4)%Q /\
    revenue_segment four_day_view = inr segments /\
    length segments = length (daily_income four_day_view) /\
    (forall i r, daily_income four_day_view !! i = Some r ->
       exists label,
         segments !! i = Some (Some label) /\
         In label segment_labels /\
         (label = "Low"%string <-> (e0 <= Total r /\ Total r <= e1)%Q) /\
         (label = "Medium-Low"%string <-> (e1 < Total r /\ Total r <= e2)%Q) /\
         (label = "Medium-High"%string <-> (e2 < Total r /\ Total r <= e3)%Q) /\
         (label = "High"%string <-> (e3 < Total r /\ Total r <= e4)%Q)) /\
    (segment_count "Low" segments + segment_count "Medium-Low" segments
     + segment_count "Medium-High" segments + segment_count "High" segments
     = length (daily_income four_day_view))%nat /\
    (1 <= segment_count "Low" segments)%nat /\
    (1 <= segment_count "High" segments)%nat.
Proof.
  split.
  - reflexivity.
  - apply (quartile_segments four_day_view). reflexivity.
Defined.

Example four_day_segments :
  bin_edges (List.map Total (daily_income four_day_view)) 4 =
    [10; 35 # 2; 25; 65 # 2; 40]%Q /\
  revenue_segment four_day_view =
    inr [Some "Low"; Some "Medium-Low"; Some "Medium-High"; Some "High"]%string.
Proof. split; reflexivity. Qed.

(** Four distinct totals are not enough.  The totals 1, 2, 3, 4, 4 have four
    distinct values, yet their upper quartile and their maximum coincide
    and [qcut] raises; the totals 0, 1, 1, 3, 4, 5 have five distinct
    values and distinct edges, yet no row falls in Medium-Low. *)
Lemma distinct_totals_do_not_fill_segments :
  (length (unique (List.map Total (daily_income repeated_peak_view))) = 4%nat /\
   bin_edges (List.map Total (daily_income repeated_peak_view)) 4
     = [1; 2; 3; 4; 4]%Q /\
   revenue_segment repeated_peak_view
     = inl (ValueError "Bin edges must be unique")) /\
  (length (unique (List.map Total (daily_income gap_view))) = 5%nat /\
   bin_edges (List.map Total (daily_income gap_view)) 4
     = [0; 1; 2; 15 # 4; 5]%Q /\
   exists segments,
     revenue_segment gap_view = inr segments /\
     segment_count "Low" segments = 3%nat /\
     segment_count "Medium-Low" segments = 0%nat /\
     segment_count "Medium-High" segments = 1%nat /\
     segment_count "High" segments = 2%nat).
Proof.
  split.
  - repeat split; reflexivity.
  - split; [reflexivity|]. split; [reflexivity|].
    eexists. split; [reflexivity|]. repeat split; reflexivity.
Qed.

(** [qcut] raises exactly when two of the five edges coincide. *)
Lemma revenue_segment_raises_iff (fd : filtered_data) :
  (exists e, revenue_segment fd = inl e) <->
  length (unique (bin_edges (List.map Total (daily_income fd)) 4)) <> 5%nat.
Proof.
  unfold revenue_segment. split.
  - intros [e He] Hu. rewrite qcut_without_duplicate_edges in He by exact Hu.
    discriminate.
  - intros Hu. rewrite qcut_with_duplicate_edges by exact Hu. eauto.
Qed.

(** ** The forecasts of a run *)






Example two_days_train_all_models :
  let fd := {| daily_income := [sample_row0; sample_row1];
               inventory := []; expenses := [] |} in
  List.map fst (fst (forecasts_of_run fd 30 (95 # 100))) =
    ["Revenue"; "Expenses"; "Purchases"; "Net Profit"]%string /\
  snd (forecasts_of_run fd 30 (95 # 100)) = None.
Proof. split; reflexivity. Qed.

(** * Further properties of the dashboard code *)

(** ** Sums *)

Lemma fold_left_Qplus_acc (l : list Q) (a : Q) :
  (fold_left Qplus l a == a + fold_left Qplus l 0)%Q.
Proof.
  revert a. induction l as [|x l IH]; intros a; cbn [fold_left].
  - ring.
  - rewrite (IH (a + x)%Q), (IH (0 + x)%Q). ring.
Qed.

Lemma column_sum_nil : (column_sum [] == 0)%Q.
Proof. reflexivity. Qed.

Lemma column_sum_cons (x : Q) (l : list Q) :
  (column_sum (x :: l) == x + column_sum l)%Q.
Proof.
  unfold column_sum. rewrite !Qred_correct. cbn [fold_left].
  rewrite fold_left_Qplus_acc. ring.
Qed.

Lemma column_sum_app (l k : list Q) :
  (column_sum (l ++ k) == column_sum l + column_sum k)%Q.
Proof.
  induction l as [|x l IH]; cbn [app].
  - rewrite column_sum_nil. ring.
  - rewrite !column_sum_cons, IH. ring.
Qed.

(** ** Grouped sums *)

Lemma group_add_keys (k : Z) (v : Q) (groups : list (Z * Q)) (k' : Z) :
  In k' (group_keys (group_add k v groups)) <->
  k' = k \/ In k' (group_keys groups).
Proof.
  unfold group_keys. induction groups as [|[k0 s] rest IH]; cbn.
  - intuition.
  - destruct (k <? k0) eqn:E1; [cbn; intuition|].
    destruct (k =? k0) eqn:E2; cbn.
    + apply Z.eqb_eq in E2. subst. intuition.
    + rewrite IH. intuition.
Qed.

Lemma group_add_sorted (k : Z) (v : Q) (groups : list (Z * Q)) :
  StronglySorted Z.lt (group_keys groups) ->
  StronglySorted Z.lt (group_keys (group_add k v groups)).
Proof.
  unfold group_keys.
  induction groups as [|[k0 s] rest IH]; cbn; intros Hs.
  - repeat constructor.
  - apply StronglySorted_inv in Hs as [Hs Hall].
    destruct (k <? k0) eqn:E1.
    + apply Z.ltb_lt in E1. cbn. constructor.
      * constructor; assumption.
      * constructor; [exact E1|].
        rewrite List.Forall_forall in Hall |- *. intros z Hz.
        specialize (Hall z Hz). lia.
    + apply Z.ltb_ge in E1. destruct (k =? k0) eqn:E2; cbn.
      * constructor; assumption.
      * apply Z.eqb_neq in E2. constructor; [now apply IH|].
        rewrite List.Forall_forall in Hall |- *. intros z Hz.
        apply (group_add_keys k v rest z) in Hz as [->|Hz]; [lia|].
        now apply Hall.
Qed.

Lemma group_value_absent (k : Z) (groups : list (Z * Q)) :
  ~ In k (group_keys groups) -> group_lookup k groups = None.
Proof.
  unfold group_keys. induction groups as [|[k0 s] rest IH]; cbn; [reflexivity|].
  intros H. destruct (k =? k0) eqn:E.
  - apply Z.eqb_eq in E. subst. tauto.
  - apply IH. tauto.
Qed.

Lemma group_lookup_present (k : Z) (groups : list (Z * Q)) :
  In k (group_keys groups) -> exists s, group_lookup k groups = Some s.
Proof.
  unfold group_keys. induction groups as [|[k0 s] rest IH]; cbn; [tauto|].
  intros H. destruct (k =? k0) eqn:E; [eauto|].
  apply Z.eqb_neq in E. apply IH. destruct H; [congruence|assumption].
Qed.

(** Adding a row changes the value of its own group only. *)
Lemma group_add_value (k : Z) (v : Q) (groups : list (Z * Q)) (k' : Z) :
  StronglySorted Z.lt (group_keys groups) ->
  (group_value k' (group_add k v groups)
   == group_value k' groups + (if k' =? k then v else 0))%Q.
Proof.
  unfold group_value, group_keys.
  induction groups as [|[k0 s] rest IH]; cbn; intros Hs.
  - destruct (k' =? k); cbn; rewrite ?Qred_correct; ring.
  - apply StronglySorted_inv in Hs as [Hs Hall].
    destruct (k <? k0) eqn:E1.
    + apply Z.ltb_lt in E1. cbn. destruct (k' =? k) eqn:E.
      * apply Z.eqb_eq in E. subst k'.
        replace (k =? k0) with false by (symmetry; apply Z.eqb_neq; lia).
        rewrite group_value_absent.
        -- cbn. rewrite Qred_correct. ring.
        -- intros Hin. rewrite List.Forall_forall in Hall.
           specialize (Hall k Hin). lia.
      * ring.
    + destruct (k =? k0) eqn:E2; cbn.
      * apply Z.eqb_eq in E2. subst k0.
        destruct (k' =? k) eqn:E; cbn; rewrite ?Qred_correct; ring.
      * destruct (k' =? k0) eqn:E3.
        -- apply Z.eqb_eq in E3. subst k0. rewrite Z.eqb_sym, E2. cbn. ring.
        -- now apply IH.
Qed.

Lemma group_add_total (k : Z) (v : Q) (groups : list (Z * Q)) :
  (column_sum (List.map snd (group_add k v groups))
   == column_sum (List.map snd groups) + v)%Q.
Proof.
  induction groups as [|[k0 s] rest IH]; cbn.
  - rewrite column_sum_cons, column_sum_nil, Qred_correct. ring.
  - destruct (k <? k0); cbn.
    + rewrite !column_sum_cons, Qred_correct. ring.
    + destruct (k =? k0); cbn.
      * rewrite !column_sum_cons, Qred_correct. ring.
      * rewrite !column_sum_cons, IH. ring.
Qed.

Lemma groupby_sum_snoc {A : Type} (key : A -> option Z) (col : A -> Q)
    (rows : list A) (r : A) :
  groupby_sum key col (rows ++ [r]) =
  match key r with
  | Some k => group_add k (col r) (groupby_sum key col rows)
  | None => groupby_sum key col rows
  end.
Proof. unfold groupby_sum. now rewrite fold_left_app. Qed.

(** The groups of a frame: ascending distinct keys, exactly the keys that
    occur; each group holds the sum of its rows; nothing is lost but the
    rows without a key. *)
Lemma groupby_sum_spec {A : Type} (key : A -> option Z) (col : A -> Q)
    (rows : list A) :
  StronglySorted Z.lt (group_keys (groupby_sum key col rows)) /\
  (forall k, In k (group_keys (groupby_sum key col rows)) <->
             exists r, In r rows /\ key r = Some k) /\
  (forall k, (group_value k (groupby_sum key col rows)
              == column_sum (List.map col (List.filter (has_key key k) rows)))%Q) /\
  (column_sum (List.map snd (groupby_sum key col rows))
   == column_sum (List.map col (List.filter (has_any_key key) rows)))%Q.
Proof.
  induction rows as [|r rows (IH1 & IH2 & IH3 & IH4)] using rev_ind.
  - cbn. split; [constructor|]. split; [|split].
    + intros k. split; [intros []|intros (r & [] & _)].
    + intros k. reflexivity.
    + reflexivity.
  - rewrite groupby_sum_snoc. destruct (key r) as [k0|] eqn:Hk.
    + split; [now apply group_add_sorted|]. split; [|split].
      * intros k. rewrite group_add_keys, IH2. split.
        -- intros [->|(r' & Hr' & Hk')].
           ++ exists r. split; [apply in_or_app; right; now left|exact Hk].
           ++ exists r'. split; [apply in_or_app; now left|exact Hk'].
        -- intros (r' & Hr' & Hk'). apply in_app_or in Hr' as [Hr'|[<-|[]]].
           ++ right. eauto.
           ++ left. congruence.
      * intros k. rewrite group_add_value by assumption.
        rewrite List.filter_app, List.map_app, column_sum_app, IH3.
        cbn [List.filter].
        replace (has_key key k r) with (k0 =? k)
          by (unfold has_key; now rewrite Hk).
        rewrite (Z.eqb_sym k k0).
        destruct (k0 =? k); cbn [List.map];
          rewrite ?column_sum_cons, ?column_sum_nil; ring.
      * rewrite group_add_total.
        rewrite List.filter_app, List.map_app, column_sum_app, IH4.
        cbn [List.filter].
        replace (has_any_key key r) with true
          by (unfold has_any_key; now rewrite Hk).
        cbn [List.map]. rewrite column_sum_cons, column_sum_nil. ring.
    + split; [assumption|]. split; [|split].
      * intros k. rewrite IH2. split.
        -- intros (r' & Hr' & Hk'). exists r'. split; [|exact Hk'].
           apply in_or_app. now left.
        -- intros (r' & Hr' & Hk'). apply in_app_or in Hr' as [Hr'|[<-|[]]].
           ++ eauto.
           ++ congruence.
      * intros k. rewrite List.filter_app, List.map_app, column_sum_app, IH3.
        cbn [List.filter].
        replace (has_key key k r) with false
          by (unfold has_key; now rewrite Hk).
        cbn [List.map]. rewrite column_sum_nil. ring.
      * rewrite List.filter_app, List.map_app, column_sum_app, IH4.
        cbn [List.filter].
        replace (has_any_key key r) with false
          by (unfold has_any_key; now rewrite Hk).
        cbn [List.map]. rewrite column_sum_nil. ring.
Qed.

(** ** Sidebar filters: which rows reach a view *)

Lemma filter_filter_same {A : Type} (f : A -> bool) (l : list A) :
  List.filter f (List.filter f l) = List.filter f l.
Proof.
  induction l as [|x l IH]; [reflexivity|].
  cbn. destruct (f x) eqn:E; cbn; rewrite ?E, IH; reflexivity.
Qed.

Lemma filter_filter_comm {A : Type} (f g : A -> bool) (l : list A) :
  List.filter f (List.filter g l) = List.filter g (List.filter f l).
Proof.
  induction l as [|x l IH]; [reflexivity|].
  cbn. destruct (f x) eqn:Ef, (g x) eqn:Eg; cbn; rewrite ?Ef, ?Eg, IH;
    reflexivity.
Qed.

Lemma filter_andb {A : Type} (g h : A -> bool) (l : list A) :
  List.filter (fun x => g x && h x) l = List.filter g (List.filter h l).
Proof.
  induction l as [|x l IH]; [reflexivity|].
  cbn. destruct (h x) eqn:Eh, (g x) eqn:Eg; cbn; rewrite ?Eg, IH; reflexivity.
Qed.

Lemma filter_pair_same {A : Type} (f g : A -> bool) (l : list A) :
  List.filter f (List.filter g (List.filter f (List.filter g l))) =
  List.filter f (List.filter g l).
Proof.
  rewrite (filter_filter_comm g f (List.filter g l)).
  now rewrite !filter_filter_same.
Qed.

(** A date filter is a row filter whose test fails on a missing date. *)
Lemma date_filters_shape (sb : sidebar) (data : tables) (fd : filtered_data) :
  date_filters sb data = Some fd ->
  exists keep : option Z -> bool,
    keep None = false /\
    daily_income fd = List.filter (fun r => keep (date r)) (t_daily_income data) /\
    inventory fd =
      List.filter (fun r => keep (p_date r)) (t_inventory_purchases data) /\
    expenses fd = List.filter (fun r => keep (e_date r)) (t_expenses data).
Proof.
  unfold date_filters.
  destruct (resolve_window sb data) as [[start_date end_date]|]; [|discriminate].
  destruct (negb (String.eqb (month_preset sb) "All")).
  - destruct (index (month_preset sb) month_name) as [m|]; [|discriminate].
    intros [= <-].
    exists (in_month_and_window (Z.of_nat m) start_date end_date).
    cbn [daily_income inventory expenses].
    rewrite !month_and_window_filter. auto.
  - intros [= <-]. exists (in_window start_date end_date).
    cbn [daily_income inventory expenses].
    rewrite !window_only_filter. auto.
Qed.

Lemma additional_filters_shape (sb : sidebar) (fd : filtered_data) :
  daily_income (additional_filters sb fd) = daily_income fd /\
  inventory (additional_filters sb fd) =
    List.filter (fun r => String.eqb (selected_company sb) "All"
                          || String.eqb (Invoice_Company r) (selected_company sb))
      (List.filter (fun r => String.eqb (selected_type sb) "All"
                             || String.eqb (Inventory_Type r) (selected_type sb))
         (inventory fd)) /\
  expenses (additional_filters sb fd) =
    List.filter (fun r => String.eqb (selected_expense sb) "All"
                          || String.eqb (Expense_Type r) (selected_expense sb))
      (expenses fd).
Proof.
  assert (Hall : forall (A : Type) (l : list A), List.filter (fun _ => true) l = l).
  { intros A l. induction l as [|x l IH]; cbn; [reflexivity|now rewrite IH]. }
  unfold additional_filters, filter_inventory_type, filter_company,
    filter_expense_type.
  destruct (String.eqb (selected_type sb) "All"),
    (String.eqb (selected_company sb) "All"),
    (String.eqb (selected_expense sb) "All");
    cbn [negb orb daily_income inventory expenses];
    rewrite ?boolean_index_map, ?Hall; auto.
Qed.

(** X1. Rows without a parsed date never reach a filtered view: whatever the
    sidebar selects, every row of the three filtered tables has a date. *)
Theorem filtered_rows_are_dated (sb : sidebar) (data : tables) (fd : filtered_data) :
  sidebar_filters sb data = Some fd ->
  (forall r, In r (daily_income fd) -> exists d, date r = Some d) /\
  (forall r, In r (inventory fd) -> exists d, p_date r = Some d) /\
  (forall r, In r (expenses fd) -> exists d, e_date r = Some d).
Proof.
  unfold sidebar_filters.
  destruct (date_filters sb data) as [fd0|] eqn:Hd; [|discriminate].
  intros [= <-].
  destruct (date_filters_shape _ _ _ Hd) as (keep & Hk & H1 & H2 & H3).
  destruct (additional_filters_shape sb fd0) as (A1 & A2 & A3).
  rewrite A1, A2, A3, H1, H2, H3.
  repeat split; intros r Hr; repeat (apply filter_In in Hr as [Hr ?]).
  - destruct (date r) as [d|]; [eauto|congruence].
  - destruct (p_date r) as [d|]; [eauto|congruence].
  - destruct (e_date r) as [d|]; [eauto|congruence].
Qed.

Lemma filtered_rows_are_dated_sample :
  sidebar_filters sample_sidebar_week sample_tables =
    Some {| daily_income :=
              List.filter (fun r => in_window 738881 738888 (date r))
                (t_daily_income sample_tables);
            inventory :=
              List.filter (fun r => String.eqb (Inventory_Type r) "Medicine")
                (List.filter (fun r => in_window 738881 738888 (p_date r))
                   (t_inventory_purchases sample_tables));
            expenses :=
              List.filter (fun r => String.eqb (Expense_Type r) "Rent")
                (List.filter (fun r => in_window 738881 738888 (e_date r))
                   (t_expenses sample_tables)) |} /\
  forall r, In r (List.filter (fun r => in_window 738881 738888 (date r))
                    (t_daily_income sample_tables)) ->
            exists d, date r = Some d.
Proof.
  split.
  - reflexivity.
  - apply (filtered_rows_are_dated sample_sidebar_week sample_tables
             {| daily_income :=
                  List.filter (fun r => in_window 738881 738888 (date r))
                    (t_daily_income sample_tables);
                inventory :=
                  List.filter (fun r => String.eqb (Inventory_Type r) "Medicine")
                    (List.filter (fun r => in_window 738881 738888 (p_date r))
                       (t_inventory_purchases sample_tables));
                expenses :=
                  List.filter (fun r => String.eqb (Expense_Type r) "Rent")
                    (List.filter (fun r => in_window 738881 738888 (e_date r))
                       (t_expenses sample_tables)) |}).
    reflexivity.
Defined.

(** The sample row whose date did not parse is loaded but is in no view. *)
Example undated_row_in_no_view :
  In sample_row1 (t_daily_income sample_tables) /\
  forall p,
    option_map (fun fd => existsb (fun r => Nat.eqb (idx r) 1) (daily_income fd))
      (sidebar_filters
         {| date_preset := p; date_range := []; month_preset := "All";
            selected_type := "All"; selected_company := "All";
            selected_expense := "All" |} sample_tables) = Some false.
Proof.
  split; [right; left; reflexivity|]. intros []; reflexivity.
Qed.

Lemma eqb_All_or (sel v : string) :
  String.eqb sel "All" || String.eqb v sel = true <->
  sel = "All"%string \/ v = sel.
Proof. now rewrite orb_true_iff, !String.eqb_eq. Qed.

(** X2. The category selections act as a conjunction: an inventory row is kept
    when it matches the selected type and the selected company (["All"]
    matching every row), an expense row when it matches the selected
    expense type; the kept rows stay in order. *)
Theorem category_filters_select (sb : sidebar) (fd : filtered_data) :
  (forall r, In r (inventory (additional_filters sb fd)) <->
     In r (inventory fd) /\
     (selected_type sb = "All"%string \/ Inventory_Type r = selected_type sb) /\
     (selected_company sb = "All"%string \/
      Invoice_Company r = selected_company sb)) /\
  (forall r, In r (expenses (additional_filters sb fd)) <->
     In r (expenses fd) /\
     (selected_expense sb = "All"%string \/
      Expense_Type r = selected_expense sb)) /\
  inventory (additional_filters sb fd) `sublist_of` inventory fd /\
  expenses (additional_filters sb fd) `sublist_of` expenses fd.
Proof.
  destruct (additional_filters_shape sb fd) as (_ & A2 & A3).
  rewrite A2, A3. split; [|split; [|split]].
  - intros r. rewrite !filter_In, !eqb_All_or. tauto.
  - intros r. rewrite filter_In, eqb_All_or. tauto.
  - etransitivity; apply filter_sublist.
  - apply filter_sublist.
Qed.

Lemma filtered_data_eq (a b : filtered_data) :
  daily_income a = daily_income b -> inventory a = inventory b ->
  expenses a = expenses b -> a = b.
Proof. destruct a, b. cbn. now intros -> -> ->. Qed.

(** X3. Filtering twice is filtering once, and the type and the company filter
    can be applied in either order; the same holds for the two date
    selections on a frame. *)
Theorem filters_idempotent (sb : sidebar) (fd : filtered_data)
    (m start_date end_date : Z) :
  additional_filters sb (additional_filters sb fd) = additional_filters sb fd /\
  filter_company (selected_company sb)
    (filter_inventory_type (selected_type sb) fd) =
  filter_inventory_type (selected_type sb)
    (filter_company (selected_company sb) fd) /\
  month_and_window date m start_date end_date
    (month_and_window date m start_date end_date (daily_income fd)) =
  month_and_window date m start_date end_date (daily_income fd) /\
  window_only date start_date end_date
    (window_only date start_date end_date (daily_income fd)) =
  window_only date start_date end_date (daily_income fd) /\
  month_and_window date m start_date end_date (daily_income fd) =
  List.filter (fun r => match date r with
                        | Some d => Calendar.month_of d =? m
                        | None => false
                        end)
    (window_only date start_date end_date (daily_income fd)).
Proof.
  split; [|split; [|split; [|split]]].
  - destruct (additional_filters_shape sb fd) as (A1 & A2 & A3).
    destruct (additional_filters_shape sb (additional_filters sb fd))
      as (B1 & B2 & B3).
    apply filtered_data_eq.
    + now rewrite B1.
    + rewrite B2, A2. apply filter_pair_same.
    + rewrite B3, A3. apply filter_filter_same.
  - unfold filter_company, filter_inventory_type.
    destruct (negb (String.eqb (selected_company sb) "All")),
      (negb (String.eqb (selected_type sb) "All"));
      try reflexivity.
    apply filtered_data_eq; cbn [daily_income inventory expenses];
      try reflexivity.
    rewrite !boolean_index_map. apply filter_filter_comm.
  - rewrite !month_and_window_filter. apply filter_filter_same.
  - rewrite !window_only_filter. apply filter_filter_same.
  - rewrite month_and_window_filter, window_only_filter, <- filter_andb.
    apply filter_ext_bool. intros r.
    unfold in_month_and_window, in_window.
    destruct (date r) as [d|]; [|reflexivity].
    now rewrite andb_assoc.
Qed.

(** ** Search tab *)

(** X4. The company, type and amount filters of the search keep exactly the
    rows that pass all of them, in order; the result never has more rows
    than it started from. *)
Theorem search_refinement_selects
    (search_company search_type : string) (min_amount max_amount : Q)
    (search_results : list purchase_row) :
  (forall r,
     In r (SearchTab.refine_search_results search_company search_type
             min_amount max_amount search_results) <->
     In r search_results /\
     (search_company = "All"%string \/ Invoice_Company r = search_company) /\
     (search_type = "All"%string \/ Inventory_Type r = search_type) /\
     (min_amount <= Invoice_Amount r)%Q /\ (Invoice_Amount r <= max_amount)%Q) /\
  SearchTab.refine_search_results search_company search_type
    min_amount max_amount search_results `sublist_of` search_results /\
  (length (SearchTab.refine_search_results search_company search_type
             min_amount max_amount search_results)
   <= length search_results)%nat.
Proof.
  assert (Hall : forall (A : Type) (l : list A), List.filter (fun _ => true) l = l).
  { intros A l. induction l as [|x l IH]; cbn; [reflexivity|now rewrite IH]. }
  assert (Hshape :
    SearchTab.refine_search_results search_company search_type
      min_amount max_amount search_results =
    List.filter (fun r => Qle_bool min_amount (Invoice_Amount r)
                          && Qle_bool (Invoice_Amount r) max_amount)
      (List.filter (fun r => String.eqb search_type "All"
                             || String.eqb (Inventory_Type r) search_type)
         (List.filter (fun r => String.eqb search_company "All"
                                || String.eqb (Invoice_Company r) search_company)
            search_results))).
  { unfold SearchTab.refine_search_results.
    rewrite mask_and_map, boolean_index_map.
    destruct (String.eqb search_company "All"), (String.eqb search_type "All");
      cbn [negb orb]; rewrite ?boolean_index_map, ?Hall; reflexivity. }
  rewrite Hshape. split; [|split].
  - intros r. rewrite !filter_In, andb_true_iff, !Qle_bool_iff, !eqb_All_or.
    tauto.
  - etransitivity; [apply filter_sublist|].
    etransitivity; apply filter_sublist.
  - etransitivity; [apply List.filter_length_le|].
    etransitivity; apply List.filter_length_le.
Qed.

(** With the default amount bounds (0 up to the largest invoice) and no
    company or type selected, an invoice with a negative amount is left
    out of the search results. *)
Example search_defaults_drop_negative_amounts :
  List.map p_id
    (SearchTab.refine_search_results "All" "All" 0 200
       [ {| p_idx := 0; p_Date := Stamp 738887; p_date := Some 738887;
            p_id := "INV-1"; Invoice_Company := "Acme";
            Inventory_Type := "Medicine"; Invoice_Type := "Cash";
            Invoice_Amount := 200; Credit_Limit := 5000 |};
         {| p_idx := 1; p_Date := Stamp 738887; p_date := Some 738887;
            p_id := "CN-7"; Invoice_Company := "Acme";
            Inventory_Type := "Medicine"; Invoice_Type := "Return";
            Invoice_Amount := -50; Credit_Limit := 5000 |} ]) =
  ["INV-1"%string].
Proof. reflexivity. Qed.

(** ** Payment shares *)

Lemma Qgtb_true (q : Q) : (0 < q)%Q -> Qgtb q 0 = true.
Proof. intros H. now apply Qgtb_lt. Qed.

(** X6. With a positive total income the payment percentages of the overview,
    which divide without a test, are the guarded shares of the Revenue
    tab and of the export: the same expression gives the same value.  The
    two can differ only when income is zero or negative. *)
Theorem payment_deltas_agree_when_positive (fd : filtered_data) :
  (0 < total_income fd)%Q ->
  cash_delta fd = cash_percentage fd /\
  visa_delta fd = visa_percentage fd /\
  due_delta fd = due_percentage fd.
Proof.
  intros Hpos.
  unfold cash_delta, visa_delta, due_delta, cash_percentage, visa_percentage,
    due_percentage, pct_if_income, pct_of_income.
  rewrite (Qgtb_true _ Hpos). repeat split.
Qed.

Lemma payment_deltas_agree_four_days :
  (0 < total_income four_day_view)%Q /\
  (cash_delta four_day_view = cash_percentage four_day_view /\
   visa_delta four_day_view = visa_percentage four_day_view /\
   due_delta four_day_view = due_percentage four_day_view).
Proof.
  split.
  - reflexivity.
  - apply (payment_deltas_agree_when_positive four_day_view). reflexivity.
Defined.

(** A non-positive income (zero, or negative after refunds) makes every
    guarded ratio 0, whatever the numerator. *)
Lemma pct_if_income_nonpositive (fd : filtered_data) (x : num) :
  (total_income fd <= 0)%Q -> pct_if_income fd x = Fin 0.
Proof.
  intros H. unfold pct_if_income.
  replace (Qgtb (total_income fd) 0) with false; [reflexivity|].
  symmetry. apply not_true_iff_false. rewrite Qgtb_lt.
  intros Hlt. exact (Qlt_not_le _ _ Hlt H).
Qed.

(** ** Revenue tab *)

Lemma sorted_same_keys_short (keys : list Z) (k : Z) :
  StronglySorted Z.lt keys -> (forall k', In k' keys -> k' = k) ->
  (length keys <= 1)%nat.
Proof.
  intros Hs Hall. destruct keys as [|a [|b rest]]; cbn; try lia.
  exfalso. apply StronglySorted_inv in Hs as [_ Hlt].
  apply Forall_cons_iff in Hlt as [Hab _].
  rewrite (Hall a), (Hall b) in Hab; cbn; auto. lia.
Qed.

(** X8. Month-over-month growth is 0 when all rows of the view fall in one
    calendar month (or the view is empty): there is no second month to
    compare with. *)
Theorem mom_growth_single_month (fd : filtered_data) (k : Z) :
  (forall r d, In r (daily_income fd) -> date r = Some d ->
               RevenueTab.month_label d = k) ->
  RevenueTab.mom_growth fd = Fin 0.
Proof.
  intros Hall. unfold RevenueTab.mom_growth.
  destruct (groupby_sum_spec
              (fun r => option_map RevenueTab.month_label (date r)) Total
              (daily_income fd)) as (Hs & Hk & _ & _).
  fold (RevenueTab.monthly_revenue fd) in Hs, Hk.
  assert (Hlen : (length (RevenueTab.monthly_revenue fd) <= 1)%nat).
  { rewrite <- (length_map fst). apply (sorted_same_keys_short _ k Hs).
    intros k' Hk'. apply Hk in Hk' as (r & Hr & Hkey).
    destruct (date r) as [d|] eqn:Hd; [|discriminate].
    injection Hkey as <-. eapply Hall; eauto. }
  destruct (RevenueTab.monthly_revenue fd) as [|g1 [|g2 rest]];
    cbn in *; try reflexivity. lia.
Qed.

Lemma mom_growth_single_month_four_days :
  (forall r d, In r (daily_income four_day_view) -> date r = Some d ->
               RevenueTab.month_label d = 202401) /\
  RevenueTab.mom_growth four_day_view = Fin 0.
Proof.
  assert (H : forall r d, In r (daily_income four_day_view) ->
                          date r = Some d -> RevenueTab.month_label d = 202401).
  { intros r d Hr Hd. cbn in Hr.
    destruct Hr as [<-|[<-|[<-|[<-|[]]]]]; injection Hd as <-; reflexivity. }
  split.
  - exact H.
  - apply (mom_growth_single_month four_day_view 202401). exact H.
Defined.

(** Growth compares the last two months that have rows, and divides by the
    earlier one without a test: January 100, nothing in February, March
    150 gives 50; a January of 0 followed by a March of 150 gives an
    infinity. *)
Example mom_growth_skips_empty_months :
  let day (i : nat) (d : Z) (t : Q) :=
    {| idx := i; Date := Stamp d; date := Some d; Total := t; cash := t;
       visa := 0; due_amount := 0; Gross_Income_sys := t;
       net_income := Fin t; deficit := Fin 0 |} in
  RevenueTab.mom_growth
    {| daily_income := [day 0%nat 738886 100%Q; day 1%nat 738946 150%Q];
       inventory := []; expenses := [] |} = Fin 50 /\
  RevenueTab.mom_growth
    {| daily_income := [day 0%nat 738886 0%Q; day 1%nat 738946 150%Q];
       inventory := []; expenses := [] |} = PInf.
Proof. split; reflexivity. Qed.

(** *** Monthly average *)

Lemma all_same_min_max (l : list Z) (d0 lo hi : Z) :
  (forall d, In d l -> d = d0) ->
  series_min l = Some lo -> series_max l = Some hi -> hi - lo = 0.
Proof.
  intros Hall Hlo Hhi.
  apply series_min_spec in Hlo as [Hlo _].
  apply series_max_spec in Hhi as [Hhi _].
  rewrite (Hall _ Hlo), (Hall _ Hhi). lia.
Qed.

Lemma In_notna_dates {A : Type} (get : A -> option Z) (rows : list A) (d : Z) :
  In d (notna_dates (List.map get rows)) <->
  exists r, In r rows /\ get r = Some d.
Proof.
  unfold notna_dates. induction rows as [|r rows IH]; cbn.
  - split; [intros []|intros (r & [] & _)].
  - destruct (get r) as [d'|] eqn:E; cbn.
    + rewrite IH. split.
      * intros [->|(r' & Hr' & Hd)]; [exists r; auto|exists r'; auto].
      * intros (r' & [<-|Hr'] & Hd); [left; congruence|right; eauto].
    + rewrite IH. split.
      * intros (r' & Hr' & Hd). exists r'. auto.
      * intros (r' & [<-|Hr'] & Hd); [congruence|eauto].
Qed.

(** X9. The monthly average divides by the span of the view in days over 30,
    without a test: when all rows carry one and the same date (a single
    day selected) or the view is empty, the figure shown is an infinity
    or NaN, never a number. *)
Theorem monthly_average_single_day (fd : filtered_data) (d0 : Z) :
  (forall r d, In r (daily_income fd) -> date r = Some d -> d = d0) ->
  Num.isfinite (RevenueTab.monthly_average fd) = false.
Proof.
  intros Hall. unfold RevenueTab.monthly_average, RevenueTab.span_days.
  set (dates := notna_dates (List.map date (daily_income fd))).
  assert (Hd : forall d, In d dates -> d = d0).
  { intros d Hd. apply In_notna_dates in Hd as (r & Hr & Hrd). eauto. }
  destruct (series_min dates) as [lo|] eqn:Hlo;
    [|destruct (series_max dates); reflexivity].
  destruct (series_max dates) as [hi|] eqn:Hhi; [|reflexivity].
  rewrite (all_same_min_max dates d0 lo hi Hd Hlo Hhi).
  cbn. unfold Num.signed_inf.
  destruct (RevenueTab.total_revenue fd ?= 0)%Q; reflexivity.
Qed.

Lemma monthly_average_single_day_sample :
  (forall r d, In r (daily_income one_day_view) -> date r = Some d ->
               d = 738886) /\
  Num.isfinite (RevenueTab.monthly_average one_day_view) = false.
Proof.
  assert (H : forall r d, In r (daily_income one_day_view) ->
                          date r = Some d -> d = 738886).
  { intros r d [<-|[]] Hd. now injection Hd as <-. }
  split.
  - exact H.
  - apply (monthly_average_single_day one_day_view 738886). exact H.
Defined.

Example monthly_average_values :
  RevenueTab.monthly_average one_day_view = PInf /\
  RevenueTab.monthly_average empty_view = NaN /\
  RevenueTab.monthly_average four_day_view = Fin 1000.
Proof. repeat split; reflexivity. Qed.

(** ** Cross-correlation of two metrics *)

Lemma repeat_replicate {A : Type} (x : A) (n : nat) : repeat x n = replicate n x.
Proof. induction n; cbn; congruence. Qed.

Lemma shift_length (periods : Z) (s : list num) :
  length (shift periods s) = length s.
Proof.
  unfold shift. destruct (0 <=? periods).
  - rewrite length_take, length_app, repeat_length. lia.
  - rewrite length_app, length_drop, repeat_length. lia.
Qed.

Lemma shift_lookup (periods : Z) (s : list num) (i : nat) :
  0 <= periods -> (i < length s)%nat ->
  shift periods s !! i
  = if Z.of_nat i <? periods then Some NaN
    else s !! (i - Z.to_nat periods)%nat.
Proof.
  intros Hp Hi. unfold shift.
  destruct (Z.leb_spec 0 periods) as [_|]; [|lia].
  rewrite lookup_take_lt by exact Hi. rewrite repeat_replicate.
  destruct (Z.ltb_spec (Z.of_nat i) periods) as [H|H].
  - rewrite lookup_app_l by (rewrite length_replicate; lia).
    apply lookup_replicate_2. lia.
  - rewrite lookup_app_r by (rewrite length_replicate; lia).
    now rewrite length_replicate.
Qed.

Lemma ccf_correlation_abs (corr : list num -> list num -> num)
    (reference metric : list num) (lag : Z) :
  ccf_correlation corr reference metric lag
  = corr reference (shift (Z.abs lag) metric).
Proof.
  unfold ccf_correlation. destruct (Z.ltb_spec lag 0).
  - now rewrite Z.abs_neq by lia.
  - now rewrite Z.abs_eq by lia.
Qed.

(** X11. The lag's sign plays no part: both branches of the loop delay the
    compared metric by [|lag|] days, so a negative lag never looks ahead
    and the chart of a range [(-k, k)] reads the same in both directions. *)
Theorem ccf_ignores_lag_sign (corr : list num -> list num -> num)
    (reference metric : list num) (lag : Z) :
  ccf_correlation corr reference metric lag
  = corr reference (shift (Z.abs lag) metric) /\
  ccf_correlation corr reference metric (- lag)
  = ccf_correlation corr reference metric lag /\
  length (shift (Z.abs lag) metric) = length metric /\
  (forall i : nat, (i < length metric)%nat ->
    shift (Z.abs lag) metric !! i
    = if Z.of_nat i <? Z.abs lag then Some NaN
      else metric !! (i - Z.to_nat (Z.abs lag))%nat) /\
  reverse (List.map snd (ccf corr reference metric (- lag) lag))
  = List.map snd (ccf corr reference metric (- lag) lag).
Proof.
  split; [apply ccf_correlation_abs|].
  split; [now rewrite !ccf_correlation_abs, Z.abs_opp|].
  split; [apply shift_length|].
  split; [intros i Hi; apply shift_lookup; [apply Z.abs_nonneg|exact Hi]|].
  unfold ccf. rewrite List.map_map. cbn [snd].
  set (f := ccf_correlation corr reference metric).
  set (n := lag + 1 - - lag).
  apply list_eq. intros i.
  destruct (decide (i < Z.to_nat n)%nat) as [Hi|Hi].
  - rewrite reverse_lookup by (rewrite length_map, length_seqZ; lia).
    rewrite length_map, length_seqZ, !lookup_map.
    rewrite !lookup_seqZ_lt by lia. cbn [option_map].
    f_equal. unfold f. rewrite !ccf_correlation_abs.
    do 2 f_equal. lia.
  - rewrite !lookup_ge_None_2; [reflexivity| |].
    + rewrite length_map, length_seqZ. lia.
    + rewrite length_reverse, length_map, length_seqZ. lia.
Qed.

(** ** Index labels *)

Lemma imap_filter_labels {A B : Type} (lab : B -> nat) (p : B -> bool)
    (q : A -> bool) (l : list A) :
  forall (f : nat -> A -> B) (k : nat),
  (forall i r, lab (f i r) = (k + i)%nat) ->
  (forall i r, p (f i r) = q r) ->
  StronglySorted lt (List.map lab (List.filter p (imap f l))) /\
  Forall (fun n => (k <= n < k + length l)%nat)
    (List.map lab (List.filter p (imap f l))) /\
  length (List.filter p (imap f l)) = length (List.filter q l).
Proof.
  induction l as [|x l IH]; intros f k Hlab Hp.
  - cbn. repeat split; constructor.
  - destruct (IH (f ∘ S) (S k)) as (IH1 & IH2 & IH3).
    { intros i r. cbn. rewrite Hlab. lia. }
    { intros i r. cbn. apply Hp. }
    assert (Hb : Forall (fun n => (k <= n < k + length (x :: l))%nat)
                   (List.map lab (List.filter p (imap (f ∘ S) l)))).
    { eapply List.Forall_impl; [|exact IH2]. cbn. intros n Hn. lia. }
    cbn [imap List.filter]. rewrite Hp.
    destruct (q x); cbn [List.map length].
    + rewrite Hlab, Nat.add_0_r. split; [|split].
      * constructor; [exact IH1|].
        eapply List.Forall_impl; [|exact IH2]. cbn. intros n Hn. lia.
      * constructor; [cbn; lia|exact Hb].
      * now rewrite IH3.
    + auto.
Qed.

Lemma filter_sorted_labels {A : Type} (lab : A -> nat) (p : A -> bool)
    (l : list A) :
  StronglySorted lt (List.map lab l) ->
  StronglySorted lt (List.map lab (List.filter p l)).
Proof.
  induction l as [|x l IH]; cbn; [auto|].
  intros H. apply StronglySorted_inv in H as [Hs Hx].
  destruct (p x); cbn; [|auto].
  constructor; [auto|].
  rewrite List.Forall_forall in *. intros n Hn. apply Hx.
  apply in_map_iff in Hn as (r & <- & Hr). apply in_map.
  now apply filter_In in Hr.
Qed.

Lemma filter_all {A : Type} (f : A -> bool) (l : list A) :
  (forall x, f x = true) -> List.filter f l = l.
Proof.
  intros H. induction l as [|x l IH]; cbn; [reflexivity|].
  now rewrite H, IH.
Qed.

(** The rows [dropna] keeps: all of them when the [Date] column is
    numeric, those with a [Date] cell otherwise. *)
Lemma dropna_count {A : Type} (get : A -> cell) (l : list A) :
  length (List.filter
            (fun r => notnull (fillna_Date (List.map get l) (get r))) l)
  = if numeric_column (List.map get l) then length l
    else length (List.filter (fun r => notnull (get r)) l).
Proof.
  destruct (numeric_column (List.map get l)) eqn:E.
  - rewrite filter_all; [reflexivity|].
    intros x. now apply fillna_Date_notnull.
  - f_equal. apply filter_ext_bool. intros r.
    now rewrite fillna_Date_other.
Qed.

(** X12. [load_data] never resets the index: the rows it returns carry their
    sheet positions as labels, in increasing order (so no label occurs
    twice).  The rows with an empty [Date] cell are missing, unless the
    [Date] column is numeric (every cell a number or empty): then
    [fillna(0)] has filled the cells and no row is missing. *)
Theorem load_data_keeps_sheet_labels
    (parse : string -> option Z) (parse_number : Q -> option Z)
    (income : list income_sheet_row) (purchases : list purchase_sheet_row)
    (expenses : list expense_sheet_row) :
  let data := load_data parse parse_number income purchases expenses in
  (StronglySorted lt (List.map idx (t_daily_income data)) /\
   Forall (fun i => (i < length income)%nat)
     (List.map idx (t_daily_income data)) /\
   length (t_daily_income data)
   = if numeric_column (List.map s_Date income) then length income
     else length (List.filter (fun r => notnull (s_Date r)) income)) /\
  (StronglySorted lt (List.map p_idx (t_inventory_purchases data)) /\
   Forall (fun i => (i < length purchases)%nat)
     (List.map p_idx (t_inventory_purchases data)) /\
   length (t_inventory_purchases data)
   = if numeric_column (List.map ps_Date purchases) then length purchases
     else length (List.filter (fun r => notnull (ps_Date r)) purchases)) /\
  (StronglySorted lt (List.map e_idx (t_expenses data)) /\
   Forall (fun i => (i < length expenses)%nat)
     (List.map e_idx (t_expenses data)) /\
   length (t_expenses data)
   = if numeric_column (List.map es_Date expenses) then length expenses
     else length (List.filter (fun r => notnull (es_Date r)) expenses)).
Proof.
  cbn zeta. unfold load_data.
  cbn [t_daily_income t_inventory_purchases t_expenses].
  unfold income_frame, purchase_frame, expense_frame.
  split; [|split].
  - destruct (imap_filter_labels idx (fun r => notnull (Date r))
                (fun r => notnull (fillna_Date (List.map s_Date income)
                                     (s_Date r))) income
                (income_frame_row parse parse_number income purchases expenses)
                0)
      as (H1 & H2 & H3); [reflexivity|reflexivity|].
    split; [exact H1|]. split; [|rewrite H3; apply dropna_count].
    eapply List.Forall_impl; [|exact H2]. cbn. intros; lia.
  - match goal with |- context [imap ?f purchases] =>
      destruct (imap_filter_labels p_idx (fun r => notnull (p_Date r))
                  (fun r => notnull (fillna_Date (List.map ps_Date purchases)
                                       (ps_Date r))) purchases f 0)
        as (H1 & H2 & H3); [reflexivity|reflexivity|] end.
    split; [exact H1|]. split; [|rewrite H3; apply dropna_count].
    eapply List.Forall_impl; [|exact H2]. cbn. intros; lia.
  - match goal with |- context [imap ?f expenses] =>
      destruct (imap_filter_labels e_idx (fun r => notnull (e_Date r))
                  (fun r => notnull (fillna_Date (List.map es_Date expenses)
                                       (es_Date r))) expenses f 0)
        as (H1 & H2 & H3); [reflexivity|reflexivity|] end.
    split; [exact H1|]. split; [|rewrite H3; apply dropna_count].
    eapply List.Forall_impl; [|exact H2]. cbn. intros; lia.
Qed.

(** X13. Every filtered view keeps the labels of a loaded workbook in
    increasing order: a label names at most one row of a view. *)
Theorem view_labels_unique
    (parse : string -> option Z) (parse_number : Q -> option Z)
    (income_sheet : list income_sheet_row)
    (purchase_sheet : list purchase_sheet_row)
    (expense_sheet : list expense_sheet_row)
    (sb : sidebar) (fd : filtered_data) :
  sidebar_filters sb
    (load_data parse parse_number income_sheet purchase_sheet expense_sheet)
  = Some fd ->
  StronglySorted lt (List.map idx (daily_income fd)) /\
  StronglySorted lt (List.map p_idx (inventory fd)) /\
  StronglySorted lt (List.map e_idx (expenses fd)).
Proof.
  unfold sidebar_filters.
  destruct (date_filters sb _) as [fd0|] eqn:Hd; [|discriminate].
  intros [= <-].
  destruct (date_filters_shape _ _ _ Hd) as (keep & _ & H1 & H2 & H3).
  destruct (additional_filters_shape sb fd0) as (A1 & A2 & A3).
  rewrite A1, A2, A3, H1, H2, H3.
  unfold load_data.
  cbn [t_daily_income t_inventory_purchases t_expenses].
  unfold income_frame, purchase_frame, expense_frame.
  split; [|split].
  - apply filter_sorted_labels.
    eapply (imap_filter_labels idx _
              (fun r => notnull (fillna_Date (List.map s_Date income_sheet)
                                   (s_Date r)))
              income_sheet _ 0); reflexivity.
  - do 3 apply filter_sorted_labels.
    eapply (imap_filter_labels p_idx _
              (fun r => notnull (fillna_Date (List.map ps_Date purchase_sheet)
                                   (ps_Date r)))
              purchase_sheet _ 0); reflexivity.
  - do 2 apply filter_sorted_labels.
    eapply (imap_filter_labels e_idx _
              (fun r => notnull (fillna_Date (List.map es_Date expense_sheet)
                                   (es_Date r)))
              expense_sheet _ 0); reflexivity.
Qed.

Lemma view_labels_unique_sample :
  sidebar_filters sample_sidebar_week
    (load_data Calendar.parse_iso epoch_ns sample_income sample_purchases
       sample_expenses)
  = Some sample_week_view /\
  StronglySorted lt (List.map idx (daily_income sample_week_view)) /\
  StronglySorted lt (List.map p_idx (inventory sample_week_view)) /\
  StronglySorted lt (List.map e_idx (expenses sample_week_view)).
Proof.
  split.
  - reflexivity.
  - apply (view_labels_unique Calendar.parse_iso epoch_ns sample_income
             sample_purchases sample_expenses sample_sidebar_week
             sample_week_view).
    reflexivity.
Defined.

Example sample_labels :
  List.map idx (t_daily_income sample_tables) = [0; 1; 3]%nat /\
  List.map e_idx
    (t_expenses (load_data Calendar.parse_iso epoch_ns sample_income
                   sample_purchases undated_expenses)) = [0; 1]%nat.
Proof. split; reflexivity. Qed.

(** ** Presets on a loaded workbook *)

Lemma year_of_eq (d : Z) :
  let n400 := (d - 1) / 146097 in
  let r400 := (d - 1) mod 146097 in
  let n100 := r400 / 36524 in
  let r100 := r400 mod 36524 in
  let n4 := r100 / 1461 in
  let r4 := r100 mod 1461 in
  let n1 := r4 / 365 in
  Calendar.year_of d
  = if (n1 =? 4) || (n100 =? 4)
    then n400 * 400 + 1 + n100 * 100 + n4 * 4 + n1 - 1
    else n400 * 400 + 1 + n100 * 100 + n4 * 4 + n1.
Proof.
  cbv zeta. unfold Calendar.year_of, Calendar.ord2ymd.
  unfold Calendar.DI400Y, Calendar.DI100Y, Calendar.DI4Y. cbv zeta.
  match goal with |- context [if ?c then (_, 12, 31) else _] => destruct c end;
    [reflexivity|].
  match goal with |- context [if ?c then _ else _] => destruct c end;
    reflexivity.
Qed.

Lemma ymd2ord_new_year (y : Z) :
  Calendar.ymd2ord y 1 1 = Calendar.days_before_year y + 1.
Proof.
  unfold Calendar.ymd2ord, Calendar.days_before_month.
  change (nth (Z.to_nat 1) Calendar.DAYS_BEFORE_MONTH (-1)) with 0.
  change (2 <? 1) with false. cbn [andb]. lia.
Qed.

(** January 1 of a day's year is not after the day. *)
Lemma year_start_le (d : Z) :
  Calendar.ymd2ord (Calendar.year_of d) 1 1 <= d.
Proof.
  rewrite ymd2ord_new_year. pose proof (year_of_eq d) as Hy. cbv zeta in Hy.
  rewrite Hy. clear Hy. unfold Calendar.days_before_year.
  set (n := d - 1).
  set (n400 := n / 146097). set (r400 := n mod 146097).
  set (n100 := r400 / 36524). set (r100 := r400 mod 36524).
  set (n4 := r100 / 1461). set (r4 := r100 mod 1461).
  set (n1 := r4 / 365).
  assert (H400 : n = 146097 * n400 + r400 /\ 0 <= r400 < 146097)
    by (subst n400 r400; split; [apply Z.div_mod; lia | apply Z.mod_pos_bound; lia]).
  assert (H100 : r400 = 36524 * n100 + r100 /\ 0 <= r100 < 36524)
    by (subst n100 r100; split; [apply Z.div_mod; lia | apply Z.mod_pos_bound; lia]).
  assert (H4 : r100 = 1461 * n4 + r4 /\ 0 <= r4 < 1461)
    by (subst n4 r4; split; [apply Z.div_mod; lia | apply Z.mod_pos_bound; lia]).
  assert (H1 : 365 * n1 <= r4 < 365 * n1 + 365)
    by (subst n1; pose proof (Z.div_mod r4 365); pose proof (Z.mod_pos_bound r4 365); lia).
  assert (Hd : d = n + 1) by (subst n; lia).
  clearbody n400 r400 n100 r100 n4 r4 n1 n.
  destruct ((n1 =? 4) || (n100 =? 4)) eqn:E.
  - apply orb_true_iff in E. rewrite !Z.eqb_eq in E.
    Z.div_mod_to_equations. lia.
  - apply orb_false_iff in E. rewrite !Z.eqb_neq in E.
    Z.div_mod_to_equations. lia.
Qed.

(** X14. With a named preset and no month selected, the date block of the
    sidebar does not raise, its window is never inverted and its
    daily-income view is never empty: it holds every row of the latest day
    of the data.  The category filters that follow leave that view as it
    is. *)
Theorem named_preset_view_not_empty (sb : sidebar) (data : tables)
    (r0 : income_row) (d0 : Z) :
  date_preset sb <> Custom ->
  month_preset sb = "All"%string ->
  In r0 (t_daily_income data) -> date r0 = Some d0 ->
  exists fd0 start_date end_date,
    date_filters sb data = Some fd0 /\
    resolve_window sb data = Some (start_date, end_date) /\
    start_date <= end_date /\
    (exists r, In r (daily_income fd0) /\ date r = Some end_date) /\
    (forall r, In r (t_daily_income data) -> date r = Some end_date ->
               In r (daily_income fd0)) /\
    (forall fd, sidebar_filters sb data = Some fd ->
                daily_income fd = daily_income fd0).
Proof.
  intros Hpreset Hmonth Hr0 Hd0.
  set (dates := notna_dates (List.map date (t_daily_income data))).
  assert (Hin0 : In d0 dates) by (apply In_notna_dates; eauto).
  destruct (series_min dates) as [lo|] eqn:Hlo;
    [|destruct dates; [contradiction|discriminate]].
  destruct (series_max dates) as [hi|] eqn:Hhi;
    [|destruct dates; [contradiction|discriminate]].
  destruct (series_min_spec _ _ Hlo) as [_ Hmin].
  destruct (series_max_spec _ _ Hhi) as [Hhi_in Hmax].
  assert (Hlohi : lo <= hi) by (apply Hmin, Hhi_in).
  pose proof (year_start_le hi) as Hyear.
  assert (Hw : exists start_date,
             resolve_window sb data = Some (start_date, hi) /\
             start_date <= hi).
  { unfold resolve_window. fold dates. rewrite Hlo, Hhi.
    destruct (date_preset sb); [contradiction| | | | |];
      eexists; (split; [reflexivity|lia]). }
  destruct Hw as (start_date & Hw & Hle).
  assert (Hdf : date_filters sb data =
                Some {| daily_income :=
                          window_only date start_date hi (t_daily_income data);
                        inventory :=
                          window_only p_date start_date hi
                            (t_inventory_purchases data);
                        expenses :=
                          window_only e_date start_date hi (t_expenses data) |}).
  { unfold date_filters. rewrite Hw, Hmonth.
    cbn [String.eqb Ascii.eqb Bool.eqb negb andb]. reflexivity. }
  eexists _, start_date, hi. split; [exact Hdf|].
  split; [exact Hw|]. split; [exact Hle|].
  cbn [daily_income]. rewrite window_only_filter.
  assert (Hkeep : forall r, In r (t_daily_income data) -> date r = Some hi ->
            In r (List.filter (fun r => in_window start_date hi (date r))
                    (t_daily_income data))).
  { intros r Hr Hd. apply filter_In. split; [exact Hr|].
    apply in_window_spec. exists hi. split; [exact Hd|lia]. }
  split; [|split].
  - apply In_notna_dates in Hhi_in as (r & Hr & Hd). exists r. auto.
  - exact Hkeep.
  - intros fd. unfold sidebar_filters. rewrite Hdf. cbn [option_map].
    intros [= <-].
    destruct (additional_filters_shape sb
                {| daily_income :=
                     window_only date start_date hi (t_daily_income data);
                   inventory :=
                     window_only p_date start_date hi
                       (t_inventory_purchases data);
                   expenses :=
                     window_only e_date start_date hi (t_expenses data) |})
      as [-> _].
    cbn [daily_income]. apply window_only_filter.
Qed.

Lemma named_preset_view_not_empty_sample :
  exists fd0 start_date end_date,
    date_filters sample_sidebar_week sample_tables = Some fd0 /\
    resolve_window sample_sidebar_week sample_tables
    = Some (start_date, end_date) /\
    start_date <= end_date /\
    (exists r, In r (daily_income fd0) /\ date r = Some end_date) /\
    (forall r, In r (t_daily_income sample_tables) ->
               date r = Some end_date -> In r (daily_income fd0)) /\
    (forall fd, sidebar_filters sample_sidebar_week sample_tables = Some fd ->
                daily_income fd = daily_income fd0).
Proof.
  apply (named_preset_view_not_empty sample_sidebar_week sample_tables
           sample_row0 738886).
  - discriminate.
  - reflexivity.
  - left. reflexivity.
  - reflexivity.
Defined.

(** A custom range and a selected month can both leave the view empty. *)
Example custom_range_can_be_empty :
  option_map daily_income
    (sidebar_filters
       {| date_preset := Custom; date_range := [738000; 738001];
          month_preset := "All"; selected_type := "All";
          selected_company := "All"; selected_expense := "All" |}
       sample_tables) = Some [].
Proof. reflexivity. Qed.

(** ** Revenue against expenses, day by day *)

Lemma daily_data_rows (fd : filtered_data) (rows : list daily_data_row) :
  daily_data fd = Some rows ->
  daily_income fd <> [] /\ expenses fd <> [] /\
  rows = List.map (fun g : Z * Q =>
           let e := group_value (fst g)
                      (groupby_sum e_date Expense_Amount (expenses fd)) in
           let p := group_value (fst g)
                      (groupby_sum p_date Invoice_Amount (inventory fd)) in
           {| dd_date := fst g;
              dd_Total := snd g;
              dd_Expense_Amount := e;
              dd_Invoice_Amount := p;
              dd_net_profit := Qred (snd g - e - p) |})
         (groupby_sum date Total (daily_income fd)).
Proof.
  unfold daily_data.
  destruct (daily_income fd) as [|r l]; [discriminate|].
  destruct (expenses fd) as [|e l']; [discriminate|].
  intros [= <-]. repeat split; discriminate.
Qed.

(** The chart needs both income and expenses: without either the branch
    with the warning is taken, whatever the purchases are. *)
Lemma daily_data_none (fd : filtered_data) :
  daily_data fd = None <-> daily_income fd = [] \/ expenses fd = [].
Proof.
  unfold daily_data.
  destruct (daily_income fd) as [|r l], (expenses fd) as [|e l'];
    split; auto; try discriminate; intros [H|H]; discriminate.
Qed.

Example purchases_without_income_left_out :
  daily_data sample_week_view = Some sample_daily_data /\
  column_sum (List.map Invoice_Amount (inventory sample_week_view)) = 200%Q /\
  column_sum (List.map dd_Invoice_Amount sample_daily_data) = 0%Q.
Proof. repeat split; reflexivity. Qed.

(** ** The forecast frame against the chart frame *)

Lemma sum_on_date_has_key {A : Type} (get_date : A -> option Z)
    (amount : A -> Q) (rows : list A) (d : Z) :
  sum_on_date get_date amount rows (Some d)
  = column_sum (List.map amount (List.filter (has_key get_date d) rows)).
Proof.
  unfold sum_on_date. fold (has_key get_date d).
  now destruct (List.filter (has_key get_date d) rows).
Qed.

(** X16. The forecast frame and the chart frame agree on a day's expenses and
    purchases, and every dated row of the forecast frame has its day in the
    chart frame. *)
Theorem metrics_agree_with_chart (fd : filtered_data)
    (rows : list daily_data_row) (m : metrics_row) (d : Z) :
  daily_data fd = Some rows ->
  In m (daily_metrics fd) -> m_date m = Some d ->
  exists row, In row rows /\ dd_date row = d /\
    (m_expenses m == dd_Expense_Amount row)%Q /\
    (m_purchases m == dd_Invoice_Amount row)%Q /\
    (m_net_profit m == m_revenue m - m_expenses m - m_purchases m)%Q.
Proof.
  intros Hdd Hm Hd. apply daily_data_rows in Hdd as (_ & _ & ->).
  unfold daily_metrics in Hm. apply in_map_iff in Hm as (r & <- & Hr).
  cbn [m_date m_revenue m_expenses m_purchases m_net_profit] in *.
  destruct (groupby_sum_spec date Total (daily_income fd))
    as (_ & G2 & _ & _).
  destruct (groupby_sum_spec e_date Expense_Amount (expenses fd))
    as (_ & _ & E3 & _).
  destruct (groupby_sum_spec p_date Invoice_Amount (inventory fd))
    as (_ & _ & P3 & _).
  assert (Hk : In d (group_keys (groupby_sum date Total (daily_income fd))))
    by (apply G2; eauto).
  unfold group_keys in Hk. apply in_map_iff in Hk as ([k s] & Hfst & Hg).
  cbn [fst] in Hfst. subst k.
  eexists. split; [apply in_map_iff; exists (d, s); split; [reflexivity|exact Hg]|].
  cbn [dd_date dd_Expense_Amount dd_Invoice_Amount fst snd].
  split; [reflexivity|]. rewrite Hd, !sum_on_date_has_key.
  split; [now rewrite E3|]. split; [now rewrite P3|apply Qred_correct].
Qed.

Lemma metrics_agree_with_chart_sample :
  daily_data sample_week_view = Some sample_daily_data /\
  In sample_metrics_row (daily_metrics sample_week_view) /\
  exists row, In row sample_daily_data /\ dd_date row = 738886 /\
    (m_expenses sample_metrics_row == dd_Expense_Amount row)%Q /\
    (m_purchases sample_metrics_row == dd_Invoice_Amount row)%Q /\
    (m_net_profit sample_metrics_row
     == m_revenue sample_metrics_row - m_expenses sample_metrics_row
        - m_purchases sample_metrics_row)%Q.
Proof.
  split; [reflexivity|]. split; [left; reflexivity|].
  apply (metrics_agree_with_chart sample_week_view sample_daily_data
           sample_metrics_row 738886).
  - reflexivity.
  - left. reflexivity.
  - reflexivity.
Defined.

(** Where the two frames differ: two income rows of one day give two rows
    of the forecast frame, each with the day's full expenses, and one row
    of the chart. *)
Example repeated_day_counts_expenses_twice :
  let row := fun i t =>
    {| idx := i; Date := Stamp 738886; date := Some 738886; Total := t;
       cash := t; visa := 0; due_amount := 0; Gross_Income_sys := t;
       net_income := Fin t; deficit := Fin 0 |} in
  let fd :=
    {| daily_income := [row 0%nat 100%Q; row 1%nat 50%Q];
       inventory := [];
       expenses := [ {| e_idx := 0; e_Date := Stamp 738886;
                        e_date := Some 738886; Expense_Type := "Rent";
                        Expense_Amount := 30 |} ] |} in
  List.map m_expenses (daily_metrics fd) = [30; 30]%Q /\
  option_map (List.map dd_Expense_Amount) (daily_data fd) = Some [30%Q] /\
  option_map (List.map dd_Total) (daily_data fd) = Some [150%Q].
Proof. repeat split; reflexivity. Qed.
